(** * Gmail to Google Calendar confirmation-mail script: a shallow embedding

    The development follows [Joel_Swenson_gmail-gcal-interface-cli.py].
    The definitions come first:

    - [PyStr]: the operations of Python's [str] that the script uses
      ([split], [strip], [lower], [int], ...);
    - [Datetime]: naive and aware [datetime] values, their ordinal
      arithmetic and [isoformat];
    - [Strptime]: [datetime.strptime] as CPython's [_strptime] implements
      it (the format is turned into a backtracking regular expression),
      and [strftime] for the directives of the script's formats;
    - [Script]: the functions of the script itself, over a small monad with
      exceptions, standard output and a record of the calls made to the
      mail and calendar services; the services and the two time zones are
      parameters;
    - [Auth]: [authenticate_gmail_and_calendar] and
      [handle_refresh_error], over a monad of the same kind with a record
      of the calls made to the file system and to the Google libraries;
    - [Spec], [Shape], [Letters], [Written], [Runs] and [Memory]: the
      notions the properties are stated with.

    The facts about each layer follow, then the properties of the
    specification, in [ExtractorProperties] and [SchedulerProperties], and
    further properties of the code, in [AuthenticationProperties],
    [RunProperties], [PipelineProperties], [ExtractionProperties] and
    [ParserProperties].

    A Python character is modelled by an [ascii]: the code points below
    256.  Day and month names are those of the C locale. *)

From Stdlib Require Import Bool Arith ZArith Lia List Ascii String.
Import ListNotations.

Local Open Scope list_scope.
Local Open Scope string_scope.

(* ================================================================== *)
(** * Python strings *)
(* ================================================================== *)

Module PyStr.

(** [len(s)] *)
Definition len (s : string) : nat := String.length s.

(** [c.isspace()] for a code point below 256: TAB..CR, FS..US, SPACE,
    NEL (0x85) and NBSP (0xA0).  The class [\s] of [re] is the same. *)
Definition isspace (c : ascii) : bool :=
  let n := N_of_ascii c in
  (((9 <=? n) && (n <=? 13)) || ((28 <=? n) && (n <=? 32))
   || (n =? 133) || (n =? 160))%N.

(** [c.isdecimal()], the class [\d] of [re]: below 256 only ['0'..'9']. *)
Definition isdigit (c : ascii) : bool :=
  let n := N_of_ascii c in ((48 <=? n) && (n <=? 57))%N.

(** [c.lower()] for a code point below 256: A..Z and the Latin-1 capitals
    0xC0..0xDE (except the multiplication sign 0xD7) move up by 32. *)
Definition lower_char (c : ascii) : ascii :=
  let n := N_of_ascii c in
  if (((65 <=? n) && (n <=? 90))
      || ((192 <=? n) && (n <=? 222) && negb (n =? 215)))%N
  then ascii_of_N (n + 32) else c.

(** [s.lower()] *)
Fixpoint lower (s : string) : string :=
  match s with
  | EmptyString => EmptyString
  | String c s' => String (lower_char c) (lower s')
  end.

(** [s.startswith(p)] *)
Fixpoint startswith (p s : string) : bool :=
  match p, s with
  | EmptyString, _ => true
  | String a p', String b s' => Ascii.eqb a b && startswith p' s'
  | String _ _, EmptyString => false
  end.

(** [p in s]: [p] occurs in [s] as a substring. *)
Fixpoint contains (p s : string) : bool :=
  startswith p s ||
  match s with
  | EmptyString => false
  | String _ s' => contains p s'
  end.

(** [s.split(sep)] for a non-empty separator.  The string is scanned from
    the left; at each occurrence of [sep] the current piece is closed and
    the scan resumes after the occurrence, so the occurrences that count
    are the non-overlapping ones found left to right.  [skip] is the
    number of characters of the current occurrence still to be passed. *)
Fixpoint split_from (sep : string) (skip : nat) (s : string) : list string :=
  match s with
  | EmptyString => [EmptyString]
  | String c s' =>
      match skip with
      | S k => split_from sep k s'
      | O =>
          if startswith sep s
          then EmptyString :: split_from sep (String.length sep - 1) s'
          else match split_from sep 0 s' with
               | piece :: pieces => String c piece :: pieces
               | [] => [String c EmptyString]
               end
      end
  end.

Definition split (sep s : string) : list string := split_from sep 0 s.

(** [s.count(sep)]: the number of non-overlapping occurrences. *)
Fixpoint count_from (sep : string) (skip : nat) (s : string) : nat :=
  match s with
  | EmptyString => 0
  | String c s' =>
      match skip with
      | S k => count_from sep k s'
      | O =>
          if startswith sep s
          then S (count_from sep (String.length sep - 1) s')
          else count_from sep 0 s'
      end
  end.

Definition count (sep s : string) : nat := count_from sep 0 s.

(** [s[n:]] *)
Fixpoint skip (n : nat) (s : string) : string :=
  match n, s with
  | O, _ => s
  | S k, String _ s' => skip k s'
  | S _, EmptyString => EmptyString
  end.

(** [s.partition(sep)]: the text before the first occurrence of [sep] and
    the text after it; [None] when [sep] does not occur (Python then gives
    the whole string and two empty ones). *)
Fixpoint partition (sep s : string) : option (string * string) :=
  if startswith sep s then Some (EmptyString, skip (String.length sep) s)
  else
    match s with
    | EmptyString => None
    | String c s' =>
        match partition sep s' with
        | Some (before, after) => Some (String c before, after)
        | None => None
        end
    end.

(** [s.lstrip()], [s.rstrip()], [s.strip()] *)
Fixpoint lstrip (s : string) : string :=
  match s with
  | EmptyString => EmptyString
  | String c s' => if isspace c then lstrip s' else s
  end.

Fixpoint rstrip (s : string) : string :=
  match s with
  | EmptyString => EmptyString
  | String c s' =>
      match rstrip s' with
      | EmptyString => if isspace c then EmptyString else String c EmptyString
      | r => String c r
      end
  end.

Definition strip (s : string) : string := rstrip (lstrip s).

(** Every character of [s] is white space. *)
Fixpoint all_space (s : string) : bool :=
  match s with
  | EmptyString => true
  | String c s' => isspace c && all_space s'
  end.

(** The value of a decimal digit. *)
Definition digit_value (c : ascii) : Z := Z.of_N (N_of_ascii c) - 48.

Fixpoint digits_value (acc : Z) (s : string) : option Z :=
  match s with
  | EmptyString => Some acc
  | String c s' =>
      if isdigit c then digits_value (10 * acc + digit_value c) s' else None
  end.

(** [int(s)] on the strings the script meets: surrounding white space is
    dropped and what is left must be a non-empty run of decimal digits
    ([None] stands for [ValueError]; signs and underscores do not occur
    in the text captured by a directive). *)
Definition int (s : string) : option Z :=
  match strip s with
  | EmptyString => None
  | t => digits_value 0 t
  end.

(** The decimal digit of [d], [0 <= d < 10]. *)
Definition digit_char (d : Z) : ascii := ascii_of_N (Z.to_N (d mod 10) + 48).

(** ["%02d" % n] and ["%04d" % n] for [n] within the width; a larger [n]
    is printed in full by [str_of_Z] below. *)
Definition pad2 (n : Z) : string :=
  String (digit_char (n / 10)) (String (digit_char n) EmptyString).

Definition pad4 (n : Z) : string :=
  String (digit_char (n / 1000)) (String (digit_char (n / 100))
    (String (digit_char (n / 10)) (String (digit_char n) EmptyString))).

(** [str(n)] for [n >= 0]: the decimal digits, most significant first. *)
Fixpoint str_of_pos_fuel (fuel : nat) (n : Z) (acc : string) : string :=
  match fuel with
  | O => acc
  | S f =>
      let acc' := String (digit_char n) acc in
      if (n <? 10)%Z then acc' else str_of_pos_fuel f (n / 10) acc'
  end.

Definition str_of_Z (n : Z) : string :=
  str_of_pos_fuel (S (Z.to_nat (Z.log2 n))) n EmptyString.

End PyStr.


(* ================================================================== *)
(** * Dates and times *)
(* ================================================================== *)

Module Datetime.

Local Open Scope Z_scope.

(** A [datetime] without [tzinfo] (a naive one); the microsecond is always
    zero in this program and is left out. *)
Record datetime : Type := mkdatetime {
  year : Z; month : Z; day : Z;
  hour : Z; minute : Z; second : Z
}.

(** An aware [datetime]: the wall-clock fields and the [utcoffset()] of
    its [tzinfo], in seconds east of UTC. *)
Record aware : Type := mkaware {
  wall : datetime;
  utcoffset : Z
}.

Definition MINYEAR : Z := 1.
Definition MAXYEAR : Z := 9999.

(** [_is_leap(year)] *)
Definition is_leap (y : Z) : bool :=
  (y mod 4 =? 0) && (negb (y mod 100 =? 0) || (y mod 400 =? 0)).

(** [_days_before_year(year)]: days before January 1st of [year]. *)
Definition days_before_year (y : Z) : Z :=
  let y := y - 1 in y * 365 + y / 4 - y / 100 + y / 400.

(** [_DAYS_IN_MONTH[month]] *)
Definition DAYS_IN_MONTH (m : Z) : Z :=
  match m with
  | 1 => 31 | 2 => 28 | 3 => 31 | 4 => 30 | 5 => 31 | 6 => 30
  | 7 => 31 | 8 => 31 | 9 => 30 | 10 => 31 | 11 => 30 | 12 => 31
  | _ => -1
  end.

(** [_DAYS_BEFORE_MONTH[month]] *)
Definition DAYS_BEFORE_MONTH (m : Z) : Z :=
  match m with
  | 1 => 0 | 2 => 31 | 3 => 59 | 4 => 90 | 5 => 120 | 6 => 151
  | 7 => 181 | 8 => 212 | 9 => 243 | 10 => 273 | 11 => 304 | 12 => 334
  | _ => -1
  end.

(** [_days_in_month(year, month)] *)
Definition days_in_month (y m : Z) : Z :=
  if (m =? 2) && is_leap y then 29 else DAYS_IN_MONTH m.

(** [_days_before_month(year, month)] *)
Definition days_before_month (y m : Z) : Z :=
  DAYS_BEFORE_MONTH m + (if (2 <? m) && is_leap y then 1 else 0).

(** [_ymd2ord(year, month, day)]: January 1st of year 1 is day 1. *)
Definition ymd2ord (y m d : Z) : Z :=
  days_before_year y + days_before_month y m + d.

Definition DI400Y : Z := 146097.
Definition DI100Y : Z := 36524.
Definition DI4Y : Z := 1461.
Definition MAXORDINAL : Z := 3652059.

(** [_ord2ymd(n)] *)
Definition ord2ymd (n : Z) : Z * Z * Z :=
  let n := n - 1 in
  let n400 := n / DI400Y in
  let n := n mod DI400Y in
  let year := n400 * 400 + 1 in
  let n100 := n / DI100Y in
  let n := n mod DI100Y in
  let n4 := n / DI4Y in
  let n := n mod DI4Y in
  let n1 := n / 365 in
  let n := n mod 365 in
  let year := year + n100 * 100 + n4 * 4 + n1 in
  if (n1 =? 4) || (n100 =? 4) then (year - 1, 12, 31)
  else
    let leapyear := (n1 =? 3) && (negb (n4 =? 24) || (n100 =? 3)) in
    let month := Z.shiftr (n + 50) 5 in
    let preceding :=
      DAYS_BEFORE_MONTH month + (if (2 <? month) && leapyear then 1 else 0) in
    if n <? preceding then
      let month := month - 1 in
      let preceding :=
        preceding
        - (DAYS_IN_MONTH month + (if (month =? 2) && leapyear then 1 else 0)) in
      (year, month, n - preceding + 1)
    else (year, month, n - preceding + 1).

(** The month estimate of [_ord2ymd] and its correction, on their own:
    the month and the day of the month of day [r] of a year, counted
    from 0. *)
Definition month_of_day (leapyear : bool) (r : Z) : Z * Z :=
  let month := Z.shiftr (r + 50) 5 in
  let preceding :=
    DAYS_BEFORE_MONTH month + (if (2 <? month) && leapyear then 1 else 0) in
  if r <? preceding then
    (month - 1,
     r - (preceding
          - (DAYS_IN_MONTH (month - 1)
             + (if (month - 1 =? 2) && leapyear then 1 else 0))) + 1)
  else (month, r - preceding + 1).

(** [_check_date_fields] and [_check_time_fields]: what the constructor
    [datetime(...)] accepts; anything else is a [ValueError]. *)
Definition check_date_fields (y m d : Z) : bool :=
  (MINYEAR <=? y) && (y <=? MAXYEAR) && (1 <=? m) && (m <=? 12)
  && (1 <=? d) && (d <=? days_in_month y m).

Definition check_time_fields (h mi s : Z) : bool :=
  (0 <=? h) && (h <=? 23) && (0 <=? mi) && (mi <=? 59)
  && (0 <=? s) && (s <=? 59).

Definition valid (dt : datetime) : bool :=
  check_date_fields (year dt) (month dt) (day dt)
  && check_time_fields (hour dt) (minute dt) (second dt).

(** The constructor [datetime(year, month, day, hour, minute, second)];
    [None] is [ValueError]. *)
Definition new (y m d h mi s : Z) : option datetime :=
  if check_date_fields y m d && check_time_fields h mi s
  then Some (mkdatetime y m d h mi s) else None.

(** [dt.toordinal()] and [dt.weekday()] (Monday is 0). *)
Definition toordinal (dt : datetime) : Z :=
  ymd2ord (year dt) (month dt) (day dt).

Definition weekday (dt : datetime) : Z := (toordinal dt + 6) mod 7.

(** Seconds since 0000-12-31T00:00:00 on the wall clock of [dt]: the
    [timedelta] that [datetime.__add__] builds from [dt]. *)
Definition to_seconds (dt : datetime) : Z :=
  toordinal dt * 86400 + hour dt * 3600 + minute dt * 60 + second dt.

(** [dt + timedelta(seconds=delta)]: the sum is normalised to days and
    seconds and turned back into a date; [None] is [OverflowError]. *)
Definition add_seconds (dt : datetime) (delta : Z) : option datetime :=
  let total := to_seconds dt + delta in
  let days := total / 86400 in
  let rem := total mod 86400 in
  if (0 <? days) && (days <=? MAXORDINAL) then
    let '(y, m, d) := ord2ymd days in
    Some (mkdatetime y m d (rem / 3600) ((rem mod 3600) / 60) (rem mod 60))
  else None.

(** [a + timedelta(seconds=delta)] for an aware [a]: the wall clock moves,
    the [tzinfo] stays. *)
Definition aware_add_seconds (a : aware) (delta : Z) : option aware :=
  match add_seconds (wall a) delta with
  | Some w => Some (mkaware w (utcoffset a))
  | None => None
  end.

(** The instant an aware datetime denotes, in seconds on the UTC clock. *)
Definition instant (a : aware) : Z := to_seconds (wall a) - utcoffset a.

(** [dt.isoformat()] of a naive datetime with microsecond 0. *)
Definition isoformat (dt : datetime) : string :=
  (PyStr.pad4 (year dt) ++ "-" ++ PyStr.pad2 (month dt) ++ "-"
   ++ PyStr.pad2 (day dt) ++ "T" ++ PyStr.pad2 (hour dt) ++ ":"
   ++ PyStr.pad2 (minute dt) ++ ":" ++ PyStr.pad2 (second dt))%string.

(** [_format_offset(off)]: sign, hours and minutes, and the seconds when
    they are not zero. *)
Definition format_offset (off : Z) : string :=
  let sign := if off <? 0 then "-"%string else "+"%string in
  let a := Z.abs off in
  let hh := a / 3600 in
  let mm := (a mod 3600) / 60 in
  let ss := a mod 60 in
  let tail := if ss =? 0 then ""%string else (":" ++ PyStr.pad2 ss)%string in
  (sign ++ PyStr.pad2 hh ++ ":" ++ PyStr.pad2 mm ++ tail)%string.

(** [a.isoformat()] of an aware datetime. *)
Definition aware_isoformat (a : aware) : string :=
  (isoformat (wall a) ++ format_offset (utcoffset a))%string.

(** [datetime.fromisoformat(s)] on the shape [isoformat] writes for a
    naive datetime, [YYYY-MM-DDTHH:MM:SS]; the script reads back only what
    [isoformat] wrote.  [None] is [ValueError]. *)
Definition fromisoformat (s : string) : option datetime :=
  match s with
  | String y1 (String y2 (String y3 (String y4 (String "-"%char
     (String m1 (String m2 (String "-"%char
     (String d1 (String d2 (String "T"%char
     (String h1 (String h2 (String ":"%char
     (String i1 (String i2 (String ":"%char
     (String s1 (String s2 EmptyString)))))))))))))))))) =>
      let num cs := PyStr.digits_value 0 cs in
      match num (String y1 (String y2 (String y3 (String y4 EmptyString)))),
            num (String m1 (String m2 EmptyString)),
            num (String d1 (String d2 EmptyString)),
            num (String h1 (String h2 EmptyString)),
            num (String i1 (String i2 EmptyString)),
            num (String s1 (String s2 EmptyString)) with
      | Some y, Some m, Some d, Some h, Some mi, Some sec =>
          new y m d h mi sec
      | _, _, _, _, _, _ => None
      end
  | _ => None
  end.

End Datetime.

(* ================================================================== *)
(** * [datetime.strptime] and [strftime] *)
(* ================================================================== *)

Module Strptime.

Import Datetime.

(** ** The regular expressions [_strptime.TimeRE] builds

    Only the constructs that occur in the patterns of the directives are
    present.  The pattern is compiled with [re.IGNORECASE]. *)
Inductive regex : Type :=
| Eps                                  (* the empty pattern *)
| Chr (c : ascii)                      (* one literal character *)
| Range (lo hi : ascii)                (* [lo-hi] *)
| Digit                                (* \d *)
| Spaces                               (* \s+ *)
| Cat (r1 r2 : regex)                  (* r1 r2 *)
| Alt (r1 r2 : regex)                  (* r1|r2 *)
| Group (name : string) (r : regex).   (* (?P<name>r) *)

(** One way of matching a pattern at the start of a string: the text
    consumed, the named groups bound on the way, and what is left. *)
Record hit : Type := mkhit {
  consumed : string;
  groups : list (string * string);
  rest : string
}.

Definition in_range (lo hi c : ascii) : bool :=
  ((N_of_ascii lo <=? N_of_ascii c)
   && (N_of_ascii c <=? N_of_ascii hi))%N.

(** One character satisfying [p]. *)
Definition one (p : ascii -> bool) (s : string) : list hit :=
  match s with
  | String a s' => if p a then [mkhit (String a EmptyString) [] s'] else []
  | EmptyString => []
  end.

(** [\s+] is greedy: the longest run of white space is tried first, then
    the shorter ones, down to a single character. *)
Fixpoint spaces_plus (s : string) : list hit :=
  match s with
  | String a s' =>
      if PyStr.isspace a
      then map (fun h => mkhit (String a (consumed h)) [] (rest h))
               (spaces_plus s')
           ++ [mkhit (String a EmptyString) [] s']
      else []
  | EmptyString => []
  end.

(** All the ways [r] matches at the start of [s], in the order in which
    the backtracking matcher of [re] tries them. *)
Fixpoint rmatch (r : regex) (s : string) : list hit :=
  match r with
  | Eps => [mkhit EmptyString [] s]
  | Chr c =>
      one (fun a => Ascii.eqb (PyStr.lower_char a) (PyStr.lower_char c)) s
  | Range lo hi => one (in_range lo hi) s
  | Digit => one PyStr.isdigit s
  | Spaces => spaces_plus s
  | Cat r1 r2 =>
      flat_map
        (fun h1 =>
           map (fun h2 => mkhit (consumed h1 ++ consumed h2)
                                (groups h1 ++ groups h2)%list (rest h2))
               (rmatch r2 (rest h1)))
        (rmatch r1 s)
  | Alt r1 r2 => (rmatch r1 s ++ rmatch r2 s)%list
  | Group name r1 =>
      map (fun h => mkhit (consumed h) ((name, consumed h) :: groups h) (rest h))
          (rmatch r1 s)
  end.

(** [regex.match(s)]: the first way found, if any. *)
Definition re_match (r : regex) (s : string) : option hit :=
  hd_error (rmatch r s).

(** [found.groupdict().get(key)] *)
Fixpoint group (key : string) (gs : list (string * string)) : option string :=
  match gs with
  | [] => None
  | (k, v) :: gs' => if String.eqb k key then Some v else group key gs'
  end.

(** ** [LocaleTime] in the C locale *)

Definition day_name : list string :=
  ["Monday"; "Tuesday"; "Wednesday"; "Thursday"; "Friday"; "Saturday"; "Sunday"].
Definition day_abbr : list string :=
  ["Mon"; "Tue"; "Wed"; "Thu"; "Fri"; "Sat"; "Sun"].
Definition month_name : list string :=
  [""; "January"; "February"; "March"; "April"; "May"; "June"; "July";
   "August"; "September"; "October"; "November"; "December"].
Definition month_abbr : list string :=
  [""; "Jan"; "Feb"; "Mar"; "Apr"; "May"; "Jun"; "Jul"; "Aug"; "Sep"; "Oct";
   "Nov"; "Dec"].

Definition f_weekday : list string := map PyStr.lower day_name.
Definition a_weekday : list string := map PyStr.lower day_abbr.
Definition f_month : list string := map PyStr.lower month_name.
Definition a_month : list string := map PyStr.lower month_abbr.
Definition am_pm : list string := ["am"; "pm"].

(** [l.index(x)]; [None] is [ValueError]. *)
Fixpoint index (x : string) (l : list string) : option nat :=
  match l with
  | [] => None
  | y :: l' => if String.eqb y x then Some O else option_map S (index x l')
  end.

(** ** [TimeRE]: from a format to its pattern *)

(** [sorted(to_convert, key=len, reverse=True)]: longest first, names of
    the same length in their original order. *)
Fixpoint insert_by_len (x : string) (l : list string) : list string :=
  match l with
  | [] => [x]
  | y :: l' =>
      if (String.length y <=? String.length x)%nat then x :: l
      else y :: insert_by_len x l'
  end.

Definition sorted_by_len (l : list string) : list string :=
  fold_right insert_by_len [] l.

(** A word, letter by letter. *)
Fixpoint literal (w : string) : regex :=
  match w with
  | EmptyString => Eps
  | String c w' => Cat (Chr c) (literal w')
  end.

Fixpoint alternatives (ws : list string) : regex :=
  match ws with
  | [] => Eps
  | [w] => literal w
  | w :: ws' => Alt (literal w) (alternatives ws')
  end.

(** [__seqToRE(to_convert, directive)] *)
Definition seqToRE (to_convert : list string) (directive : string) : regex :=
  Group directive (alternatives (sorted_by_len to_convert)).

Definition R (lo hi : string) : regex :=
  match lo, hi with
  | String a _, String b _ => Range a b
  | _, _ => Eps
  end.

Definition C (c : string) : regex :=
  match c with String a _ => Chr a | _ => Eps end.

(** The entries of the [TimeRE] dictionary for the directives of the
    script's formats; any other directive is [None] here. *)
Definition directive (d : ascii) : option regex :=
  match String d EmptyString with
  | "d" => (* 3[0-1]|[1-2]\d|0[1-9]|[1-9]| [1-9] *)
      Some (Group "d"
        (Alt (Cat (C "3") (R "0" "1"))
        (Alt (Cat (R "1" "2") Digit)
        (Alt (Cat (C "0") (R "1" "9"))
        (Alt (R "1" "9")
             (Cat (C " ") (R "1" "9")))))))
  | "I" => (* 1[0-2]|0[1-9]|[1-9] *)
      Some (Group "I"
        (Alt (Cat (C "1") (R "0" "2"))
        (Alt (Cat (C "0") (R "1" "9"))
             (R "1" "9"))))
  | "M" => (* [0-5]\d|\d *)
      Some (Group "M" (Alt (Cat (R "0" "5") Digit) Digit))
  | "Y" => (* \d\d\d\d *)
      Some (Group "Y" (Cat Digit (Cat Digit (Cat Digit Digit))))
  | "A" => Some (seqToRE f_weekday "A")
  | "a" => Some (seqToRE a_weekday "a")
  | "B" => Some (seqToRE (tl f_month) "B")
  | "b" => Some (seqToRE (tl a_month) "b")
  | "p" => Some (seqToRE am_pm "p")
  | _ => None
  end.

(** [TimeRE.pattern(format)]: a run of white space in the format becomes
    [\s+], [%x] becomes the pattern of directive [x], any other character
    stands for itself.  [in_space] tells that the previous character was
    white space.  [None] is the [ValueError] for a stray [%] or a bad
    directive. *)
Fixpoint pattern_from (in_space : bool) (format : string) : option regex :=
  match format with
  | EmptyString => Some Eps
  | String c format' =>
      if PyStr.isspace c then
        if in_space then pattern_from true format'
        else option_map (Cat Spaces) (pattern_from true format')
      else if Ascii.eqb c "%" then
        match format' with
        | String d format'' =>
            match directive d, pattern_from false format'' with
            | Some r, Some k => Some (Cat r k)
            | _, _ => None
            end
        | EmptyString => None
        end
      else option_map (Cat (Chr c)) (pattern_from false format')
  end.

Definition pattern (format : string) : option regex :=
  pattern_from false format.

(** ** [_strptime] *)

(** The fields [_strptime] returns that [datetime.strptime] looks at, and
    the week day it found. *)
Record struct_time : Type := mkstruct_time {
  tm_year : Z; tm_mon : Z; tm_mday : Z;
  tm_hour : Z; tm_min : Z; tm_sec : Z;
  tm_wday : Z
}.

(** What a group says when it is present, a default when it is absent;
    [None] when the conversion of a present group raises. *)
Definition field (A : Type) (key : string) (gs : list (string * string))
    (convert : string -> option A) (default : A) : option A :=
  match group key gs with
  | Some text => convert text
  | None => Some default
  end.
Arguments field {A} key gs convert default.

Definition index_Z (names : list string) (text : string) : option Z :=
  option_map Z.of_nat (index (PyStr.lower text) names).

(** The hour of a 12-hour clock with its AM/PM marker. *)
Definition hour_of (gs : list (string * string)) (text : string) : option Z :=
  match PyStr.int text with
  | None => None
  | Some hour =>
      let ampm :=
        match group "p" gs with Some t => PyStr.lower t | None => "" end in
      if String.eqb ampm "" || String.eqb ampm "am"
      then Some (if (hour =? 12)%Z then 0%Z else hour)
      else if String.eqb ampm "pm"
      then Some (if (hour =? 12)%Z then hour else (hour + 12)%Z)
      else Some hour
  end.

Definition bind {A B : Type} (o : option A) (f : A -> option B) : option B :=
  match o with Some a => f a | None => None end.

(** [_strptime(data_string, format)]; [None] is [ValueError]: the string
    does not match, unconverted data remains, or the date does not
    exist. *)
Definition _strptime (data_string format : string) : option struct_time :=
  bind (pattern format) (fun format_regex =>
  bind (re_match format_regex data_string) (fun found =>
  if negb (String.eqb (rest found) "") then None else
  let found_dict := groups found in
  bind (field "Y" found_dict PyStr.int 1900%Z) (fun year =>
  bind (match group "B" found_dict with
        | Some t => index_Z f_month t
        | None => field "b" found_dict (index_Z a_month) 1%Z
        end) (fun month =>
  bind (field "d" found_dict PyStr.int 1%Z) (fun day =>
  bind (field "I" found_dict (hour_of found_dict) 0%Z) (fun hour =>
  bind (field "M" found_dict PyStr.int 0%Z) (fun minute =>
  bind (match group "A" found_dict with
        | Some t => option_map Some (index_Z f_weekday t)
        | None => field "a" found_dict
                    (fun t => option_map Some (index_Z a_weekday t)) None
        end) (fun weekday =>
  (* julian = datetime_date(year, month, day).toordinal() - ... *)
  if negb (check_date_fields year month day) then None else
  let weekday :=
    match weekday with
    | Some w => w
    | None => Datetime.weekday (mkdatetime year month day 0 0 0)
    end in
  Some (mkstruct_time year month day hour minute 0%Z weekday))))))))).

(** [datetime.strptime(data_string, format)] *)
Definition strptime (data_string format : string) : option datetime :=
  bind (_strptime data_string format) (fun tt =>
  Datetime.new (tm_year tt) (tm_mon tt) (tm_mday tt)
               (tm_hour tt) (tm_min tt) (tm_sec tt)).

(** ** [strftime] *)

Definition hour12 (h : Z) : Z :=
  (if h mod 12 =? 0 then 12 else h mod 12)%Z.

(** The text of one directive.  [%Y] is the year in decimal without
    padding, which is what the C library of Linux prints; from the year
    1000 on every platform prints these same four digits. *)
Definition format_directive (dt : datetime) (d : ascii) : option string :=
  match String d EmptyString with
  | "A" => Some (nth (Z.to_nat (weekday dt)) day_name "")
  | "a" => Some (nth (Z.to_nat (weekday dt)) day_abbr "")
  | "B" => Some (nth (Z.to_nat (month dt)) month_name "")
  | "b" => Some (nth (Z.to_nat (month dt)) month_abbr "")
  | "d" => Some (PyStr.pad2 (day dt))
  | "Y" => Some (PyStr.str_of_Z (year dt))
  | "I" => Some (PyStr.pad2 (hour12 (hour dt)))
  | "M" => Some (PyStr.pad2 (minute dt))
  | "p" => Some (if (hour dt <? 12)%Z then "AM" else "PM")
  | _ => None
  end.

(** [dt.strftime(format)] for a format made of the directives above and
    literal text; [None] for a format outside that. *)
Fixpoint strftime (dt : datetime) (format : string) : option string :=
  match format with
  | EmptyString => Some EmptyString
  | String c format' =>
      if Ascii.eqb c "%" then
        match format' with
        | String d format'' =>
            match format_directive dt d, strftime dt format'' with
            | Some t, Some k => Some (t ++ k)
            | _, _ => None
            end
        | EmptyString => None
        end
      else option_map (String c) (strftime dt format')
  end.

End Strptime.

(* ================================================================== *)
(** * The script *)
(* ================================================================== *)

Module Script.

Import Datetime.

(** ** Exceptions, outcomes and the state of a run *)

(** The exceptions the script tells apart: [HttpError] of the Google API
    client, [SystemExit] (which [except Exception] does not catch), and
    any other subclass of [Exception].  Each carries its [str()]. *)
Inductive exn : Type :=
| HttpError (text : string)
| SystemExit (code : Z)
| OtherException (text : string).

Definition is_HttpError (e : exn) : bool :=
  match e with HttpError _ => true | _ => false end.

Definition is_Exception (e : exn) : bool :=
  match e with SystemExit _ => false | _ => true end.

Definition str_of_exn (e : exn) : string :=
  match e with
  | HttpError t => t
  | SystemExit c => PyStr.str_of_Z c
  | OtherException t => t
  end.

Inductive outcome (A : Type) : Type :=
| Returned (a : A)
| Raised (e : exn).
Arguments Returned {A} a.
Arguments Raised {A} e.

(** One header of a message, and a message as the script reads it:
    [msg['payload']['headers']]. *)
Record header : Type := mkheader { name : string; value : string }.
Definition RawMessage : Type := list header.

(** An entry of [messages.list]: [message['id']]. *)
Record message_ref : Type := mkmessage_ref { id : string }.

(** An event resource of the calendar service.  A resource is never the
    empty dictionary, so it is true in a condition. *)
Record calendar_event : Type := mkcalendar_event {
  htmlLink : option string;
  event_summary : string
}.

(** The arguments of [events().list(...)] *)
Record events_query : Type := mkevents_query {
  calendarId : string;
  timeMin : string;
  timeMax : string;
  q : string;
  singleEvents : bool;
  orderBy : string
}.

Record event_time_zone : Type := mkevent_time_zone {
  dateTime : string;
  timeZone : string
}.

(** The [body] of [events().insert(...)] *)
Record event_body : Type := mkevent_body {
  summary : string;
  start : event_time_zone;
  end_ : event_time_zone;
  attendees : list string
}.

(** The calls a run makes to its collaborators, in order. *)
Inductive call : Type :=
| Authenticate
| MessagesList (query : string) (maxResults : Z)
| MessagesGet (msg_id : string)
| EventsList (query : events_query)
| EventsInsert (cal : string) (body : event_body).

(** How a call ended. *)
Inductive reply : Type :=
| Answered
| Failed (e : exn).

(** The collaborators: the mail and calendar services with a state [S] of
    their own, and the two time zones the conversion consults. *)
Record services (S : Type) : Type := mkservices {
  (* authenticate_gmail_and_calendar(), out of scope here *)
  authenticate : S -> outcome unit * S;
  (* users().messages().list(userId='me', q, maxResults).execute()
     .get('messages', []) *)
  messages_list : string -> Z -> S -> outcome (list message_ref) * S;
  (* users().messages().get(userId='me', id).execute() *)
  messages_get : string -> S -> outcome RawMessage * S;
  (* events().list(...).execute().get('items', []) *)
  events_list : events_query -> S -> outcome (list calendar_event) * S;
  (* events().insert(calendarId, body).execute() *)
  events_insert : string -> event_body -> S -> outcome calendar_event * S;
  (* the UTC offset, in seconds, of the system's local time zone at a
     local time; None when the platform cannot tell *)
  local_utcoffset : datetime -> option Z;
  (* the UTC offset, in seconds, of America/Chicago at a UTC time *)
  chicago_utcoffset : datetime -> Z
}.
Arguments authenticate {S} _ _.
Arguments messages_list {S} _ _ _ _.
Arguments messages_get {S} _ _ _.
Arguments events_list {S} _ _ _.
Arguments events_insert {S} _ _ _ _.
Arguments local_utcoffset {S} _ _.
Arguments chicago_utcoffset {S} _ _.

(** The state of a run: the services, what was printed, and the calls
    made so far, each with the way it ended. *)
Record world (S : Type) : Type := mkworld {
  remote : S;
  stdout : list string;
  calls : list (call * reply)
}.
Arguments mkworld {S} _ _ _.
Arguments remote {S} _.
Arguments stdout {S} _.
Arguments calls {S} _.

(** A computation of the script. *)
Definition M (S A : Type) : Type := world S -> outcome A * world S.

Definition ret {S A : Type} (a : A) : M S A := fun w => (Returned a, w).

Definition bind {S A B : Type} (c : M S A) (k : A -> M S B) : M S B :=
  fun w =>
    match c w with
    | (Returned a, w') => k a w'
    | (Raised e, w') => (Raised e, w')
    end.

Definition raise {S A : Type} (e : exn) : M S A := fun w => (Raised e, w).

(** [try: body except <catches> as e: handler(e)] *)
Definition try_except {S A : Type} (body : M S A) (catches : exn -> bool)
    (handler : exn -> M S A) : M S A :=
  fun w =>
    match body w with
    | (Returned a, w') => (Returned a, w')
    | (Raised e, w') => if catches e then handler e w' else (Raised e, w')
    end.

(** [print(line)] *)
Definition print {S : Type} (line : string) : M S unit :=
  fun w => (Returned tt, mkworld (remote w) (stdout w ++ [line])%list (calls w)).

Definition reply_of {A : Type} (r : outcome A) : reply :=
  match r with Returned _ => Answered | Raised e => Failed e end.

(** A call to a collaborator: the services answer it, and the call is
    recorded with the way it ended. *)
Definition request {S A : Type} (c : call) (f : S -> outcome A * S) : M S A :=
  fun w =>
    let '(r, s') := f (remote w) in
    (r, mkworld s' (stdout w) (calls w ++ [(c, reply_of r)])%list).

Declare Scope script_scope.
Delimit Scope script_scope with script.
Notation "x <- c ;; k" := (bind c (fun x => k))
  (at level 61, c at next level, right associativity) : script_scope.
Notation "c ;; k" := (bind c (fun _ => k))
  (at level 61, right associativity) : script_scope.
Local Open Scope script_scope.

(** The double quote character, as a string. *)
Definition dquote : string := String (ascii_of_nat 34) EmptyString.

(** [sep.join(l)] *)
Fixpoint join (sep : string) (l : list string) : string :=
  match l with
  | [] => ""
  | [x] => x
  | x :: l' => x ++ sep ++ join sep l'
  end.

(** ** [parse_event_time] *)

Definition formats : list string :=
  [ "%A, %B %d, %Y %I:%M %p";
    "%A, %b %d, %Y %I:%M %p";
    "%a, %B %d, %Y %I:%M %p";
    "%a, %b %d, %Y %I:%M %p" ].

(** The [for fmt in formats] loop: the first format that [strptime]
    accepts gives the result; a [ValueError] moves on to the next. *)
Fixpoint try_formats (event_time_str : string) (fmts : list string)
    : option datetime :=
  match fmts with
  | [] => None
  | fmt :: fmts' =>
      match Strptime.strptime event_time_str fmt with
      | Some dt => Some dt
      | None => try_formats event_time_str fmts'
      end
  end.

Definition parse_event_time {S : Type} (event_time_str : string)
    : M S (option datetime) :=
  match try_formats event_time_str formats with
  | Some dt => ret (Some dt)
  | None =>
      print ("Error: Unable to parse time data '" ++ event_time_str ++ "'") ;;
      print ("Expected formats are: " ++ join ", " formats) ;;
      ret None
  end.

(** ** [extract_event_details] *)

(** The dictionary [extract_event_details] returns. *)
Record event_details : Type := mkevent_details {
  event_name : string;
  event_time : string
}.

Definition marker : string := "Registration Confirmation: ".
Definition separator : string := " on ".

(** The [for header in msg['payload']['headers']] loop with its [break]. *)
Fixpoint find_subject (headers : list header) : option string :=
  match headers with
  | [] => None
  | h :: hs => if String.eqb (name h) "Subject" then Some (value h)
               else find_subject hs
  end.

(** The body of the [try] block, from the subject line on. *)
Definition extract_from_subject {S : Type} (subject_line : string)
    : M S (option event_details) :=
  print "Subject Line:" ;;
  print subject_line ;;
  let split_subject := PyStr.split marker subject_line in
  if (1 <? List.length split_subject)%nat then
    let details := PyStr.split separator (nth 1 split_subject "") in
    if negb (List.length details =? 2)%nat then
      print "Error: Subject line does not contain expected 'on' separator." ;;
      ret None
    else
      let gcal_event_name := PyStr.strip (nth 0 details "") in
      let gcal_event_time := PyStr.strip (nth 1 details "") in
      print ("Extracted Event Name: " ++ gcal_event_name) ;;
      print ("Extracted Event Time: " ++ gcal_event_time) ;;
      event_time_obj <- parse_event_time gcal_event_time ;;
      match event_time_obj with
      | None => ret None
      | Some obj =>
          ret (Some (mkevent_details gcal_event_name (isoformat obj)))
      end
  else
    print "Error: The subject line does not contain the expected 'Registration Confirmation: ' format." ;;
    ret None.

Definition extract_event_details {S : Type} (msg : RawMessage)
    : M S (option event_details) :=
  match find_subject msg with
  | None | Some EmptyString =>
      print "Error: Unable to find subject line in the email." ;;
      ret None
  | Some subject_line =>
      try_except (extract_from_subject subject_line) is_Exception
        (fun e =>
           print ("Error while extracting event details: " ++ str_of_exn e) ;;
           ret None)
  end.

Section WithServices.

Context {S : Type} (svc : services S).

(** ** [get_confirmation_emails] *)

Definition get_confirmation_emails (query : string) (max_messages : Z)
    : M S (list message_ref) :=
  try_except
    (messages <- request (MessagesList query max_messages)
                   (messages_list svc query max_messages) ;;
     match messages with
     | [] =>
         print ("No messages found matching the query: " ++ dquote ++ query ++ dquote) ;;
         print "Please check if the subject line in your Gmail search query is correct." ;;
         ret []
     | _ =>
         print ("Found " ++ PyStr.str_of_Z (Z.of_nat (List.length messages))
                ++ " messages.") ;;
         ret messages
     end)
    is_HttpError
    (fun error =>
       print ("An error occurred while fetching emails: " ++ str_of_exn error) ;;
       ret []).

(** ** [check_existing_event] *)

Definition check_existing_event (event_name start_time_iso end_time_iso : string)
    : M S (list calendar_event) :=
  let query := mkevents_query "primary" start_time_iso end_time_iso event_name
                 true "startTime" in
  request (EventsList query) (events_list svc query).

(** ** [create_calendar_event] *)

Definition overflow {A : Type} (o : option A) : M S A :=
  match o with
  | Some a => ret a
  | None => raise (OtherException "date value out of range")
  end.

(** [naive.astimezone(chicago_tz)]: the naive time is read in the system's
    local time zone, taken to UTC, and from there to the wall clock of
    America/Chicago. *)
Definition astimezone_chicago (naive : datetime) : M S aware :=
  myoffset <- overflow (local_utcoffset svc naive) ;;
  utc <- overflow (add_seconds naive (- myoffset)) ;;
  let offset := chicago_utcoffset svc utc in
  local <- overflow (add_seconds utc offset) ;;
  ret (mkaware local offset).

Definition create_calendar_event (details : event_details) (email1 email2 : string)
    : M S (option calendar_event) :=
  start_time_obj <-
    match fromisoformat (event_time details) with
    | Some dt => ret dt
    | None => raise (OtherException
                       ("Invalid isoformat string: '" ++ event_time details ++ "'"))
    end ;;
  start_time_obj <- astimezone_chicago start_time_obj ;;
  end_time_obj <- overflow (aware_add_seconds start_time_obj 3600) ;;
  let start_time_iso := aware_isoformat start_time_obj in
  let end_time_iso := aware_isoformat end_time_obj in
  existing_events <-
    check_existing_event (event_name details) start_time_iso end_time_iso ;;
  match existing_events with
  | _ :: _ =>
      print ("Event " ++ dquote ++ event_name details ++ dquote
             ++ " already exists at this time.") ;;
      ret None
  | [] =>
      let event :=
        mkevent_body (event_name details)
          (mkevent_time_zone start_time_iso "America/Chicago")
          (mkevent_time_zone end_time_iso "America/Chicago")
          [email1; email2] in
      try_except
        (event <- request (EventsInsert "primary" event)
                    (events_insert svc "primary" event) ;;
         print ("Event created: "
                ++ match htmlLink event with Some l => l | None => "None" end) ;;
         ret (Some event))
        is_HttpError
        (fun error =>
           print ("An error occurred while creating the event: "
                  ++ str_of_exn error) ;;
           ret None)
  end.

(** ** [main] *)

(** The body of the [for message in messages] loop: the new value of
    [events_created]. *)
Definition process_message (email1 email2 : string) (message : message_ref)
    (events_created : Z) : M S Z :=
  try_except
    (msg <- request (MessagesGet (id message)) (messages_get svc (id message)) ;;
     details <- extract_event_details msg ;;
     match details with
     | Some details =>
         event <- create_calendar_event details email1 email2 ;;
         match event with
         | Some _ => ret (events_created + 1)%Z
         | None => ret events_created
         end
     | None => ret events_created
     end)
    is_HttpError
    (fun error =>
       print ("An error occurred while processing a message: "
              ++ str_of_exn error) ;;
       ret events_created).

Fixpoint for_messages (email1 email2 : string) (messages : list message_ref)
    (events_created : Z) : M S Z :=
  match messages with
  | [] => ret events_created
  | message :: messages' =>
      events_created <- process_message email1 email2 message events_created ;;
      for_messages email1 email2 messages' events_created
  end.

Definition completed (events_created : Z) : string :=
  "Process completed. " ++ PyStr.str_of_Z events_created ++ " events were created.".

Definition main (email1 email2 query : string) (max_messages : Z) : M S unit :=
  try_except
    (request Authenticate (authenticate svc) ;;
     messages <- get_confirmation_emails query max_messages ;;
     match messages with
     | [] => print "No messages found. Exiting program."
     | _ =>
         events_created <- for_messages email1 email2 messages 0%Z ;;
         print (completed events_created)
     end)
    is_Exception
    (fun e => print ("An unexpected error occurred: " ++ str_of_exn e)).

End WithServices.

(** ** A calendar held in memory

    A stand-in for the two services, used to run the script on concrete
    mailboxes: the mailbox is a list of messages with their identifiers,
    the calendar the list of the bodies inserted so far.  A query finds
    the events with the same summary and the same start. *)
Module Fake.

Record state : Type := mkstate {
  mailbox : list (string * RawMessage);
  calendar : list event_body
}.

Fixpoint lookup (key : string) (l : list (string * RawMessage))
    : option RawMessage :=
  match l with
  | [] => None
  | (k, m) :: l' => if String.eqb k key then Some m else lookup key l'
  end.

Definition matches (query : events_query) (b : event_body) : bool :=
  String.eqb (summary b) (q query)
  && String.eqb (dateTime (start b)) (timeMin query).

Definition resource (b : event_body) : calendar_event :=
  mkcalendar_event (Some ("https://calendar.example/" ++ summary b)) (summary b).

(** Both time zones sit at a fixed offset from UTC. *)
Definition svc (local_off chicago_off : Z) : services state :=
  mkservices state
    (fun s => (Returned tt, s))
    (fun _ n s =>
       (Returned (map (fun km => mkmessage_ref (fst km))
                      (firstn (Z.to_nat n) (mailbox s))), s))
    (fun key s =>
       match lookup key (mailbox s) with
       | Some m => (Returned m, s)
       | None => (Raised (HttpError "404 Not Found"), s)
       end)
    (fun query s =>
       (Returned (map resource (filter (matches query) (calendar s))), s))
    (fun _ body s =>
       (Returned (resource body),
        mkstate (mailbox s) (calendar s ++ [body])%list))
    (fun _ => Some local_off)
    (fun _ => chicago_off).

(** The same services behind a connection that drops while the message
    [key] is fetched: the exception of the transport, which is not an
    [HttpError], reaches the script. *)
Definition dropping (key : string) (local_off chicago_off : Z) : services state :=
  let reached := svc local_off chicago_off in
  mkservices state
    (authenticate reached)
    (messages_list reached)
    (fun k s =>
       if String.eqb k key then (Raised (OtherException "timed out"), s)
       else messages_get reached k s)
    (events_list reached)
    (events_insert reached)
    (local_utcoffset reached)
    (chicago_utcoffset reached).

Definition start_world (s : state) : world state := mkworld s [] [].

(** A mailbox of four confirmation mails: the first scenario of the
    specification, a subject without its separator, the first one again,
    and a subject whose time no format accepts. *)
Definition beginners : RawMessage :=
  [mkheader "From" "noreply@studio.example";
   mkheader "Subject"
     "Registration Confirmation: Beginners (White/Orng/Yellow) on Saturday, January 11, 2025 9:00 AM"].

Definition demo_mailbox : list (string * RawMessage) :=
  [("m1", beginners);
   ("m2", [mkheader "Subject" "Registration Confirmation: Advanced Class"]);
   ("m3", beginners);
   ("m4", [mkheader "Subject" "Registration Confirmation: Sparring on next Friday"])].

End Fake.

End Script.

(* ================================================================== *)
(** * Authentication *)
(* ================================================================== *)

Module Auth.

(** ** Exceptions, results and the state of a run *)

(** [authenticate_gmail_and_calendar] tells one more exception apart than
    the rest of the script does: [FileNotFoundError].  Any other one is
    an exception of the script. *)
Inductive error : Type :=
| FileNotFoundError (text : string)
| Error (e : Script.exn).

Definition is_FileNotFoundError (e : error) : bool :=
  match e with FileNotFoundError _ => true | Error _ => false end.

Definition is_Exception (e : error) : bool :=
  match e with FileNotFoundError _ => true | Error e => Script.is_Exception e end.

Definition is_HttpError (e : error) : bool :=
  match e with FileNotFoundError _ => false | Error e => Script.is_HttpError e end.

Definition str_of_error (e : error) : string :=
  match e with FileNotFoundError t => t | Error e => Script.str_of_exn e end.

(** The exception as the rest of the script sees it: there a
    [FileNotFoundError] is one more subclass of [Exception]. *)
Definition to_exn (e : error) : Script.exn :=
  match e with FileNotFoundError t => Script.OtherException t | Error e => e end.

Inductive result (A : Type) : Type :=
| Ok (a : A)
| Exc (e : error).
Arguments Ok {A} a.
Arguments Exc {A} e.

(** What the script reads of a [Credentials] object: the properties
    [valid], [expired] and [refresh_token], each read at most once, and
    [to_json()].  The object itself is true in a condition. *)
Record credentials : Type := mkcredentials {
  valid : bool;
  expired : bool;
  refresh_token : option string;
  to_json : string
}.

(** [None] and the empty string are false in a condition. *)
Definition truthy (o : option string) : bool :=
  match o with Some (String _ _) => true | _ => false end.

Definition SCOPES : list string :=
  ["https://www.googleapis.com/auth/gmail.readonly";
   "https://www.googleapis.com/auth/calendar"].

(** The calls [authenticate_gmail_and_calendar] makes, each with the way
    it ended.  [F] is the type of an [InstalledAppFlow], [V] that of a
    service object. *)
Inductive event (F V : Type) : Type :=
| PathExists (path : string) (found : bool)
| Remove (path : string) (r : result unit)
| FromAuthorizedUserFile (path : string) (scopes : list string)
    (r : result credentials)
| Refresh (creds : credentials) (r : result credentials)
| FromClientSecretsFile (path : string) (scopes : list string) (r : result F)
| RunLocalServer (flow : F) (port : Z) (r : result credentials)
| WriteFile (path content : string) (r : result unit)
| Build (serviceName version : string) (creds : option credentials)
    (r : result V).
Arguments PathExists {F V} path found.
Arguments Remove {F V} path r.
Arguments FromAuthorizedUserFile {F V} path scopes r.
Arguments Refresh {F V} creds r.
Arguments FromClientSecretsFile {F V} path scopes r.
Arguments RunLocalServer {F V} flow port r.
Arguments WriteFile {F V} path content r.
Arguments Build {F V} serviceName version creds r.

(** The file system and the Google libraries, with a state [E] of their
    own. *)
Record environment (E F V : Type) : Type := mkenvironment {
  (* os.path.exists(path) *)
  path_exists : string -> E -> bool * E;
  (* os.remove(path) *)
  remove : string -> E -> result unit * E;
  (* Credentials.from_authorized_user_file(path, scopes) *)
  from_authorized_user_file : string -> list string -> E -> result credentials * E;
  (* creds.refresh(Request()): the credentials as the call leaves them *)
  refresh : credentials -> E -> result credentials * E;
  (* InstalledAppFlow.from_client_secrets_file(path, scopes) *)
  from_client_secrets_file : string -> list string -> E -> result F * E;
  (* flow.run_local_server(port) *)
  run_local_server : F -> Z -> E -> result credentials * E;
  (* with open(path, 'w') as f: f.write(content) *)
  write : string -> string -> E -> result unit * E;
  (* build(serviceName, version, credentials=creds) *)
  build : string -> string -> option credentials -> E -> result V * E
}.
Arguments path_exists {E F V} _ _ _.
Arguments remove {E F V} _ _ _.
Arguments from_authorized_user_file {E F V} _ _ _ _.
Arguments refresh {E F V} _ _ _.
Arguments from_client_secrets_file {E F V} _ _ _ _.
Arguments run_local_server {E F V} _ _ _ _.
Arguments write {E F V} _ _ _ _.
Arguments build {E F V} _ _ _ _ _.

Record world (E F V : Type) : Type := mkworld {
  external : E;
  stdout : list string;
  events : list (event F V)
}.
Arguments mkworld {E F V} _ _ _.
Arguments external {E F V} _.
Arguments stdout {E F V} _.
Arguments events {E F V} _.

Definition A (E F V X : Type) : Type := world E F V -> result X * world E F V.

Definition ret {E F V X : Type} (x : X) : A E F V X := fun w => (Ok x, w).

Definition bind {E F V X Y : Type} (c : A E F V X) (k : X -> A E F V Y)
    : A E F V Y :=
  fun w =>
    match c w with
    | (Ok x, w') => k x w'
    | (Exc e, w') => (Exc e, w')
    end.

Definition raise {E F V X : Type} (e : error) : A E F V X :=
  fun w => (Exc e, w).

(** [try: body except <catches> as e: handler(e)] *)
Definition try_except {E F V X : Type} (body : A E F V X)
    (catches : error -> bool) (handler : error -> A E F V X) : A E F V X :=
  fun w =>
    match body w with
    | (Ok x, w') => (Ok x, w')
    | (Exc e, w') => if catches e then handler e w' else (Exc e, w')
    end.

Definition print {E F V : Type} (line : string) : A E F V unit :=
  fun w => (Ok tt, mkworld (external w) (stdout w ++ [line])%list (events w)).

(** A call that may raise: it is recorded with the way it ended. *)
Definition call {E F V X : Type} (f : E -> result X * E)
    (ev : result X -> event F V) : A E F V X :=
  fun w =>
    let '(r, e') := f (external w) in
    (r, mkworld e' (stdout w) (events w ++ [ev r])%list).

(** [sys.exit(code)] *)
Definition sys_exit {E F V X : Type} (code : Z) : A E F V X :=
  raise (Error (Script.SystemExit code)).

Declare Scope auth_scope.
Delimit Scope auth_scope with auth.
Notation "x <- c ;; k" := (bind c (fun x => k))
  (at level 61, c at next level, right associativity) : auth_scope.
Notation "c ;; k" := (bind c (fun _ => k))
  (at level 61, right associativity) : auth_scope.
Local Open Scope auth_scope.

Section WithEnvironment.

Context {E F V : Type} (env : environment E F V).

(** [os.path.exists], which answers and never raises. *)
Definition exists_ (path : string) : A E F V bool :=
  fun w =>
    let '(found, e') := path_exists env path (external w) in
    (Ok found, mkworld e' (stdout w) (events w ++ [PathExists path found])%list).

(** ** [handle_refresh_error] *)

Definition handle_refresh_error (token_path : string) : A E F V unit :=
  found <- exists_ token_path ;;
  if found then
    call (remove env token_path) (Remove token_path) ;;
    print ("Deleted the expired or invalid token file: " ++ token_path)
  else
    print ("Token file " ++ token_path ++ " does not exist.").

(** ** [authenticate_gmail_and_calendar] *)

(** [not creds]: [None] is false, a [Credentials] object is true. *)
Definition absent (creds : option credentials) : bool :=
  match creds with None => true | Some _ => false end.

(** The [try] block around [creds.refresh(Request())]: the new value of
    [creds]. *)
Definition refresh_credentials (token_path : string) (creds : credentials)
    : A E F V (option credentials) :=
  try_except
    (refreshed <- call (refresh env creds) (Refresh creds) ;;
     ret (Some refreshed))
    is_Exception
    (fun e =>
       print ("Error refreshing token: " ++ str_of_error e) ;;
       handle_refresh_error token_path ;;
       ret None).

(** The [try] block of the new authentication flow: the new value of
    [creds]. *)
Definition new_flow (token_path : string) : A E F V (option credentials) :=
  try_except
    (print "No valid credentials found. Starting new authentication flow." ;;
     print "A browser window should open automatically. If it doesn't, please check your console for a URL to visit." ;;
     flow <- call (from_client_secrets_file env "credentials.json" SCOPES)
               (FromClientSecretsFile "credentials.json" SCOPES) ;;
     creds <- call (run_local_server env flow 0%Z) (RunLocalServer flow 0%Z) ;;
     call (write env token_path (to_json creds))
       (WriteFile token_path (to_json creds)) ;;
     print "Authentication successful. Credentials saved for future use." ;;
     ret (Some creds))
    is_FileNotFoundError
    (fun _ =>
       print "Error: 'credentials.json' file not found. Please make sure it's in the same directory as the script." ;;
       sys_exit 1%Z).

(** The last [try] block: the two service objects. *)
Definition build_services (creds : option credentials) : A E F V (V * V) :=
  try_except
    (gmail_service <- call (build env "gmail" "v1" creds)
                        (Build "gmail" "v1" creds) ;;
     calendar_service <- call (build env "calendar" "v3" creds)
                           (Build "calendar" "v3" creds) ;;
     ret (gmail_service, calendar_service))
    is_HttpError
    (fun error =>
       print ("An error occurred while building the service: "
              ++ str_of_error error) ;;
       sys_exit 1%Z).

Definition authenticate_gmail_and_calendar : A E F V (V * V) :=
  let token_path := "token.json" in
  found <- exists_ token_path ;;
  creds <-
    (if found then
       creds <- call (from_authorized_user_file env token_path SCOPES)
                  (FromAuthorizedUserFile token_path SCOPES) ;;
       ret (Some creds)
     else ret None) ;;
  creds <-
    (if absent creds
        || negb match creds with Some c => valid c | None => false end
     then
       creds <-
         (match creds with
          | Some c =>
              if expired c && truthy (refresh_token c)
              then refresh_credentials token_path c
              else ret creds
          | None => ret creds
          end) ;;
       if absent creds then new_flow token_path else ret creds
     else
       print "Existing credentials are valid." ;;
       ret creds) ;;
  build_services creds.

End WithEnvironment.

(** ** Notions used to state the properties *)

(** The world after a call that left the environment in state [e] and
    was recorded as [ev], and the world after printing [lines]. *)
Definition logged {E F V : Type} (w : world E F V) (e : E) (ev : event F V)
    : world E F V :=
  mkworld e (stdout w) (events w ++ [ev])%list.

Definition said {E F V : Type} (w : world E F V) (lines : list string)
    : world E F V :=
  mkworld (external w) (stdout w ++ lines)%list (events w).

Definition failure {X : Type} (r : result X) : option error :=
  match r with Ok _ => None | Exc e => Some e end.

(** The exception a recorded call ended with, if it raised. *)
Definition raised {F V : Type} (ev : event F V) : option error :=
  match ev with
  | PathExists _ _ => None
  | Remove _ r => failure r
  | FromAuthorizedUserFile _ _ r => failure r
  | Refresh _ r => failure r
  | FromClientSecretsFile _ _ r => failure r
  | RunLocalServer _ _ r => failure r
  | WriteFile _ _ r => failure r
  | Build _ _ _ r => failure r
  end.

Definition is_build {F V : Type} (ev : event F V) : bool :=
  match ev with Build _ _ _ _ => true | _ => false end.

(** The calls of the new authentication flow. *)
Definition in_new_flow {F V : Type} (ev : event F V) : bool :=
  match ev with
  | FromClientSecretsFile _ _ _ | RunLocalServer _ _ _ | WriteFile _ _ _ => true
  | _ => false
  end.

(** The exceptions the two handlers turn into [sys.exit(1)]: a
    [FileNotFoundError] of the new flow and an [HttpError] of [build]. *)
Definition turned_into_exit {F V : Type} (ev : event F V) (e : error) : bool :=
  (in_new_flow ev && is_FileNotFoundError e) || (is_build ev && is_HttpError e).

Definition credentials_not_found : string :=
  "Error: 'credentials.json' file not found. Please make sure it's in the same directory as the script.".

Definition building_failed (e : error) : string :=
  "An error occurred while building the service: " ++ str_of_error e.

(** ** Authentication as the first step of [main]

    The mail and calendar services of a run share their state with the
    environment of the authentication; [main] drops the two service
    objects into the calls it makes later, which the model of the
    services leaves implicit. *)
Definition as_step {E F V : Type} (env : environment E F V)
    (w : world E F V) : Script.outcome unit * world E F V :=
  match authenticate_gmail_and_calendar env w with
  | (Ok _, w') => (Script.Returned tt, w')
  | (Exc e, w') => (Script.Raised (to_exn e), w')
  end.

Definition with_authentication {E F V : Type} (env : environment E F V)
    (svc : Script.services (world E F V)) : Script.services (world E F V) :=
  Script.mkservices (world E F V)
    (as_step env)
    (Script.messages_list svc)
    (Script.messages_get svc)
    (Script.events_list svc)
    (Script.events_insert svc)
    (Script.local_utcoffset svc)
    (Script.chicago_utcoffset svc).

(** ** A file system held in memory

    A stand-in for the environment, used to run the authentication on
    concrete cases: the files are a list of paths with their contents, a
    token file holds the [to_json()] of its credentials, whose other
    properties the table [known] gives, and the libraries behave as the
    fields say. *)
Module Fake.

Record state : Type := mkstate {
  files : list (string * string);
  known : list (string * credentials);
  refresh_fails : option error;
  flow_gives : result credentials;
  build_fails : option error
}.

Fixpoint lookup {X : Type} (key : string) (l : list (string * X)) : option X :=
  match l with
  | [] => None
  | (k, x) :: l' => if String.eqb k key then Some x else lookup key l'
  end.

Fixpoint delete {X : Type} (key : string) (l : list (string * X))
    : list (string * X) :=
  match l with
  | [] => []
  | (k, x) :: l' =>
      if String.eqb k key then delete key l' else (k, x) :: delete key l'
  end.

Definition with_files (s : state) (fs : list (string * string)) : state :=
  mkstate fs (known s) (refresh_fails s) (flow_gives s) (build_fails s).

Definition env : environment state unit string :=
  mkenvironment state unit string
    (fun path s =>
       (match lookup path (files s) with Some _ => true | None => false end, s))
    (fun path s =>
       match lookup path (files s) with
       | Some _ => (Ok tt, with_files s (delete path (files s)))
       | None => (Exc (FileNotFoundError path), s)
       end)
    (fun path _ s =>
       match lookup path (files s) with
       | Some content =>
           match lookup content (known s) with
           | Some c => (Ok c, s)
           | None => (Exc (Error (Script.OtherException "invalid token file")), s)
           end
       | None => (Exc (FileNotFoundError path), s)
       end)
    (fun c s =>
       match refresh_fails s with
       | Some e => (Exc e, s)
       | None => (Ok (mkcredentials true false (refresh_token c) (to_json c)), s)
       end)
    (fun path _ s =>
       match lookup path (files s) with
       | Some _ => (Ok tt, s)
       | None => (Exc (FileNotFoundError path), s)
       end)
    (fun _ _ s => (flow_gives s, s))
    (fun path content s =>
       (Ok tt, with_files s ((path, content) :: delete path (files s))))
    (fun serviceName version _ s =>
       match build_fails s with
       | Some e => (Exc e, s)
       | None => (Ok (serviceName ++ " " ++ version), s)
       end).

Definition start_world (s : state) : world state unit string := mkworld s [] [].

(** A mailbox and a calendar that hold nothing. *)
Definition empty_services : Script.services (world state unit string) :=
  Script.mkservices (world state unit string)
    (fun s => (Script.Returned tt, s))
    (fun _ _ s => (Script.Returned [], s))
    (fun _ s => (Script.Raised (Script.HttpError "404 Not Found"), s))
    (fun _ s => (Script.Returned [], s))
    (fun _ _ s => (Script.Raised (Script.HttpError "403 Forbidden"), s))
    (fun _ => Some 0%Z)
    (fun _ => 0%Z).

(** Three machines: one with nothing on it, one whose token file holds
    credentials that are no longer valid and cannot be refreshed, and one
    whose token file holds valid credentials. *)
Definition bare : state :=
  mkstate [] [] None (Exc (Error (Script.OtherException "no browser"))) None.

Definition stale : state :=
  mkstate [("token.json", "{stale}")]
    [("{stale}", mkcredentials false false None "{stale}")]
    None (Exc (Error (Script.OtherException "no browser"))) None.

Definition ready : state :=
  mkstate [("token.json", "{ready}")]
    [("{ready}", mkcredentials true false (Some "1//r") "{ready}")]
    None (Exc (Error (Script.OtherException "no browser"))) None.

End Fake.

End Auth.

(* ================================================================== *)
(** * Notions used to state the properties *)
(* ================================================================== *)

Module Spec.

Import Script.

(** Everything after the first occurrence of the marker in a subject
    line; [None] when the marker does not occur. *)
Definition remainder_after_marker (subject : string) : option string :=
  option_map snd (PyStr.partition marker subject).

(** The piece the script goes on with: [split_subject[1]]. *)
Definition extracted_portion (subject : string) : string :=
  nth 1 (PyStr.split marker subject) "".

(** The text up to the next occurrence of the marker, all of it when the
    marker does not occur. *)
Definition up_to_next_marker (text : string) : string :=
  match PyStr.partition marker text with
  | Some (before, _) => before
  | None => text
  end.

(** The lines by which [extract_event_details] reports a subject that
    does not fit the template. *)
Definition format_mismatch_line (line : string) : Prop :=
  line = "Error: Unable to find subject line in the email."
  \/ line = "Error: The subject line does not contain the expected 'Registration Confirmation: ' format."
  \/ line = "Error: Subject line does not contain expected 'on' separator.".

(** A list in a condition: true when it is not empty. *)
Definition truthy {A : Type} (l : list A) : bool :=
  match l with [] => false | _ :: _ => true end.

(** The query [check_existing_event] sends for a name and a window. *)
Definition duplicate_query (event_name start_time_iso end_time_iso : string)
    : events_query :=
  mkevents_query "primary" start_time_iso end_time_iso event_name true "startTime".

(** The aware start [astimezone] computes from a naive time, without the
    monad: [None] when a step leaves the range of [datetime]. *)
Definition localize {S : Type} (svc : services S) (naive : Datetime.datetime)
    : option Datetime.aware :=
  match local_utcoffset svc naive with
  | None => None
  | Some myoffset =>
      match Datetime.add_seconds naive (- myoffset) with
      | None => None
      | Some utc =>
          match Datetime.add_seconds utc (chicago_utcoffset svc utc) with
          | None => None
          | Some local =>
              Some (Datetime.mkaware local (chicago_utcoffset svc utc))
          end
      end
  end.

(** The window of an event: its start and its end. *)
Definition window {S : Type} (svc : services S) (naive : Datetime.datetime)
    : option (Datetime.aware * Datetime.aware) :=
  match localize svc naive with
  | None => None
  | Some start_time_obj =>
      match Datetime.aware_add_seconds start_time_obj 3600 with
      | None => None
      | Some end_time_obj => Some (start_time_obj, end_time_obj)
      end
  end.

(** The body [create_calendar_event] inserts for a name and a window. *)
Definition event_for (event_name : string) (w : Datetime.aware * Datetime.aware)
    (email1 email2 : string) : event_body :=
  mkevent_body event_name
    (mkevent_time_zone (Datetime.aware_isoformat (fst w)) "America/Chicago")
    (mkevent_time_zone (Datetime.aware_isoformat (snd w)) "America/Chicago")
    [email1; email2].

(** The number of inserts the calendar service answered among recorded
    calls: the events actually created. *)
Fixpoint inserted (l : list (call * reply)) : Z :=
  match l with
  | [] => 0%Z
  | (EventsInsert _ _, Answered) :: l' => (1 + inserted l')%Z
  | _ :: l' => inserted l'
  end.

(** The insert calls among recorded calls, answered or not. *)
Fixpoint insert_calls (l : list (call * reply)) : list event_body :=
  match l with
  | [] => []
  | (EventsInsert _ body, _) :: l' => body :: insert_calls l'
  | _ :: l' => insert_calls l'
  end.

(** The identifiers of the messages fetched among recorded calls. *)
Fixpoint fetched (l : list (call * reply)) : list string :=
  match l with
  | [] => []
  | (MessagesGet i, _) :: l' => i :: fetched l'
  | _ :: l' => fetched l'
  end.

(** What the script printed during a computation that started in [w] and
    ended in [w']: [w'] is [w] with [lines] added to the output, and
    nothing else has changed. *)
Definition printed {S : Type} (w : world S) (lines : list string) : world S :=
  mkworld (remote w) (stdout w ++ lines)%list (calls w).

(** The world after a call [c] that ended as [r] and left the services in
    state [s]. *)
Definition called {S : Type} (w : world S) (s : S) (c : call) (r : reply)
    : world S :=
  mkworld s (stdout w) (calls w ++ [(c, r)])%list.

(** The lines the scheduler prints. *)
Definition already_exists (event_name : string) : string :=
  "Event " ++ dquote ++ event_name ++ dquote ++ " already exists at this time.".

Definition event_created (event : calendar_event) : string :=
  "Event created: " ++ match htmlLink event with Some l => l | None => "None" end.

Definition processing_failed (e : exn) : string :=
  "An error occurred while processing a message: " ++ str_of_exn e.

Definition no_messages_matching (query : string) : list string :=
  ["No messages found matching the query: " ++ dquote ++ query ++ dquote;
   "Please check if the subject line in your Gmail search query is correct."].

Definition unexpected (e : exn) : string :=
  "An unexpected error occurred: " ++ str_of_exn e.

(** What [except Exception] does with an exception that reaches it. *)
Definition outer_handler {S : Type} (e : exn) (w : world S)
    : outcome unit * world S :=
  if is_Exception e then (Returned tt, printed w [unexpected e]) else (Raised e, w).

(** A world with no services, to run the parts of the script that call
    none. *)
Definition blank : world unit := mkworld tt [] [].

End Spec.

(* ================================================================== *)
(** * The patterns of the script's formats and the strings they match *)
(* ================================================================== *)

Module Shape.

Import Datetime Strptime PyStr.

(** The pattern of a directive. *)
Definition re (d : string) : regex :=
  match d with
  | String c _ => match directive c with Some r => r | None => Eps end
  | EmptyString => Eps
  end.

(** The pattern of a format of the script, given the patterns of its
    week day and of its month. *)
Definition template (rA rB : regex) : regex :=
  Cat rA (Cat (Chr ",") (Cat Spaces (Cat rB (Cat Spaces (Cat (re "d")
  (Cat (Chr ",") (Cat Spaces (Cat (re "Y") (Cat Spaces (Cat (re "I")
  (Cat (Chr ":") (Cat (re "M") (Cat Spaces (Cat (re "p") Eps)))))))))))))).

(** What [strftime] writes for such a format, given the names of the week
    day and of the month. *)
Definition formatted (N M : string) (dt : datetime) : string :=
  N ++ ", " ++ M ++ " " ++ pad2 (day dt) ++ ", " ++ pad4 (year dt) ++ " "
  ++ pad2 (hour12 (hour dt)) ++ ":" ++ pad2 (minute dt) ++ " "
  ++ (if (hour dt <? 12)%Z then "AM" else "PM").


(** The language of a pattern: the strings it can consume. *)
Fixpoint lang (r : regex) (s : string) : Prop :=
  match r with
  | Eps => s = ""
  | Chr c =>
      exists a, s = String a ""
                /\ PyStr.lower_char a = PyStr.lower_char c
  | Range lo hi => exists a, s = String a "" /\ in_range lo hi a = true
  | Digit => exists a, s = String a "" /\ PyStr.isdigit a = true
  | Spaces => s <> "" /\ PyStr.all_space s = true
  | Cat r1 r2 => exists s1 s2, s = s1 ++ s2 /\ lang r1 s1 /\ lang r2 s2
  | Alt r1 r2 => lang r1 s \/ lang r2 s
  | Group _ r1 => lang r1 s
  end.

(** An automaton that looks for [" on "]: the state is the number of
    characters of [" on "] just read, and 4 once it has been seen. *)
Definition on_step (q : nat) (c : ascii) : nat :=
  if (q =? 4)%nat then 4%nat
  else if Ascii.eqb c " " then (if (q =? 3)%nat then 4%nat else 1%nat)
  else if Ascii.eqb c "o" then (if (q =? 1)%nat then 2%nat else 0%nat)
  else if Ascii.eqb c "n" then (if (q =? 2)%nat then 3%nat else 0%nat)
  else 0%nat.

Fixpoint on_scan (q : nat) (s : string) : nat :=
  match s with
  | EmptyString => q
  | String c s' => on_scan (on_step q c) s'
  end.

(** The 256 characters. *)
Definition all_chars : list ascii :=
  map (fun n => ascii_of_N (N.of_nat n)) (seq 0 256).

(** The states the automaton can be in after one character satisfying
    [p], from a state of [Q]. *)
Definition step_set (p : ascii -> bool) (Q : list nat) : list nat :=
  let cs := filter p all_chars in
  nodup Nat.eq_dec (flat_map (fun q => map (on_step q) cs) Q).

(** The states the automaton can be in after a string of the language of
    [r], from a state of [Q]; a superset of them. *)
Fixpoint post (r : regex) (Q : list nat) : list nat :=
  match r with
  | Eps => Q
  | Chr c =>
      let l := PyStr.lower_char c in
      step_set (fun a => Ascii.eqb (PyStr.lower_char a) l) Q
  | Range lo hi => step_set (in_range lo hi) Q
  | Digit => step_set PyStr.isdigit Q
  | Spaces => if existsb (fun q => (3 <=? q)%nat) Q then [0; 1; 4]%nat
              else [0; 1]%nat
  | Cat r1 r2 => post r2 (post r1 Q)
  | Alt r1 r2 => nodup Nat.eq_dec (post r1 Q ++ post r2 Q)
  | Group _ r1 => post r1 Q
  end.

End Shape.

(* ================================================================== *)
(** * Notions used to state what the parser accepts *)
(* ================================================================== *)

Module Letters.

Import Strptime PyStr.

(** A way of matching, in lower case. *)
Definition lower_hit (h : hit) : hit :=
  mkhit (lower (consumed h))
        (map (fun kv => (fst kv, lower (snd kv))) (groups h))
        (lower (rest h)).

(** A pattern whose ranges do not tell a letter from its lower case. *)
Fixpoint case_blind (r : regex) : bool :=
  match r with
  | Range lo hi =>
      forallb (fun a => Bool.eqb (in_range lo hi (lower_char a)) (in_range lo hi a))
              Shape.all_chars
  | Cat r1 r2 | Alt r1 r2 => case_blind r1 && case_blind r2
  | Group _ r1 => case_blind r1
  | Eps | Chr _ | Digit | Spaces => true
  end.

End Letters.

Module Written.

Import Datetime Strptime PyStr.

(** A time as the confirmation mails write it, under the name [N] of a
    week day and the name [M] of a month, with the day written as [D]
    and the hour of the 12-hour clock as [H]. *)
Definition written (N M D H : string) (dt : datetime) : string :=
  N ++ ", " ++ M ++ " " ++ D ++ ", " ++ pad4 (year dt) ++ " "
  ++ H ++ ":" ++ pad2 (minute dt) ++ " "
  ++ (if (hour dt <? 12)%Z then "AM" else "PM").

(** [t] writes the number [n] in two digits or without a leading zero. *)
Definition writes (n : Z) (t : string) : Prop :=
  t = pad2 n \/ t = str_of_Z n.

End Written.

(* ================================================================== *)
(** * Notions used to state the properties of whole runs *)
(* ================================================================== *)

Module Runs.

Import Datetime Script Spec.



(** [l1] is the beginning of [l2]. *)
Definition prefix {A : Type} (l1 l2 : list A) : Prop :=
  exists rest, l2 = (l1 ++ rest)%list.

(** Services that cannot be reached once the user is authenticated:
    every call to the mail or the calendar service fails. *)
Definition offline : services unit :=
  mkservices unit
    (fun s => (Returned tt, s))
    (fun _ _ s => (Raised (HttpError "503 Service Unavailable"), s))
    (fun _ s => (Raised (HttpError "503 Service Unavailable"), s))
    (fun _ s => (Raised (HttpError "503 Service Unavailable"), s))
    (fun _ _ s => (Raised (HttpError "503 Service Unavailable"), s))
    (fun _ => Some 0%Z)
    (fun _ => 0%Z).

End Runs.

Module Memory.

Import Datetime Script Spec.

(** What tells one event from another for the duplicate check: the
    name, the start and the end. *)
Definition event_key (body : event_body) : string * string * string :=
  (summary body, dateTime (start body), dateTime (end_ body)).

(** The bodies of the inserts the calendar service answered, among
    recorded calls. *)
Fixpoint answered_inserts (l : list (call * reply)) : list event_body :=
  match l with
  | [] => []
  | (EventsInsert _ body, Answered) :: l' => body :: answered_inserts l'
  | _ :: l' => answered_inserts l'
  end.

(** A calendar that remembers: [holds body s] says that the calendar
    holds an event with the body [body] in the state [s] of the
    services.  No call makes the calendar forget an event, an insert
    that is answered leaves the event in the calendar, and the query of
    the duplicate check for an event the calendar holds finds
    something. *)
Record remembers {S : Type} (svc : services S)
    (holds : event_body -> S -> Prop) : Prop := mkremembers {
  kept_by_authenticate :
    forall b s, holds b s -> holds b (snd (authenticate svc s));
  kept_by_messages_list :
    forall b query n s, holds b s -> holds b (snd (messages_list svc query n s));
  kept_by_messages_get :
    forall b i s, holds b s -> holds b (snd (messages_get svc i s));
  kept_by_events_list :
    forall b query s, holds b s -> holds b (snd (events_list svc query s));
  kept_by_events_insert :
    forall b cal body s, holds b s -> holds b (snd (events_insert svc cal body s));
  held_once_inserted :
    forall cal body s event s',
      events_insert svc cal body s = (Returned event, s') -> holds body s';
  found_when_held :
    forall b s items s',
      holds b s ->
      events_list svc
        (duplicate_query (summary b) (dateTime (start b)) (dateTime (end_ b))) s
      = (Returned items, s') ->
      items <> []
}.

(** What a part of a run leaves behind: the calls it has added, a
    calendar that still holds what it held, and the events it has
    inserted, which the calendar now holds and which differ from one
    another and from the events the calendar held before. *)
Definition leaves {S A : Type} (holds : event_body -> S -> Prop)
    (w : world S) (run : outcome A * world S) : Prop :=
  exists new,
    calls (snd run) = (calls w ++ new)%list
    /\ (forall b, holds b (remote w) -> holds b (remote (snd run)))
    /\ NoDup (map event_key (answered_inserts new))
    /\ forall body,
         In body (answered_inserts new) ->
         holds body (remote (snd run))
         /\ forall b, holds b (remote w) -> event_key b <> event_key body.

(** The calendar held in memory holds an event when the duplicate check
    for it finds one. *)
Definition in_calendar (body : event_body) (s : Fake.state) : Prop :=
  existsb
    (Fake.matches
       (duplicate_query (summary body) (dateTime (start body))
          (dateTime (end_ body))))
    (Fake.calendar s) = true.

End Memory.

(* ================================================================== *)
(** * Facts about Python strings *)
(* ================================================================== *)

Module PyStrFacts.

Import PyStr.

Lemma append_nil_r (s : string) : s ++ "" = s.
Proof. induction s; simpl; congruence. Qed.

Lemma append_assoc (a b c : string) : (a ++ b) ++ c = a ++ b ++ c.
Proof. induction a; simpl; congruence. Qed.

Lemma length_append (a b : string) :
  String.length (a ++ b) = (String.length a + String.length b)%nat.
Proof. induction a; simpl; congruence. Qed.

Lemma startswith_app (p s : string) : startswith p (p ++ s) = true.
Proof.
  induction p as [|c p IH]; simpl; [reflexivity|].
  now rewrite Ascii.eqb_refl, IH.
Qed.

Lemma startswith_inv (p s : string) :
  startswith p s = true -> exists t, s = p ++ t.
Proof.
  revert s; induction p as [|c p IH]; intros s H.
  - now exists s.
  - destruct s as [|a s]; simpl in H; [discriminate|].
    apply andb_true_iff in H as [Hc Hp].
    apply Ascii.eqb_eq in Hc; subst a.
    destruct (IH _ Hp) as [t ->]. now exists t.
Qed.

(** Beyond the length of the prefix the string does not matter. *)
Lemma startswith_long (p u v : string) :
  (String.length p <= String.length u)%nat ->
  startswith p (u ++ v) = startswith p u.
Proof.
  revert u; induction p as [|c p IH]; intros u Hlen; [reflexivity|].
  destruct u as [|a u]; simpl in *; [lia|].
  rewrite IH by lia. reflexivity.
Qed.

Lemma skip_app (p s : string) : skip (String.length p) (p ++ s) = s.
Proof. induction p; simpl; auto. Qed.

Lemma contains_cons (p : string) (c : ascii) (s : string) :
  contains p (String c s) = false ->
  startswith p (String c s) = false /\ contains p s = false.
Proof. simpl. intros H. apply orb_false_iff in H. exact H. Qed.

Lemma contains_nonempty (p s : string) : contains p s = false -> p <> "".
Proof. intros H ->. destruct s; discriminate. Qed.

(** ** [partition] *)

Lemma partition_spec (sep s before after : string) :
  partition sep s = Some (before, after) -> s = before ++ sep ++ after.
Proof.
  revert before after; induction s as [|c s IH]; intros before after H.
  - simpl in H. destruct (startswith sep "") eqn:E; [|discriminate].
    injection H as <- <-. destruct sep; [reflexivity | discriminate].
  - cbn [partition] in H. destruct (startswith sep (String c s)) eqn:E.
    + injection H as <- <-. destruct (startswith_inv _ _ E) as [t Ht].
      rewrite Ht, skip_app. reflexivity.
    + destruct (partition sep s) as [[b a]|]; [|discriminate].
      injection H as <- <-. simpl. now rewrite (IH b a eq_refl).
Qed.

Lemma partition_none (sep s : string) :
  partition sep s = None <-> contains sep s = false.
Proof.
  induction s as [|c s IH].
  - simpl. destruct (startswith sep ""); split; simpl; congruence.
  - cbn [partition contains].
    destruct (startswith sep (String c s)); [split; discriminate|].
    rewrite orb_false_l, <- IH.
    destruct (partition sep s) as [[b a]|]; split; congruence.
Qed.

Lemma startswith_app_l (p u v : string) :
  startswith p u = true -> startswith p (u ++ v) = true.
Proof.
  intros H. destruct (startswith_inv _ _ H) as [t ->].
  rewrite append_assoc. apply startswith_app.
Qed.

(** The separator does not occur before its first occurrence. *)
Lemma partition_before_absent (sep s before after : string) :
  sep <> "" ->
  partition sep s = Some (before, after) -> contains sep before = false.
Proof.
  intros Hsep. revert before after.
  induction s as [|c s IH]; intros before after H.
  - destruct sep; [congruence | discriminate].
  - cbn [partition] in H. destruct (startswith sep (String c s)) eqn:E.
    + injection H as <- <-. destruct sep; [congruence | reflexivity].
    + destruct (partition sep s) as [[b a]|] eqn:Ep; [|discriminate].
      injection H as <- <-. cbn [contains].
      rewrite (IH b a eq_refl), orb_false_r.
      destruct (startswith sep (String c b)) eqn:E'; [|reflexivity].
      rewrite (partition_spec _ _ _ _ Ep) in E.
      change (String c (b ++ sep ++ a)) with (String c b ++ sep ++ a) in E.
      now rewrite (startswith_app_l _ _ _ E') in E.
Qed.

Lemma partition_leading (sep b : string) :
  sep <> "" -> partition sep (sep ++ b) = Some ("", b).
Proof.
  intros H. destruct sep as [|a p]; [congruence|].
  pose proof (startswith_app (String a p) b) as E.
  pose proof (skip_app (String a p) b) as K.
  cbn [append] in *. cbn [partition]. rewrite E, K. reflexivity.
Qed.

(** The occurrence of [sep] that follows [a] is the first one when no
    occurrence starts inside [a]. *)
Lemma partition_first (sep pre : string) (last : ascii) (a b : string) :
  sep = pre ++ String last "" ->
  contains sep (a ++ pre) = false ->
  partition sep (a ++ sep ++ b) = Some (a, b).
Proof.
  intros Hsep. induction a as [|c a IH]; intros H.
  - change ("" ++ sep ++ b) with (sep ++ b).
    apply partition_leading. subst sep. destruct pre; discriminate.
  - cbn [append] in *. apply contains_cons in H as [H1 H2].
    cbn [partition].
    assert (E : startswith sep (String c (a ++ sep ++ b)) = false).
    { rewrite <- H1. subst sep. rewrite append_assoc. cbn [append].
      change (String c (a ++ pre ++ String last b))
        with (String c a ++ pre ++ String last b).
      rewrite <- append_assoc.
      change (String c (a ++ pre)) with (String c a ++ pre).
      apply startswith_long. rewrite !length_append. simpl. lia. }
    rewrite E, (IH H2). reflexivity.
Qed.

(** ** [split] and [count] *)

Lemma split_from_skip (sep p s : string) :
  split_from sep (String.length p) (p ++ s) = split_from sep 0 s.
Proof. induction p; simpl; auto. Qed.

Lemma count_from_skip (sep p s : string) :
  count_from sep (String.length p) (p ++ s) = count_from sep 0 s.
Proof. induction p; simpl; auto. Qed.

Lemma split_from_nonempty (sep : string) (k : nat) (s : string) :
  split_from sep k s <> [].
Proof.
  revert k; induction s as [|c s IH]; intros k; simpl; [discriminate|].
  destruct k; [|apply IH].
  destruct (startswith sep (String c s)); [discriminate|].
  destruct (split_from sep 0 s); discriminate.
Qed.

(** [split] cuts at the first occurrence and goes on after it. *)
Lemma split_partition (sep s : string) :
  sep <> "" ->
  split sep s =
    match partition sep s with
    | None => [s]
    | Some (before, after) => before :: split sep after
    end.
Proof.
  intros Hsep. unfold split. induction s as [|c s IH].
  - simpl. destruct sep; [congruence | reflexivity].
  - cbn [split_from partition].
    destruct (startswith sep (String c s)) eqn:E.
    + destruct (startswith_inv _ _ E) as [t Ht].
      destruct sep as [|a sep]; [congruence|].
      simpl in Ht. injection Ht as -> ->.
      cbn [skip String.length]. rewrite skip_app.
      simpl. now rewrite Nat.sub_0_r, split_from_skip.
    + rewrite IH. destruct (partition sep s) as [[b a]|]; reflexivity.
Qed.

Lemma count_partition (sep s : string) :
  sep <> "" ->
  count sep s =
    match partition sep s with
    | None => 0%nat
    | Some (_, after) => S (count sep after)
    end.
Proof.
  intros Hsep. unfold count. induction s as [|c s IH].
  - simpl. destruct sep; [congruence | reflexivity].
  - cbn [count_from partition].
    destruct (startswith sep (String c s)) eqn:E.
    + destruct (startswith_inv _ _ E) as [t Ht].
      destruct sep as [|a sep]; [congruence|].
      simpl in Ht. injection Ht as -> ->.
      cbn [skip String.length]. rewrite skip_app.
      simpl. now rewrite Nat.sub_0_r, count_from_skip.
    + rewrite IH. destruct (partition sep s) as [[b a]|]; reflexivity.
Qed.

(** [len(s.split(sep)) == s.count(sep) + 1] *)
Lemma length_split (sep s : string) :
  List.length (split sep s) = S (count sep s).
Proof.
  unfold split, count. generalize 0%nat as k.
  induction s as [|c s IH]; intros k; simpl; [reflexivity|].
  destruct k; [|apply IH].
  destruct (startswith sep (String c s)).
  - simpl. now rewrite IH.
  - specialize (IH 0%nat).
    destruct (split_from sep 0 s); simpl in *; [discriminate | exact IH].
Qed.

Lemma split_absent (sep s : string) :
  contains sep s = false -> split sep s = [s].
Proof.
  intros H. rewrite split_partition by (eapply contains_nonempty; eauto).
  apply partition_none in H. now rewrite H.
Qed.

Lemma count_zero (sep s : string) :
  sep <> "" -> (count sep s = 0%nat <-> contains sep s = false).
Proof.
  intros Hsep. rewrite count_partition by assumption.
  rewrite <- partition_none.
  destruct (partition sep s) as [[b a]|]; split; congruence.
Qed.

(** A string that starts with the separator splits into an empty piece
    and the pieces of what follows. *)
Lemma split_leading (sep s : string) :
  sep <> "" -> split sep (sep ++ s) = "" :: split sep s.
Proof.
  intros Hsep. rewrite split_partition by assumption.
  now rewrite partition_leading.
Qed.

(** ** Decimal digits *)

Lemma digit_cases (k : Z) :
  (0 <= k < 10)%Z ->
  (k = 0 \/ k = 1 \/ k = 2 \/ k = 3 \/ k = 4 \/ k = 5 \/ k = 6 \/ k = 7
   \/ k = 8 \/ k = 9)%Z.
Proof. lia. Qed.

Ltac each_digit k H :=
  destruct (digit_cases k H) as [?|[?|[?|[?|[?|[?|[?|[?|[?|?]]]]]]]]]; subst k.

Lemma digit_char_mod (d : Z) : digit_char d = digit_char (d mod 10).
Proof. unfold digit_char. now rewrite Z.mod_mod by lia. Qed.

Lemma isdigit_digit_char (d : Z) : isdigit (digit_char d) = true.
Proof.
  rewrite digit_char_mod.
  assert (H : (0 <= d mod 10 < 10)%Z) by (apply Z.mod_pos_bound; lia).
  revert H. generalize (d mod 10)%Z as k. intros k H.
  each_digit k H; reflexivity.
Qed.

Lemma digit_value_digit_char (d : Z) : digit_value (digit_char d) = (d mod 10)%Z.
Proof.
  rewrite digit_char_mod.
  assert (H : (0 <= d mod 10 < 10)%Z) by (apply Z.mod_pos_bound; lia).
  revert H. generalize (d mod 10)%Z as k. intros k H.
  each_digit k H; reflexivity.
Qed.

Lemma isspace_digit_char (d : Z) : isspace (digit_char d) = false.
Proof.
  rewrite digit_char_mod.
  assert (H : (0 <= d mod 10 < 10)%Z) by (apply Z.mod_pos_bound; lia).
  revert H. generalize (d mod 10)%Z as k. intros k H.
  each_digit k H; reflexivity.
Qed.

Lemma digits_value_pad2 (n : Z) :
  (0 <= n < 100)%Z -> digits_value 0 (pad2 n) = Some n.
Proof.
  intros H. unfold pad2. cbn [digits_value].
  rewrite !isdigit_digit_char, !digit_value_digit_char.
  f_equal. Z.div_mod_to_equations. lia.
Qed.

Lemma digits_value_pad4 (n : Z) :
  (0 <= n < 10000)%Z -> digits_value 0 (pad4 n) = Some n.
Proof.
  intros H. unfold pad4. cbn [digits_value].
  rewrite !isdigit_digit_char, !digit_value_digit_char.
  f_equal. Z.div_mod_to_equations. lia.
Qed.

(** From 1000 to 9999, [str] writes the same four digits as ["%04d"]. *)
Lemma str_of_Z_four (n : Z) : (1000 <= n <= 9999)%Z -> str_of_Z n = pad4 n.
Proof.
  intros H. unfold str_of_Z.
  assert (L : (9 <= Z.log2 n)%Z).
  { change 9%Z with (Z.log2 512). apply Z.log2_le_mono. lia. }
  destruct (Z.to_nat (Z.log2 n)) as [|[|[|f]]] eqn:E; try lia.
  cbn [str_of_pos_fuel].
  destruct (Z.ltb_spec n 10); [lia|].
  destruct (Z.ltb_spec (n / 10) 10); [Z.div_mod_to_equations; lia|].
  destruct (Z.ltb_spec (n / 10 / 10) 10); [Z.div_mod_to_equations; lia|].
  destruct (Z.ltb_spec (n / 10 / 10 / 10) 10); [|Z.div_mod_to_equations; lia].
  unfold pad4. rewrite !Z.div_div by lia. reflexivity.
Qed.

End PyStrFacts.

(* ================================================================== *)
(** * Facts about dates *)
(* ================================================================== *)

Module DatetimeFacts.

Import Datetime.
Local Open Scope Z_scope.

Ltac divmod := Z.div_mod_to_equations; lia.

(** Evaluate the tables and the tests on constants, leave the arithmetic
    to [lia]. *)
Ltac calc := cbn -[Z.add Z.mul Z.sub Z.div Z.modulo Z.opp].

Ltac norm_consts :=
  repeat match goal with
         | |- context [Z.pos ?a - 1] =>
             let v := eval compute in (Z.pos a - 1) in
             change (Z.pos a - 1) with v
         end.

(** ** The ordinal of a date *)

Lemma is_leap_spec (y : Z) :
  is_leap y = true <-> (y mod 4 = 0 /\ (y mod 100 <> 0 \/ y mod 400 = 0)).
Proof.
  unfold is_leap.
  rewrite andb_true_iff, orb_true_iff, negb_true_iff, !Z.eqb_eq, Z.eqb_neq.
  reflexivity.
Qed.

Lemma days_before_year_succ (y : Z) :
  days_before_year (y + 1) = days_before_year y + 365 + (if is_leap y then 1 else 0).
Proof.
  unfold days_before_year.
  replace (y + 1 - 1) with y by lia.
  destruct (is_leap y) eqn:E.
  - apply is_leap_spec in E. divmod.
  - assert (H : ~ (y mod 4 = 0 /\ (y mod 100 <> 0 \/ y mod 400 = 0))).
    { rewrite <- is_leap_spec. congruence. }
    divmod.
Qed.

Lemma days_before_year_mono (y y' : Z) :
  y <= y' -> days_before_year y <= days_before_year y'.
Proof. unfold days_before_year. intros H. divmod. Qed.

Lemma month_cases (m : Z) :
  1 <= m <= 12 ->
  m = 1 \/ m = 2 \/ m = 3 \/ m = 4 \/ m = 5 \/ m = 6 \/ m = 7 \/ m = 8
  \/ m = 9 \/ m = 10 \/ m = 11 \/ m = 12.
Proof. lia. Qed.

Ltac each_month m H :=
  destruct (month_cases m H) as
    [?|[?|[?|[?|[?|[?|[?|[?|[?|[?|[?|?]]]]]]]]]]]; subst m.

Lemma days_before_month_succ (y m : Z) :
  1 <= m <= 11 ->
  days_before_month y (m + 1) = days_before_month y m + days_in_month y m.
Proof.
  intros H. assert (H' : 1 <= m <= 12) by lia.
  unfold days_before_month, days_in_month.
  each_month m H'; try lia; destruct (is_leap y); reflexivity.
Qed.

Lemma days_in_month_pos (y m : Z) : 1 <= m <= 12 -> 28 <= days_in_month y m <= 31.
Proof.
  intros H. unfold days_in_month.
  each_month m H; destruct (is_leap y); calc; lia.
Qed.


(** The last day of a year is day 365 or 366 of that year. *)
Lemma day_in_year (y m d : Z) :
  1 <= m <= 12 -> 1 <= d <= days_in_month y m ->
  1 <= days_before_month y m + d <= 365 + (if is_leap y then 1 else 0).
Proof.
  intros H. unfold days_before_month, days_in_month.
  each_month m H; destruct (is_leap y); calc; lia.
Qed.

Lemma day_of_year_bound (y m d : Z) :
  check_date_fields y m d = true ->
  1 <= days_before_month y m + d <= 365 + (if is_leap y then 1 else 0).
Proof.
  unfold check_date_fields. rewrite !andb_true_iff, !Z.leb_le.
  intros (((((_ & _) & H1) & H2) & H3) & H4). apply day_in_year; lia.
Qed.



Lemma ymd2ord_range (y m d : Z) :
  check_date_fields y m d = true -> 1 <= ymd2ord y m d <= MAXORDINAL.
Proof.
  intros V. pose proof (day_of_year_bound _ _ _ V) as B.
  unfold check_date_fields in V. rewrite !andb_true_iff, !Z.leb_le in V.
  unfold MINYEAR, MAXYEAR in V.
  pose proof (days_before_year_mono 1 y ltac:(lia)) as L.
  pose proof (days_before_year_succ y) as Hs.
  pose proof (days_before_year_mono (y + 1) 10000 ltac:(lia)) as U.
  change (days_before_year 1) with 0 in L.
  change (days_before_year 10000) with 3652059 in U.
  unfold ymd2ord, MAXORDINAL. lia.
Qed.

(** ** From an ordinal back to the date *)

(** The days before a year, by its place in the cycles of 400, 100 and 4
    years. *)
Lemma days_before_year_cycles (a b c d : Z) :
  0 <= b <= 3 -> 0 <= c <= 24 -> 0 <= d <= 3 ->
  days_before_year (400 * a + 100 * b + 4 * c + d + 1)
  = DI400Y * a + DI100Y * b + DI4Y * c + 365 * d.
Proof.
  intros Hb Hc Hd. unfold days_before_year, DI400Y, DI100Y, DI4Y.
  replace (400 * a + 100 * b + 4 * c + d + 1 - 1)
    with (400 * a + 100 * b + 4 * c + d) by lia.
  divmod.
Qed.

Lemma is_leap_cycles (a b c d : Z) :
  0 <= b <= 3 -> 0 <= c <= 24 -> 0 <= d <= 3 ->
  is_leap (400 * a + 100 * b + 4 * c + d + 1)
  = (d =? 3) && (negb (c =? 24) || (b =? 3)).
Proof.
  intros Hb Hc Hd. apply eq_true_iff_eq.
  rewrite is_leap_spec, andb_true_iff, orb_true_iff, negb_true_iff,
    !Z.eqb_eq, Z.eqb_neq.
  divmod.
Qed.

Lemma month_of_day_spec (y : Z) (r : Z) :
  0 <= r < 365 + (if is_leap y then 1 else 0) ->
  let '(m, d) := month_of_day (is_leap y) r in
  1 <= m <= 12 /\ 1 <= d <= days_in_month y m
  /\ days_before_month y m + d = r + 1.
Proof.
  intros Hr. unfold month_of_day.
  rewrite Z.shiftr_div_pow2 by lia. change (2 ^ 5) with 32.
  assert (Hm : 1 <= (r + 50) / 32 <= 12) by (destruct (is_leap y); divmod).
  assert (Hq : 32 * ((r + 50) / 32) <= r + 50 < 32 * ((r + 50) / 32) + 32)
    by divmod.
  revert Hm Hq. generalize ((r + 50) / 32) as m. intros m Hm Hq.
  destruct (is_leap y) eqn:L; each_month m Hm; norm_consts; calc;
    match goal with
    | |- context [r <? ?p] => destruct (Z.ltb_spec r p)
    end;
    unfold days_in_month, days_before_month; rewrite ?L; calc; lia.
Qed.

Lemma ord2ymd_spec (n : Z) :
  1 <= n <= MAXORDINAL ->
  let '(y, m, d) := ord2ymd n in
  check_date_fields y m d = true /\ ymd2ord y m d = n.
Proof.
  intros Hn.
  assert (Hcore : let '(y, m, d) := ord2ymd n in
                  1 <= m <= 12 /\ 1 <= d <= days_in_month y m
                  /\ ymd2ord y m d = n).
  { unfold ord2ymd. cbv zeta.
    remember ((n - 1) / DI400Y) as a eqn:Ea.
    remember ((n - 1) mod DI400Y) as r400 eqn:Er400.
    remember (r400 / DI100Y) as b eqn:Eb.
    remember (r400 mod DI100Y) as r100 eqn:Er100.
    remember (r100 / DI4Y) as c eqn:Ec.
    remember (r100 mod DI4Y) as r4 eqn:Er4.
    remember (r4 / 365) as d eqn:Ed.
    remember (r4 mod 365) as r1 eqn:Er1.
    unfold DI400Y, DI100Y, DI4Y, MAXORDINAL in *.
    assert (Hb : 0 <= b <= 4) by divmod.
    assert (Hc : 0 <= c <= 24) by divmod.
    assert (Hd : 0 <= d <= 4) by divmod.
    assert (Hsum : n - 1 = 146097 * a + 36524 * b + 1461 * c + 365 * d + r1)
      by divmod.
    assert (Hr1 : 0 <= r1 < 365) by divmod.
    destruct (Z.eqb_spec d 4) as [D4|D4]; [|destruct (Z.eqb_spec b 4) as [B4|B4]];
      cbn [orb].
    - (* the last day of a leap year that ends a 4-year cycle *)
      assert (Hc' : c <= 23 \/ b = 3) by divmod.
      assert (Hb' : 0 <= b <= 3) by divmod.
      assert (r1 = 0) by divmod.
      replace (a * 400 + 1 + b * 100 + c * 4 + d - 1)
        with (400 * a + 100 * b + 4 * c + 3 + 1) by lia.
      unfold ymd2ord, days_in_month, days_before_month.
      rewrite days_before_year_cycles, is_leap_cycles by lia.
      unfold DI400Y, DI100Y, DI4Y. calc.
      destruct (Z.eqb_spec c 24), (Z.eqb_spec b 3); calc; lia.
    - (* the last day of a 400-year cycle *)
      assert (c = 0 /\ d = 0 /\ r1 = 0) as (-> & -> & ->) by divmod.
      replace (a * 400 + 1 + b * 100 + 0 * 4 + 0 - 1)
        with (400 * a + 100 * 3 + 4 * 24 + 3 + 1) by lia.
      unfold ymd2ord, days_in_month, days_before_month.
      rewrite days_before_year_cycles, is_leap_cycles by lia.
      unfold DI400Y, DI100Y, DI4Y. calc. lia.
    - assert (Hb' : 0 <= b <= 3) by lia.
      assert (Hd' : 0 <= d <= 3) by lia.
      replace (a * 400 + 1 + b * 100 + c * 4 + d)
        with (400 * a + 100 * b + 4 * c + d + 1) by lia.
      set (y := 400 * a + 100 * b + 4 * c + d + 1).
      rewrite <- (is_leap_cycles a b c d) by lia. fold y.
      pose proof (month_of_day_spec y r1) as M.
      unfold month_of_day in M.
      assert (Hr : 0 <= r1 < 365 + (if is_leap y then 1 else 0))
        by (destruct (is_leap y); lia).
      specialize (M Hr).
      destruct (r1 <? _).
      + destruct M as (M1 & M2 & M3). repeat split; try lia.
        unfold ymd2ord, y. rewrite days_before_year_cycles by lia.
        fold y. unfold DI400Y, DI100Y, DI4Y. lia.
      + destruct M as (M1 & M2 & M3). repeat split; try lia.
        unfold ymd2ord, y. rewrite days_before_year_cycles by lia.
        fold y. unfold DI400Y, DI100Y, DI4Y. lia. }
  destruct (ord2ymd n) as [[y m] d]. destruct Hcore as (Hm & Hd & Ho).
  split; [|exact Ho].
  unfold check_date_fields, MINYEAR, MAXYEAR.
  rewrite !andb_true_iff, !Z.leb_le.
  assert (Hy : 1 <= y <= 9999).
  { pose proof (days_in_month_pos y m Hm) as P.
    assert (Hdb : 0 <= days_before_month y m).
    { unfold days_before_month. each_month m Hm; destruct (is_leap y); calc; lia. }
    unfold ymd2ord in Ho. unfold MAXORDINAL in Hn.
    destruct (Z.le_gt_cases y 0) as [L|L].
    - pose proof (days_before_year_succ y) as Hs.
      pose proof (days_before_year_mono (y + 1) 1 ltac:(lia)) as Hmono.
      change (days_before_year 1) with 0 in Hmono.
      pose proof (day_in_year y m d Hm Hd) as B. lia.
    - destruct (Z.le_gt_cases 10000 y) as [U|U]; [|lia].
      pose proof (days_before_year_mono 10000 y U) as Hmono.
      change (days_before_year 10000) with 3652059 in Hmono. lia. }
  lia.
Qed.

(** ** Seconds on the wall clock *)

Lemma valid_fields (dt : datetime) :
  valid dt = true ->
  check_date_fields (year dt) (month dt) (day dt) = true
  /\ 0 <= hour dt <= 23 /\ 0 <= minute dt <= 59 /\ 0 <= second dt <= 59.
Proof.
  unfold valid, check_time_fields. rewrite !andb_true_iff, !Z.leb_le. tauto.
Qed.

Lemma valid_year (dt : datetime) :
  valid dt = true ->
  1 <= year dt <= 9999 /\ 1 <= month dt <= 12
  /\ 1 <= day dt <= days_in_month (year dt) (month dt).
Proof.
  intros V. apply valid_fields in V as (V & _).
  unfold check_date_fields, MINYEAR, MAXYEAR in V.
  rewrite !andb_true_iff, !Z.leb_le in V. lia.
Qed.

Lemma new_valid (y m d h mi s : Z) (dt : datetime) :
  new y m d h mi s = Some dt -> dt = mkdatetime y m d h mi s /\ valid dt = true.
Proof.
  unfold new. destruct (check_date_fields y m d && check_time_fields h mi s) eqn:E;
    [|discriminate].
  intros [= <-]. split; [reflexivity | exact E].
Qed.

Lemma new_of_valid (dt : datetime) :
  valid dt = true ->
  new (year dt) (month dt) (day dt) (hour dt) (minute dt) (second dt) = Some dt.
Proof. intros V. unfold new. fold (valid dt). rewrite V. now destruct dt. Qed.


(** Adding seconds gives a datetime that exists and shows that many
    seconds more. *)
Lemma add_seconds_spec (dt r : datetime) (delta : Z) :
  add_seconds dt delta = Some r ->
  valid r = true /\ to_seconds r = to_seconds dt + delta.
Proof.
  unfold add_seconds.
  set (total := to_seconds dt + delta).
  destruct (Z.ltb_spec 0 (total / 86400)) as [L|L]; [|discriminate].
  destruct (Z.leb_spec (total / 86400) MAXORDINAL) as [U|U]; [|discriminate].
  cbn [andb].
  pose proof (ord2ymd_spec (total / 86400) ltac:(lia)) as O.
  destruct (ord2ymd (total / 86400)) as [[y m] d]. destruct O as (V & E).
  intros [= <-]. split.
  - unfold valid, check_time_fields. cbn [year month day hour minute second].
    rewrite V. cbn [andb]. rewrite !andb_true_iff, !Z.leb_le.
    Z.div_mod_to_equations. lia.
  - unfold to_seconds at 1, toordinal.
    cbn [year month day hour minute second]. rewrite E.
    Z.div_mod_to_equations. lia.
Qed.

(** It fails only when the sum leaves the years 1 to 9999. *)
Lemma add_seconds_some (dt : datetime) (delta : Z) :
  86400 <= to_seconds dt + delta < (MAXORDINAL + 1) * 86400 ->
  exists r, add_seconds dt delta = Some r.
Proof.
  intros H. unfold add_seconds.
  destruct (Z.ltb_spec 0 ((to_seconds dt + delta) / 86400)) as [L|L];
    [|unfold MAXORDINAL in *; Z.div_mod_to_equations; lia].
  destruct (Z.leb_spec ((to_seconds dt + delta) / 86400) MAXORDINAL) as [U|U];
    [|unfold MAXORDINAL in *; Z.div_mod_to_equations; lia].
  cbn [andb]. destruct (ord2ymd _) as [[y m] d]. eauto.
Qed.

(** ** [isoformat] and back *)

Lemma fromisoformat_isoformat (dt : datetime) :
  valid dt = true -> fromisoformat (isoformat dt) = Some dt.
Proof.
  intros V. pose proof (valid_fields dt V) as (D & H & M & S).
  pose proof (valid_year dt V) as (Y & Mo & Da).
  pose proof (days_in_month_pos (year dt) (month dt) Mo) as Dm.
  unfold isoformat, PyStr.pad4, PyStr.pad2. cbn [append fromisoformat].
  fold (PyStr.pad4 (year dt)). fold (PyStr.pad2 (month dt)).
  fold (PyStr.pad2 (day dt)). fold (PyStr.pad2 (hour dt)).
  fold (PyStr.pad2 (minute dt)). fold (PyStr.pad2 (second dt)).
  rewrite PyStrFacts.digits_value_pad4 by lia.
  rewrite !PyStrFacts.digits_value_pad2 by lia.
  now apply new_of_valid.
Qed.

End DatetimeFacts.

(* ================================================================== *)
(** * Facts about [strptime] and [strftime] *)
(* ================================================================== *)

Module StrptimeFacts.

Import Datetime Strptime Shape PyStr PyStrFacts DatetimeFacts.

(** ** What [strptime] returns exists *)

Lemma strptime_valid (s fmt : string) (dt : datetime) :
  strptime s fmt = Some dt -> valid dt = true /\ second dt = 0%Z.
Proof.
  unfold strptime, Strptime.bind.
  destruct (_strptime s fmt) as [tt|] eqn:E; [|discriminate].
  intros H. apply new_valid in H as [-> V]. split; [exact V|].
  cbn [second]. unfold _strptime, Strptime.bind in E.
  repeat match type of E with
         | match ?x with _ => _ end = _ => destruct x; try discriminate
         end.
  now injection E as <-.
Qed.

(** ** The first way a pattern matches *)

Lemma re_match_cat (r1 r2 : regex) (s : string) (h1 h2 : hit) :
  re_match r1 s = Some h1 ->
  re_match r2 (rest h1) = Some h2 ->
  re_match (Cat r1 r2) s
  = Some (mkhit (consumed h1 ++ consumed h2) (groups h1 ++ groups h2)%list (rest h2)).
Proof.
  unfold re_match. cbn [rmatch].
  destruct (rmatch r1 s) as [|x l1]; [discriminate|]. intros [= ->].
  cbn [flat_map]. destruct (rmatch r2 (rest h1)) as [|y l2]; [discriminate|].
  intros [= ->]. reflexivity.
Qed.

Lemma re_match_group (name : string) (r : regex) (s : string) (h : hit) :
  re_match r s = Some h ->
  re_match (Group name r) s
  = Some (mkhit (consumed h) ((name, consumed h) :: groups h) (rest h)).
Proof.
  unfold re_match. cbn [rmatch].
  destruct (rmatch r s) as [|x l]; [discriminate|]. intros [= ->]. reflexivity.
Qed.

Lemma re_match_alt_l (r1 r2 : regex) (s : string) (h : hit) :
  re_match r1 s = Some h -> re_match (Alt r1 r2) s = Some h.
Proof.
  unfold re_match. cbn [rmatch].
  destruct (rmatch r1 s) as [|x l]; [discriminate|]. intros [= ->]. reflexivity.
Qed.

Lemma re_match_digit (d : Z) (t : string) :
  re_match Digit (String (digit_char d) t)
  = Some (mkhit (String (digit_char d) "") [] t).
Proof. unfold re_match. cbn [rmatch one]. now rewrite isdigit_digit_char. Qed.

(** A single space before a character that is not white space. *)
Lemma re_match_space (c : ascii) (t : string) :
  isspace c = false ->
  re_match Spaces (String " " (String c t))
  = Some (mkhit " " [] (String c t)).
Proof.
  intros H. unfold re_match. cbn [rmatch spaces_plus].
  change (isspace " ") with true. cbn iota. rewrite H. reflexivity.
Qed.

(** ** The directives on what [strftime] writes *)

Lemma range_cases (P : Z -> Prop) (lo : Z) (n : nat) :
  Forall P (map (fun i => lo + Z.of_nat i)%Z (seq 0 n)) ->
  forall x, (lo <= x < lo + Z.of_nat n)%Z -> P x.
Proof.
  intros H x Hx. rewrite Forall_forall in H. apply H.
  apply in_map_iff. exists (Z.to_nat (x - lo)). split; [lia|].
  apply in_seq. lia.
Qed.

(** Case analysis on an integer in a range of [n] values from [lo]. *)
Ltac each_in_range lo n :=
  match goal with
  | |- forall x, _ -> @?P x => apply (range_cases P lo n)
  end;
  cbv [seq map Z.of_nat Pos.of_succ_nat Pos.succ Z.add Pos.add];
  repeat apply Forall_cons; try apply Forall_nil.

Lemma re_match_Y (y : Z) (t : string) :
  re_match (re "Y") (pad4 y ++ t) = Some (mkhit (pad4 y) [("Y", pad4 y)] t).
Proof.
  unfold pad4. cbn [append].
  change (re "Y") with (Group "Y" (Cat Digit (Cat Digit (Cat Digit Digit)))).
  rewrite (re_match_group "Y" _ _
             (mkhit (pad4 y) [] t)); [reflexivity|].
  unfold pad4.
  erewrite re_match_cat; [| apply re_match_digit |].
  2:{ cbn [rest]. erewrite re_match_cat; [| apply re_match_digit |].
      2:{ cbn [rest]. erewrite re_match_cat; [| apply re_match_digit |].
          2:{ cbn [rest]. apply re_match_digit. }
          reflexivity. }
      reflexivity. }
  reflexivity.
Qed.

Lemma re_match_d :
  forall d, (1 <= d < 1 + Z.of_nat 31)%Z ->
  forall t, re_match (re "d") (pad2 d ++ t) = Some (mkhit (pad2 d) [("d", pad2 d)] t).
Proof. each_in_range 1%Z 31%nat; intros t; reflexivity. Qed.

Lemma re_match_I :
  forall h, (1 <= h < 1 + Z.of_nat 12)%Z ->
  forall t, re_match (re "I") (pad2 h ++ t) = Some (mkhit (pad2 h) [("I", pad2 h)] t).
Proof. each_in_range 1%Z 12%nat; intros t; reflexivity. Qed.

Lemma re_match_M :
  forall m, (0 <= m < 0 + Z.of_nat 60)%Z ->
  forall t, re_match (re "M") (pad2 m ++ t) = Some (mkhit (pad2 m) [("M", pad2 m)] t).
Proof. each_in_range 0%Z 60%nat; intros t; reflexivity. Qed.

Lemma re_match_A (i : nat) (t : string) :
  (i < 7)%nat ->
  re_match (re "A") (nth i day_name "" ++ t)
  = Some (mkhit (nth i day_name "") [("A", nth i day_name "")] t).
Proof. intros H. do 7 (destruct i as [|i]; [reflexivity|]). lia. Qed.

Lemma re_match_a (i : nat) (t : string) :
  (i < 7)%nat ->
  re_match (re "a") (nth i day_abbr "" ++ t)
  = Some (mkhit (nth i day_abbr "") [("a", nth i day_abbr "")] t).
Proof. intros H. do 7 (destruct i as [|i]; [reflexivity|]). lia. Qed.

Lemma re_match_B (i : nat) (t : string) :
  (1 <= i <= 12)%nat ->
  re_match (re "B") (nth i month_name "" ++ t)
  = Some (mkhit (nth i month_name "") [("B", nth i month_name "")] t).
Proof.
  intros H. destruct i as [|i]; [lia|].
  do 12 (destruct i as [|i]; [reflexivity|]). lia.
Qed.

Lemma re_match_b (i : nat) (t : string) :
  (1 <= i <= 12)%nat ->
  re_match (re "b") (nth i month_abbr "" ++ t)
  = Some (mkhit (nth i month_abbr "") [("b", nth i month_abbr "")] t).
Proof.
  intros H. destruct i as [|i]; [lia|].
  do 12 (destruct i as [|i]; [reflexivity|]). lia.
Qed.

(** ** The pattern of the script's formats on what [strftime] writes *)

(** A field, then the rest of the pattern on the rest of the string. *)
Lemma re_match_field (r k : regex) (f : string) (g : list (string * string))
    (t c2 : string) (g2 : list (string * string)) :
  re_match r (f ++ t) = Some (mkhit f g t) ->
  re_match k t = Some (mkhit c2 g2 "") ->
  re_match (Cat r k) (f ++ t) = Some (mkhit (f ++ c2) (g ++ g2)%list "").
Proof. intros H1 H2. now rewrite (re_match_cat r k _ _ _ H1 H2). Qed.

Lemma re_match_chr (c : ascii) (k : regex) (t c2 : string)
    (g2 : list (string * string)) :
  re_match k t = Some (mkhit c2 g2 "") ->
  re_match (Cat (Chr c) k) (String c t) = Some (mkhit (String c c2) g2 "").
Proof.
  intros H2.
  assert (H1 : re_match (Chr c) (String c t) = Some (mkhit (String c "") [] t)).
  { unfold re_match. cbn [rmatch one]. now rewrite Ascii.eqb_refl. }
  now rewrite (re_match_cat _ k _ _ _ H1 H2).
Qed.

Lemma re_match_space_then (k : regex) (c : ascii) (t c2 : string)
    (g2 : list (string * string)) :
  isspace c = false ->
  re_match k (String c t) = Some (mkhit c2 g2 "") ->
  re_match (Cat Spaces k) (String " " (String c t))
  = Some (mkhit (String " " c2) g2 "").
Proof.
  intros Hc H2.
  now rewrite (re_match_cat _ k _ _ _ (re_match_space c t Hc) H2).
Qed.

Lemma hour12_range (h : Z) : (0 <= h <= 23)%Z -> (1 <= hour12 h <= 12)%Z.
Proof.
  intros H. unfold hour12. destruct (Z.eqb_spec (h mod 12) 0);
    Z.div_mod_to_equations; lia.
Qed.

Lemma re_match_formatted (rA rB : regex) (kA kB N : string) (c : ascii)
    (M' : string) (dt : datetime) :
  (forall t, re_match rA (N ++ t) = Some (mkhit N [(kA, N)] t)) ->
  (forall t, re_match rB (String c M' ++ t)
             = Some (mkhit (String c M') [(kB, String c M')] t)) ->
  isspace c = false ->
  (1 <= day dt <= 31)%Z -> (0 <= hour dt <= 23)%Z -> (0 <= minute dt <= 59)%Z ->
  re_match (template rA rB) (formatted N (String c M') dt)
  = Some (mkhit (formatted N (String c M') dt)
            [(kA, N); (kB, String c M'); ("d", pad2 (day dt));
             ("Y", pad4 (year dt)); ("I", pad2 (hour12 (hour dt)));
             ("M", pad2 (minute dt));
             ("p", if (hour dt <? 12)%Z then "AM" else "PM")] "").
Proof.
  intros HA HB Hc Hd Hh Hm. pose proof (hour12_range _ Hh) as Hh12.
  unfold template, formatted.
  set (ap := if (hour dt <? 12)%Z then "AM" else "PM").
  assert (Hp : re_match (Cat Spaces (Cat (re "p") Eps)) (" " ++ ap)
               = Some (mkhit (" " ++ ap) [("p", ap)] "")).
  { subst ap. destruct (hour dt <? 12)%Z; reflexivity. }
  assert (HM : re_match (Cat (re "M") (Cat Spaces (Cat (re "p") Eps)))
                 (pad2 (minute dt) ++ " " ++ ap)
               = Some (mkhit (pad2 (minute dt) ++ " " ++ ap)
                         [("M", pad2 (minute dt)); ("p", ap)] "")).
  { apply (re_match_field (re "M") _ (pad2 (minute dt)) [("M", pad2 (minute dt))]
             (" " ++ ap) (" " ++ ap) [("p", ap)]); [|exact Hp].
    apply re_match_M. lia. }
  assert (HI : re_match (Cat (re "I") (Cat (Chr ":") (Cat (re "M")
                 (Cat Spaces (Cat (re "p") Eps)))))
                 (pad2 (hour12 (hour dt)) ++ ":" ++ pad2 (minute dt) ++ " " ++ ap)
               = Some (mkhit (pad2 (hour12 (hour dt)) ++ ":" ++ pad2 (minute dt)
                              ++ " " ++ ap)
                         [("I", pad2 (hour12 (hour dt))); ("M", pad2 (minute dt));
                          ("p", ap)] "")).
  { apply (re_match_field (re "I") _ (pad2 (hour12 (hour dt)))
             [("I", pad2 (hour12 (hour dt)))]
             (":" ++ pad2 (minute dt) ++ " " ++ ap)
             (":" ++ pad2 (minute dt) ++ " " ++ ap)
             [("M", pad2 (minute dt)); ("p", ap)]).
    - apply re_match_I. lia.
    - apply (re_match_chr ":"%char _ _ _ _ HM). }
  assert (HY : re_match (Cat (re "Y") (Cat Spaces (Cat (re "I") (Cat (Chr ":")
                 (Cat (re "M") (Cat Spaces (Cat (re "p") Eps)))))))
                 (pad4 (year dt) ++ " " ++ pad2 (hour12 (hour dt)) ++ ":"
                  ++ pad2 (minute dt) ++ " " ++ ap)
               = Some (mkhit (pad4 (year dt) ++ " " ++ pad2 (hour12 (hour dt))
                              ++ ":" ++ pad2 (minute dt) ++ " " ++ ap)
                         [("Y", pad4 (year dt)); ("I", pad2 (hour12 (hour dt)));
                          ("M", pad2 (minute dt)); ("p", ap)] "")).
  { apply (re_match_field (re "Y") _ (pad4 (year dt)) [("Y", pad4 (year dt))]
             (" " ++ pad2 (hour12 (hour dt)) ++ ":" ++ pad2 (minute dt) ++ " " ++ ap)
             (" " ++ pad2 (hour12 (hour dt)) ++ ":" ++ pad2 (minute dt) ++ " " ++ ap)
             [("I", pad2 (hour12 (hour dt))); ("M", pad2 (minute dt)); ("p", ap)]).
    - apply re_match_Y.
    - apply (re_match_space_then _ (digit_char (hour12 (hour dt) / 10))
               _ _ _ (isspace_digit_char _) HI). }
  assert (Hday : re_match (Cat (re "d") (Cat (Chr ",") (Cat Spaces (Cat (re "Y")
                   (Cat Spaces (Cat (re "I") (Cat (Chr ":") (Cat (re "M")
                   (Cat Spaces (Cat (re "p") Eps))))))))))
                   (pad2 (day dt) ++ ", " ++ pad4 (year dt) ++ " "
                    ++ pad2 (hour12 (hour dt)) ++ ":" ++ pad2 (minute dt)
                    ++ " " ++ ap)
                 = Some (mkhit (pad2 (day dt) ++ ", " ++ pad4 (year dt) ++ " "
                                ++ pad2 (hour12 (hour dt)) ++ ":"
                                ++ pad2 (minute dt) ++ " " ++ ap)
                           [("d", pad2 (day dt)); ("Y", pad4 (year dt));
                            ("I", pad2 (hour12 (hour dt)));
                            ("M", pad2 (minute dt)); ("p", ap)] "")).
  { apply (re_match_field (re "d") _ (pad2 (day dt)) [("d", pad2 (day dt))]
             (", " ++ pad4 (year dt) ++ " " ++ pad2 (hour12 (hour dt)) ++ ":"
              ++ pad2 (minute dt) ++ " " ++ ap)
             (", " ++ pad4 (year dt) ++ " " ++ pad2 (hour12 (hour dt)) ++ ":"
              ++ pad2 (minute dt) ++ " " ++ ap)
             [("Y", pad4 (year dt)); ("I", pad2 (hour12 (hour dt)));
              ("M", pad2 (minute dt)); ("p", ap)]).
    - apply re_match_d. lia.
    - apply (re_match_chr ","%char).
      apply (re_match_space_then _ (digit_char (year dt / 1000))
               _ _ _ (isspace_digit_char _) HY). }
  apply (re_match_field rA _ N [(kA, N)] _ _ _ (HA _)).
  apply (re_match_chr ","%char).
  apply (re_match_space_then _ c _ _ _ Hc).
  apply (re_match_field rB _ (String c M') [(kB, String c M')] _ _ _ (HB _)).
  apply (re_match_space_then _ (digit_char (day dt / 10))
           _ _ _ (isspace_digit_char _) Hday).
Qed.

(** The same, for a month name known only to start with a character that
    is not white space. *)
Lemma re_match_formatted_name (rA rB : regex) (kA kB N M : string) (dt : datetime) :
  (forall t, re_match rA (N ++ t) = Some (mkhit N [(kA, N)] t)) ->
  (forall t, re_match rB (M ++ t) = Some (mkhit M [(kB, M)] t)) ->
  (exists c M', M = String c M' /\ isspace c = false) ->
  valid dt = true ->
  re_match (template rA rB) (formatted N M dt)
  = Some (mkhit (formatted N M dt)
            [(kA, N); (kB, M); ("d", pad2 (day dt));
             ("Y", pad4 (year dt)); ("I", pad2 (hour12 (hour dt)));
             ("M", pad2 (minute dt));
             ("p", if (hour dt <? 12)%Z then "AM" else "PM")] "").
Proof.
  intros HA HB (c & M' & -> & Hc) V.
  pose proof (valid_fields dt V) as (_ & Hh & Hm & _).
  pose proof (valid_year dt V) as (_ & Hmo & Hd).
  pose proof (days_in_month_pos (year dt) (month dt) Hmo).
  apply re_match_formatted; auto; lia.
Qed.

(** ** Reading the fields back *)

Lemma strip_pad2 (n : Z) : strip (pad2 n) = pad2 n.
Proof.
  unfold strip, pad2. cbn [lstrip]. rewrite isspace_digit_char.
  cbn [rstrip]. now rewrite !isspace_digit_char.
Qed.

Lemma strip_pad4 (n : Z) : strip (pad4 n) = pad4 n.
Proof.
  unfold strip, pad4. cbn [lstrip]. rewrite isspace_digit_char.
  cbn [rstrip]. now rewrite !isspace_digit_char.
Qed.

Lemma int_pad2 (n : Z) : (0 <= n < 100)%Z -> int (pad2 n) = Some n.
Proof.
  intros H. unfold int. rewrite strip_pad2.
  rewrite <- (digits_value_pad2 n H). reflexivity.
Qed.

Lemma int_pad4 (n : Z) : (0 <= n < 10000)%Z -> int (pad4 n) = Some n.
Proof.
  intros H. unfold int. rewrite strip_pad4.
  rewrite <- (digits_value_pad4 n H). reflexivity.
Qed.

Lemma index_day_name (i : nat) :
  (i < 7)%nat ->
  index_Z f_weekday (nth i day_name "") = Some (Z.of_nat i)
  /\ index_Z a_weekday (nth i day_abbr "") = Some (Z.of_nat i).
Proof. intros H. do 7 (destruct i as [|i]; [split; reflexivity|]). lia. Qed.

Lemma index_month_name (i : nat) :
  (1 <= i <= 12)%nat ->
  index_Z f_month (nth i month_name "") = Some (Z.of_nat i)
  /\ index_Z a_month (nth i month_abbr "") = Some (Z.of_nat i).
Proof.
  intros H. destruct i as [|i]; [lia|].
  do 12 (destruct i as [|i]; [split; reflexivity|]). lia.
Qed.

Lemma month_name_head (i : nat) :
  (1 <= i <= 12)%nat ->
  (exists c M', nth i month_name "" = String c M' /\ isspace c = false)
  /\ (exists c M', nth i month_abbr "" = String c M' /\ isspace c = false).
Proof.
  intros H. destruct i as [|i]; [lia|].
  do 12 (destruct i as [|i];
         [split; eexists _, _; split; reflexivity|]). lia.
Qed.

(** The hour of the 12-hour clock with its marker gives the hour back. *)
Lemma hour_of_hour12 :
  forall h, (0 <= h < 0 + Z.of_nat 24)%Z ->
  forall gs,
    group "p" gs = Some (if (h <? 12)%Z then "AM" else "PM") ->
    hour_of gs (pad2 (hour12 h)) = Some h.
Proof.
  each_in_range 0%Z 24%nat; intros gs Hg; unfold hour_of;
    rewrite Hg; reflexivity.
Qed.

Lemma weekday_range (dt : datetime) : (Z.to_nat (weekday dt) < 7)%nat.
Proof. unfold weekday. Z.div_mod_to_equations. lia. Qed.

(** What the formats of the script parse from what [strftime] writes,
    under any name of a week day. *)
Ltac parse_formatted rA rB HA HB Hname :=
  unfold strptime, _strptime;
  match goal with
  | |- context [pattern ?f] => change (pattern f) with (Some (template rA rB))
  end;
  cbn [Strptime.bind];
  rewrite (re_match_formatted_name rA rB _ _ _ _ _ HA HB Hname) by assumption;
  unfold field;
  cbn [Strptime.bind rest groups group String.eqb Ascii.eqb Bool.eqb andb negb].

Lemma strptime_formatted_any (dt : datetime) (wd : nat) :
  valid dt = true -> second dt = 0%Z -> (wd < 7)%nat ->
  let mo := Z.to_nat (month dt) in
  strptime (formatted (nth wd day_name "") (nth mo month_name "") dt)
    "%A, %B %d, %Y %I:%M %p" = Some dt
  /\ strptime (formatted (nth wd day_name "") (nth mo month_abbr "") dt)
       "%A, %b %d, %Y %I:%M %p" = Some dt
  /\ strptime (formatted (nth wd day_abbr "") (nth mo month_name "") dt)
       "%a, %B %d, %Y %I:%M %p" = Some dt
  /\ strptime (formatted (nth wd day_abbr "") (nth mo month_abbr "") dt)
       "%a, %b %d, %Y %I:%M %p" = Some dt.
Proof.
  intros V S0 Hwd mo.
  pose proof (valid_fields dt V) as (D & Hh & Hm & _).
  pose proof (valid_year dt V) as (Hy & Hmo & Hd).
  pose proof (days_in_month_pos (year dt) (month dt) Hmo) as Hdim.
  assert (Hmo' : (1 <= mo <= 12)%nat) by (subst mo; lia).
  destruct (index_day_name wd Hwd) as [IA Ia].
  destruct (index_month_name mo Hmo') as [IB Ib].
  destruct (month_name_head mo Hmo') as [NB Nb].
  assert (Emo : Z.of_nat mo = month dt) by (subst mo; lia).
  assert (HA := fun t => re_match_A wd t Hwd).
  assert (Ha := fun t => re_match_a wd t Hwd).
  assert (HB := fun t => re_match_B mo t Hmo').
  assert (Hb := fun t => re_match_b mo t Hmo').
  assert (Hfinish :
            Strptime.bind (Some (mkstruct_time (year dt) (month dt) (day dt)
                                   (hour dt) (minute dt) 0 (Z.of_nat wd)))
              (fun tt => new (tm_year tt) (tm_mon tt) (tm_mday tt)
                             (tm_hour tt) (tm_min tt) (tm_sec tt))
            = Some dt).
  { cbn [Strptime.bind tm_year tm_mon tm_mday tm_hour tm_min tm_sec].
    rewrite <- S0. now apply new_of_valid. }
  repeat split.
  - parse_formatted (re "A") (re "B") HA HB NB.
    rewrite int_pad4, IB, !int_pad2, IA by lia. cbn [Strptime.bind option_map].
    rewrite (hour_of_hour12 (hour dt)) by (reflexivity || lia).
    cbn [Strptime.bind]. rewrite Emo, D. cbn [negb]. exact Hfinish.
  - parse_formatted (re "A") (re "b") HA Hb Nb.
    rewrite int_pad4, Ib, !int_pad2, IA by lia. cbn [Strptime.bind option_map].
    rewrite (hour_of_hour12 (hour dt)) by (reflexivity || lia).
    cbn [Strptime.bind]. rewrite Emo, D. cbn [negb]. exact Hfinish.
  - parse_formatted (re "a") (re "B") Ha HB NB.
    rewrite int_pad4, IB, !int_pad2, Ia by lia. cbn [Strptime.bind option_map].
    rewrite (hour_of_hour12 (hour dt)) by (reflexivity || lia).
    cbn [Strptime.bind]. rewrite Emo, D. cbn [negb]. exact Hfinish.
  - parse_formatted (re "a") (re "b") Ha Hb Nb.
    rewrite int_pad4, Ib, !int_pad2, Ia by lia. cbn [Strptime.bind option_map].
    rewrite (hour_of_hour12 (hour dt)) by (reflexivity || lia).
    cbn [Strptime.bind]. rewrite Emo, D. cbn [negb]. exact Hfinish.
Qed.

(** With the week day of the date itself, as [strftime] writes it. *)
Lemma strptime_formatted (dt : datetime) :
  valid dt = true -> second dt = 0%Z ->
  let wd := Z.to_nat (weekday dt) in
  let mo := Z.to_nat (month dt) in
  strptime (formatted (nth wd day_name "") (nth mo month_name "") dt)
    "%A, %B %d, %Y %I:%M %p" = Some dt
  /\ strptime (formatted (nth wd day_name "") (nth mo month_abbr "") dt)
       "%A, %b %d, %Y %I:%M %p" = Some dt
  /\ strptime (formatted (nth wd day_abbr "") (nth mo month_name "") dt)
       "%a, %B %d, %Y %I:%M %p" = Some dt
  /\ strptime (formatted (nth wd day_abbr "") (nth mo month_abbr "") dt)
       "%a, %b %d, %Y %I:%M %p" = Some dt.
Proof.
  intros V S0 wd mo.
  exact (strptime_formatted_any dt wd V S0 (weekday_range dt)).
Qed.

(** ** What [strftime] writes *)

Lemma strftime_formatted (dt : datetime) :
  (1000 <= year dt <= 9999)%Z ->
  let wd := Z.to_nat (weekday dt) in
  let mo := Z.to_nat (month dt) in
  strftime dt "%A, %B %d, %Y %I:%M %p"
  = Some (formatted (nth wd day_name "") (nth mo month_name "") dt)
  /\ strftime dt "%A, %b %d, %Y %I:%M %p"
     = Some (formatted (nth wd day_name "") (nth mo month_abbr "") dt)
  /\ strftime dt "%a, %B %d, %Y %I:%M %p"
     = Some (formatted (nth wd day_abbr "") (nth mo month_name "") dt)
  /\ strftime dt "%a, %b %d, %Y %I:%M %p"
     = Some (formatted (nth wd day_abbr "") (nth mo month_abbr "") dt).
Proof.
  intros Hy wd mo. unfold formatted.
  repeat split;
    cbn [strftime format_directive Ascii.eqb Bool.eqb option_map];
    rewrite (str_of_Z_four _ Hy); subst wd mo;
    destruct (hour dt <? 12)%Z; reflexivity.
Qed.

End StrptimeFacts.

(* ================================================================== *)
(** * No accepted time holds [" on "] *)
(* ================================================================== *)

Module ShapeFacts.

Import Datetime Strptime Shape PyStr PyStrFacts StrptimeFacts.

(** ** What the matcher consumes is in the language *)

Lemma one_sound (p : ascii -> bool) (s : string) (h : hit) :
  In h (one p s) ->
  s = consumed h ++ rest h
  /\ exists a, consumed h = String a "" /\ p a = true.
Proof.
  destruct s as [|a s]; [intros []|]. cbn [one].
  destruct (p a) eqn:E; [|intros []].
  intros [<-|[]]. split; [reflexivity|]. now exists a.
Qed.

Lemma spaces_plus_sound (s : string) (h : hit) :
  In h (spaces_plus s) ->
  s = consumed h ++ rest h
  /\ consumed h <> "" /\ all_space (consumed h) = true.
Proof.
  revert h; induction s as [|a s IH]; intros h; [intros []|].
  cbn [spaces_plus]. destruct (isspace a) eqn:E; [|intros []].
  intros Hin. apply in_app_or in Hin as [Hin|[<-|[]]].
  - apply in_map_iff in Hin as (h' & <- & Hin').
    destruct (IH h' Hin') as (Hs & Hne & Hall).
    cbn [consumed rest append]. rewrite <- Hs.
    repeat split; [discriminate|]. cbn [all_space]. now rewrite E, Hall.
  - cbn [consumed rest append]. repeat split; [discriminate|].
    cbn [all_space]. now rewrite E.
Qed.

Lemma rmatch_sound (r : regex) (s : string) (h : hit) :
  In h (rmatch r s) -> s = consumed h ++ rest h /\ lang r (consumed h).
Proof.
  revert s h; induction r as [ | c | lo hi | | | r1 IH1 r2 IH2 | r1 IH1 r2 IH2 | name r1 IH1 ];
    intros s h Hin; cbn [rmatch lang] in *.
  - destruct Hin as [<-|[]]. now split.
  - apply one_sound in Hin as (Hs & a & Ha & Hp).
    split; [exact Hs|]. exists a. split; [exact Ha|]. now apply Ascii.eqb_eq.
  - apply one_sound in Hin as (Hs & a & Ha & Hp). split; [exact Hs|]. now exists a.
  - apply one_sound in Hin as (Hs & a & Ha & Hp). split; [exact Hs|]. now exists a.
  - now apply spaces_plus_sound.
  - apply in_flat_map in Hin as (h1 & Hin1 & Hin).
    apply in_map_iff in Hin as (h2 & <- & Hin2).
    destruct (IH1 _ _ Hin1) as (Hs1 & L1).
    destruct (IH2 _ _ Hin2) as (Hs2 & L2).
    cbn [consumed rest]. split.
    + rewrite append_assoc, <- Hs2. exact Hs1.
    + now exists (consumed h1), (consumed h2).
  - apply in_app_or in Hin as [Hin|Hin].
    + destruct (IH1 _ _ Hin). split; [assumption | now left].
    + destruct (IH2 _ _ Hin). split; [assumption | now right].
  - apply in_map_iff in Hin as (h' & <- & Hin').
    destruct (IH1 _ _ Hin'). cbn [consumed rest]. now split.
Qed.

(** ** The automaton *)

Lemma on_scan_app (q : nat) (s t : string) :
  on_scan q (s ++ t) = on_scan (on_scan q s) t.
Proof. revert q; induction s; intros q; simpl; auto. Qed.

Lemma on_scan_seen (s : string) : on_scan 4 s = 4%nat.
Proof. induction s; simpl; auto. Qed.

(** Wherever [" on "] occurs, the automaton ends in state 4. *)
Lemma contains_on_scan (s : string) (q : nat) :
  contains " on " s = true -> on_scan q s = 4%nat.
Proof.
  revert q; induction s as [|c s IH]; intros q H; [discriminate|].
  cbn [contains] in H. apply orb_true_iff in H as [H|H].
  - destruct (startswith_inv _ _ H) as [t ->].
    rewrite on_scan_app.
    assert (E : on_scan q " on " = 4%nat).
    { cbn. unfold on_step. cbn.
      destruct (q =? 4)%nat eqn:E4; [reflexivity|].
      destruct (q =? 3)%nat; reflexivity. }
    rewrite E. apply on_scan_seen.
  - cbn [on_scan]. now apply IH.
Qed.

(** White space takes the automaton to state 0 or 1, unless it was about
    to see the last space. *)
Lemma on_step_space (q : nat) (c : ascii) :
  isspace c = true ->
  (q < 3)%nat -> (on_step q c < 2)%nat.
Proof.
  intros Hc Hq. unfold on_step.
  destruct (Nat.eqb_spec q 4); [lia|].
  destruct (Ascii.eqb c " ").
  - destruct (Nat.eqb_spec q 3); lia.
  - destruct (Ascii.eqb_spec c "o"); [subst; discriminate|].
    destruct (Ascii.eqb_spec c "n"); [subst; discriminate|]. lia.
Qed.

Lemma on_scan_spaces (s : string) (q : nat) :
  all_space s = true -> (q < 2)%nat -> (on_scan q s < 2)%nat.
Proof.
  revert q; induction s as [|c s IH]; intros q H Hq; [exact Hq|].
  cbn [all_space] in H. apply andb_true_iff in H as [Hc Hs].
  cbn [on_scan]. apply IH; [exact Hs|]. apply on_step_space; [exact Hc | lia].
Qed.

Lemma on_scan_spaces_any (s : string) (q : nat) :
  all_space s = true -> s <> "" ->
  (on_scan q s < 2)%nat \/ on_scan q s = 4%nat.
Proof.
  destruct s as [|c s]; [congruence|]. intros H _.
  cbn [all_space] in H. apply andb_true_iff in H as [Hc Hs]. cbn [on_scan].
  assert (Hstep : (on_step q c < 2)%nat \/ on_step q c = 4%nat).
  { unfold on_step. destruct (Nat.eqb_spec q 4); [now right|].
    destruct (Ascii.eqb c " ").
    - destruct (Nat.eqb_spec q 3); [now right | left; lia].
    - destruct (Ascii.eqb_spec c "o"); [subst; discriminate|].
      destruct (Ascii.eqb_spec c "n"); [subst; discriminate|]. left; lia. }
  destruct Hstep as [Hlt | ->].
  - left. now apply on_scan_spaces.
  - right. apply on_scan_seen.
Qed.

(** ** The states after a string of the language *)

Lemma in_all_chars (a : ascii) : In a all_chars.
Proof.
  unfold all_chars. apply in_map_iff. exists (nat_of_ascii a).
  split.
  - unfold nat_of_ascii. rewrite Nnat.N2Nat.id. apply ascii_N_embedding.
  - apply in_seq. pose proof (nat_ascii_bounded a). lia.
Qed.

Lemma step_set_sound (p : ascii -> bool) (Q : list nat) (q : nat) (a : ascii) :
  In q Q -> p a = true -> In (on_step q a) (step_set p Q).
Proof.
  intros Hq Hp. unfold step_set. apply nodup_In. apply in_flat_map.
  exists q. split; [exact Hq|]. apply in_map. apply filter_In.
  split; [apply in_all_chars | exact Hp].
Qed.

Lemma post_sound (r : regex) (s : string) (Q : list nat) (q : nat) :
  lang r s -> In q Q -> In (on_scan q s) (post r Q).
Proof.
  revert s Q q;
    induction r as [ | c | lo hi | | | r1 IH1 r2 IH2 | r1 IH1 r2 IH2 | name r1 IH1 ];
    intros s Q q L Hq; cbn [lang post] in *.
  - now subst s.
  - destruct L as (a & -> & Ha). cbn [on_scan].
    apply step_set_sound; [exact Hq|]. now apply Ascii.eqb_eq.
  - destruct L as (a & -> & Ha). cbn [on_scan]. now apply step_set_sound.
  - destruct L as (a & -> & Ha). cbn [on_scan]. now apply step_set_sound.
  - destruct L as (Hne & Hall).
    destruct (existsb (fun q0 => (3 <=? q0)%nat) Q) eqn:E.
    + destruct (on_scan_spaces_any s q Hall Hne) as [Hlt| ->]; [|cbn; auto].
      destruct (on_scan q s) as [|[|n]]; cbn; auto; lia.
    + assert (Hq3 : (q < 3)%nat).
      { destruct (Nat.leb_spec 3 q) as [Hge|]; [|assumption].
        assert (existsb (fun q0 => (3 <=? q0)%nat) Q = true).
        { apply existsb_exists. exists q. split; [exact Hq|].
          now apply Nat.leb_le. }
        congruence. }
      destruct s as [|c s]; [congruence|].
      cbn [all_space] in Hall. apply andb_true_iff in Hall as [Hc Hs].
      cbn [on_scan].
      pose proof (on_scan_spaces s _ Hs (on_step_space q c Hc Hq3)) as Hlt.
      destruct (on_scan (on_step q c) s) as [|[|n]]; cbn; auto; lia.
  - destruct L as (s1 & s2 & -> & L1 & L2). rewrite on_scan_app.
    apply (IH2 s2 _ _ L2). now apply (IH1 s1).
  - apply nodup_In, in_or_app. destruct L as [L|L]; [left | right]; eauto.
  - eauto.
Qed.

(** ** The accepted times *)

Lemma pattern_formats :
  pattern "%A, %B %d, %Y %I:%M %p" = Some (template (re "A") (re "B"))
  /\ pattern "%A, %b %d, %Y %I:%M %p" = Some (template (re "A") (re "b"))
  /\ pattern "%a, %B %d, %Y %I:%M %p" = Some (template (re "a") (re "B"))
  /\ pattern "%a, %b %d, %Y %I:%M %p" = Some (template (re "a") (re "b")).
Proof. repeat split; reflexivity. Qed.

Lemma post_templates (q : nat) :
  (In q (post (template (re "A") (re "B")) [0; 1]%nat) -> q = 0%nat)
  /\ (In q (post (template (re "A") (re "b")) [0; 1]%nat) -> q = 0%nat)
  /\ (In q (post (template (re "a") (re "B")) [0; 1]%nat) -> q = 0%nat)
  /\ (In q (post (template (re "a") (re "b")) [0; 1]%nat) -> q = 0%nat).
Proof.
  assert (E : post (template (re "A") (re "B")) [0; 1]%nat = [0%nat]
              /\ post (template (re "A") (re "b")) [0; 1]%nat = [0%nat]
              /\ post (template (re "a") (re "B")) [0; 1]%nat = [0%nat]
              /\ post (template (re "a") (re "b")) [0; 1]%nat = [0%nat]).
  { repeat split; vm_compute; reflexivity. }
  destruct E as (-> & -> & -> & ->).
  repeat split; intros [<-|[]]; reflexivity.
Qed.

(** What a format of the script accepts is in the language of its
    pattern. *)
Lemma strptime_lang (s fmt : string) (dt : datetime) (r : regex) :
  pattern fmt = Some r -> strptime s fmt = Some dt -> lang r s.
Proof.
  intros Hp. unfold strptime, _strptime. rewrite Hp. cbn [Strptime.bind].
  unfold re_match.
  destruct (rmatch r s) as [|h l] eqn:E; [discriminate|].
  cbn [hd_error Strptime.bind].
  destruct (String.eqb_spec (rest h) "") as [Hr|]; [|discriminate].
  intros _.
  destruct (rmatch_sound r s h) as (Hs & L); [rewrite E; now left|].
  rewrite Hr, append_nil_r in Hs. now subst s.
Qed.

Lemma accepted_scan (s fmt : string) (dt : datetime) (q : nat) :
  In fmt Script.formats -> strptime s fmt = Some dt -> (q < 2)%nat ->
  on_scan q s = 0%nat.
Proof.
  intros Hfmt Hparse Hq.
  destruct pattern_formats as (P1 & P2 & P3 & P4).
  assert (Hq' : In q [0; 1]%nat) by (destruct q as [|[|q]]; cbn; auto; lia).
  unfold Script.formats in Hfmt. cbn [In] in Hfmt.
  destruct (post_templates (on_scan q s)) as (T1 & T2 & T3 & T4).
  destruct Hfmt as [<-|[<-|[<-|[<-|[]]]]].
  - apply T1. apply post_sound; [|exact Hq']. eapply strptime_lang; eauto.
  - apply T2. apply post_sound; [|exact Hq']. eapply strptime_lang; eauto.
  - apply T3. apply post_sound; [|exact Hq']. eapply strptime_lang; eauto.
  - apply T4. apply post_sound; [|exact Hq']. eapply strptime_lang; eauto.
Qed.

(** ** Around the trimmed string there is only white space *)

Lemma lstrip_decompose (s : string) :
  exists w, s = w ++ lstrip s /\ all_space w = true.
Proof.
  induction s as [|c s (w & Hs & Hw)]; [now exists ""|].
  cbn [lstrip]. destruct (isspace c) eqn:E.
  - exists (String c w). cbn [append all_space]. rewrite E, Hw.
    split; [now rewrite <- Hs | reflexivity].
  - now exists "".
Qed.

Lemma rstrip_decompose (s : string) :
  exists w, s = rstrip s ++ w /\ all_space w = true.
Proof.
  induction s as [|c s (w & Hs & Hw)]; [now exists ""|].
  cbn [rstrip]. destruct (rstrip s) as [|c' r] eqn:E.
  - destruct (isspace c) eqn:Ec.
    + exists (String c w). cbn [append all_space]. rewrite Ec, Hw.
      cbn [append] in Hs. split; [now rewrite <- Hs | reflexivity].
    + exists w. cbn [append] in *. split; [now rewrite <- Hs | exact Hw].
  - exists w. cbn [append] in *. split; [now rewrite <- Hs | exact Hw].
Qed.

Lemma strip_decompose (s : string) :
  exists w1 w2,
    s = w1 ++ strip s ++ w2 /\ all_space w1 = true /\ all_space w2 = true.
Proof.
  destruct (lstrip_decompose s) as (w1 & H1 & A1).
  destruct (rstrip_decompose (lstrip s)) as (w2 & H2 & A2).
  exists w1, w2. unfold strip. rewrite <- H2. auto.
Qed.

(** A time that one of the formats accepts once trimmed does not hold
    [" on "]. *)
Lemma accepted_time_has_no_separator (time : string) (dt : datetime) :
  Script.try_formats (strip time) Script.formats = Some dt ->
  contains Script.separator time = false.
Proof.
  intros H.
  assert (Hfmt : exists fmt, In fmt Script.formats
                             /\ strptime (strip time) fmt = Some dt).
  { revert H. generalize Script.formats as fmts.
    induction fmts as [|f fmts IH]; [discriminate|]. cbn [Script.try_formats].
    destruct (strptime (strip time) f) eqn:E.
    - intros [= ->]. exists f. split; [now left | exact E].
    - intros H. destruct (IH H) as (fmt & Hin & Hs).
      exists fmt. split; [now right | exact Hs]. }
  destruct Hfmt as (fmt & Hin & Hs).
  destruct (contains Script.separator time) eqn:C; [|reflexivity].
  pose proof (contains_on_scan time 0 C) as Hscan.
  destruct (strip_decompose time) as (w1 & w2 & Ht & A1 & A2).
  rewrite Ht, !on_scan_app in Hscan.
  pose proof (on_scan_spaces w1 0 A1 ltac:(lia)) as H1.
  rewrite (accepted_scan _ _ _ _ Hin Hs H1) in Hscan.
  pose proof (on_scan_spaces w2 0 A2 ltac:(lia)). lia.
Qed.

End ShapeFacts.

(* ================================================================== *)
(** * [parse_event_time] and [extract_event_details] *)
(* ================================================================== *)

Module ExtractFacts.

Import Datetime Script Spec PyStr PyStrFacts.

Lemma printed_nil {Sv : Type} (w : world Sv) : printed w [] = w.
Proof. destruct w; unfold printed; simpl. now rewrite app_nil_r. Qed.

Lemma printed_printed {Sv : Type} (w : world Sv) (l1 l2 : list string) :
  printed (printed w l1) l2 = printed w (l1 ++ l2)%list.
Proof. unfold printed; simpl. now rewrite app_assoc. Qed.

Lemma print_run {Sv : Type} (line : string) (w : world Sv) :
  print line w = (Returned tt, printed w [line]).
Proof. reflexivity. Qed.

(** ** The loop over the formats *)

Lemma try_formats_some (s : string) (fmts : list string) (dt : datetime) :
  try_formats s fmts = Some dt <->
  exists i fmt,
    nth_error fmts i = Some fmt /\ Strptime.strptime s fmt = Some dt
    /\ forall j fmt', (j < i)%nat -> nth_error fmts j = Some fmt' ->
                      Strptime.strptime s fmt' = None.
Proof.
  revert dt; induction fmts as [|f fmts IH]; intros dt; simpl.
  - split; [discriminate|]. intros (i & fmt & H & _). destruct i; discriminate.
  - destruct (Strptime.strptime s f) eqn:E.
    + split.
      * intros [= ->]. exists 0%nat, f. repeat split; auto. intros j ? Hj; lia.
      * intros (i & fmt & Hn & Hs & Hfirst). destruct i as [|i].
        -- simpl in Hn. injection Hn as <-. congruence.
        -- specialize (Hfirst 0%nat f (Nat.lt_0_succ _) eq_refl). congruence.
    + rewrite IH. split.
      * intros (i & fmt & Hn & Hs & Hfirst). exists (S i), fmt.
        repeat split; auto. intros [|j] fmt' Hj Hn'; simpl in Hn'.
        -- congruence.
        -- apply (Hfirst j); auto; lia.
      * intros (i & fmt & Hn & Hs & Hfirst). destruct i as [|i].
        -- simpl in Hn. congruence.
        -- exists i, fmt. repeat split; auto. intros j fmt' Hj Hn'.
           apply (Hfirst (S j)); auto; lia.
Qed.

Lemma try_formats_none (s : string) (fmts : list string) :
  try_formats s fmts = None <->
  forall fmt, In fmt fmts -> Strptime.strptime s fmt = None.
Proof.
  induction fmts as [|f fmts IH]; simpl.
  - split; [intros _ ? [] | reflexivity].
  - destruct (Strptime.strptime s f) eqn:E.
    + split; [discriminate|]. intros H.
      rewrite (H f (or_introl eq_refl)) in E. discriminate.
    + rewrite IH. split.
      * intros H fmt [<-|Hin]; auto.
      * intros H fmt Hin. apply H. now right.
Qed.

(** [parse_event_time] returns what the loop found; it prints its two
    lines exactly when every format failed. *)
Lemma parse_event_time_run {Sv : Type} (s : string) (w : world Sv) :
  parse_event_time s w =
    match try_formats s formats with
    | Some dt => (Returned (Some dt), w)
    | None =>
        (Returned None,
         printed w ["Error: Unable to parse time data '" ++ s ++ "'";
                    "Expected formats are: " ++ join ", " formats])
    end.
Proof.
  unfold parse_event_time. destruct (try_formats s formats); [reflexivity|].
  cbv [bind print ret printed]. cbn [remote stdout calls].
  now rewrite <- app_assoc.
Qed.

(** ** The two splits of the subject line *)

Lemma marker_nonempty : marker <> "".
Proof. discriminate. Qed.

Lemma separator_nonempty : separator <> "".
Proof. discriminate. Qed.

Lemma split_marker_leading (rem : string) :
  contains marker rem = false -> split marker (marker ++ rem) = [""; rem].
Proof.
  intros H. rewrite split_leading by apply marker_nonempty.
  now rewrite (split_absent _ _ H).
Qed.

Lemma split_separator_template (name time : string) :
  contains separator (name ++ " on") = false ->
  contains separator time = false ->
  split separator (name ++ separator ++ time) = [name; time].
Proof.
  intros Hname Htime.
  rewrite split_partition by apply separator_nonempty.
  rewrite (partition_first separator " on" " "%char name time eq_refl Hname).
  now rewrite (split_absent _ _ Htime).
Qed.

(** The run of [extract_from_subject] on a subject whose two splits are
    known. *)
Lemma extract_from_subject_run {Sv : Type} (subject name time : string)
    (portion : string) (before : string) (more : list string) (w : world Sv) :
  split marker subject = before :: portion :: more ->
  split separator portion = [name; time] ->
  extract_from_subject subject w =
    match try_formats (strip time) formats with
    | Some dt =>
        (Returned (Some (mkevent_details (strip name) (isoformat dt))),
         printed w ["Subject Line:"; subject;
                    "Extracted Event Name: " ++ strip name;
                    "Extracted Event Time: " ++ strip time])
    | None =>
        (Returned None,
         printed w ["Subject Line:"; subject;
                    "Extracted Event Name: " ++ strip name;
                    "Extracted Event Time: " ++ strip time;
                    "Error: Unable to parse time data '" ++ strip time ++ "'";
                    "Expected formats are: " ++ join ", " formats])
    end.
Proof.
  intros Hm Hs. unfold extract_from_subject. rewrite Hm.
  cbn [List.length Nat.ltb Nat.leb nth]. rewrite Hs.
  cbn [List.length Nat.eqb negb nth].
  unfold bind at 1. rewrite print_run. unfold bind at 1. rewrite print_run.
  unfold bind at 1. rewrite print_run. unfold bind at 1. rewrite print_run.
  unfold bind at 1. rewrite parse_event_time_run.
  destruct (try_formats (strip time) formats); unfold ret;
    now rewrite !printed_printed.
Qed.

(** [extract_event_details] on a message with a non-empty subject. *)
Lemma extract_event_details_run {Sv : Type} (msg : RawMessage) (subject : string)
    (w : world Sv) :
  find_subject msg = Some subject -> subject <> "" ->
  extract_event_details msg w =
    try_except (extract_from_subject subject) is_Exception
      (fun e =>
         bind (print ("Error while extracting event details: " ++ str_of_exn e))
              (fun _ => ret None)) w.
Proof.
  intros H Hne. unfold extract_event_details. rewrite H.
  destruct subject; [congruence | reflexivity].
Qed.

(** The run on a subject without the marker. *)
Lemma extract_from_subject_no_marker {Sv : Type} (subject : string) (w : world Sv) :
  contains marker subject = false ->
  extract_from_subject subject w =
    (Returned None,
     printed w ["Subject Line:"; subject;
                "Error: The subject line does not contain the expected 'Registration Confirmation: ' format."]).
Proof.
  intros H. unfold extract_from_subject. rewrite (split_absent _ _ H).
  cbn [List.length Nat.ltb Nat.leb].
  cbv [bind print ret printed]. cbn [remote stdout calls].
  now rewrite <- !app_assoc.
Qed.

(** The run on a subject whose piece after the marker does not split in
    two. *)
Lemma extract_from_subject_no_separator {Sv : Type} (subject portion before : string)
    (more : list string) (w : world Sv) :
  split marker subject = before :: portion :: more ->
  count separator portion <> 1%nat ->
  extract_from_subject subject w =
    (Returned None,
     printed w ["Subject Line:"; subject;
                "Error: Subject line does not contain expected 'on' separator."]).
Proof.
  intros Hm Hc. unfold extract_from_subject. rewrite Hm.
  cbn [List.length Nat.ltb Nat.leb nth].
  rewrite length_split.
  destruct (Nat.eqb_spec (S (count separator portion)) 2) as [E|E]; [lia|].
  cbn [negb]. cbv [bind print ret printed]. cbn [remote stdout calls].
  now rewrite <- !app_assoc.
Qed.

(** A string in which the marker occurs splits into at least two
    pieces. *)
Lemma split_marker_present (subject : string) :
  contains marker subject = true ->
  exists before after,
    partition marker subject = Some (before, after)
    /\ split marker subject = before :: split marker after.
Proof.
  intros H. destruct (partition marker subject) as [[b a]|] eqn:E.
  - exists b, a. split; [reflexivity|].
    rewrite split_partition by apply marker_nonempty. now rewrite E.
  - apply partition_none in E. congruence.
Qed.

Lemma hd_split (sep text : string) :
  sep <> "" ->
  hd "" (split sep text)
  = match partition sep text with Some (b, _) => b | None => text end.
Proof.
  intros H. rewrite split_partition by assumption.
  destruct (partition sep text) as [[b a]|]; reflexivity.
Qed.

(** The value [extract_from_subject] returns depends on the subject only
    through the second piece of its split at the marker. *)
Lemma extract_from_subject_value {Sv : Type} (s1 s2 : string) (w1 w2 : world Sv) :
  (1 <? List.length (split marker s1))%nat = (1 <? List.length (split marker s2))%nat ->
  nth 1 (split marker s1) "" = nth 1 (split marker s2) "" ->
  fst (extract_from_subject s1 w1) = fst (extract_from_subject s2 w2).
Proof.
  intros Hl Hn. unfold extract_from_subject. rewrite Hl, Hn.
  destruct (1 <? List.length (split marker s2))%nat; [|reflexivity].
  destruct (negb (List.length (split separator (nth 1 (split marker s2) "")) =? 2)%nat);
    [reflexivity|].
  cbv [bind print]. rewrite !parse_event_time_run.
  destruct (try_formats _ formats); reflexivity.
Qed.

End ExtractFacts.

(* ================================================================== *)
(** * [create_calendar_event], the loop and [main] *)
(* ================================================================== *)

Module SchedulerFacts.

Import Datetime Script Spec DatetimeFacts ExtractFacts.

Section WithServices.

Context {Sv : Type} (svc : services Sv).

Lemma request_run {A : Type} (c : call) (f : Sv -> outcome A * Sv) (w : world Sv) :
  request c f w = (fst (f (remote w)),
                   called w (snd (f (remote w))) c (reply_of (fst (f (remote w))))).
Proof. unfold request, called. now destruct (f (remote w)). Qed.

(** ** The extraction prints and does nothing else *)

Lemma extract_from_subject_pure (subject : string) (w : world Sv) :
  exists r lines, extract_from_subject subject w = (Returned r, printed w lines).
Proof.
  unfold extract_from_subject.
  destruct (1 <? _)%nat.
  - destruct (negb _).
    + eexists _, [_; _; _]. cbv [bind print ret printed]. cbn [remote stdout calls].
      now rewrite <- !app_assoc.
    + cbv [bind print]. rewrite parse_event_time_run.
      destruct (try_formats _ formats).
      * eexists _, [_; _; _; _]. cbv [ret printed]. cbn [remote stdout calls].
        now rewrite <- !app_assoc.
      * eexists _, [_; _; _; _; _; _]. cbv [ret printed]. cbn [remote stdout calls].
        now rewrite <- !app_assoc.
  - eexists _, [_; _; _]. cbv [bind print ret printed]. cbn [remote stdout calls].
    now rewrite <- !app_assoc.
Qed.

Lemma extract_event_details_pure (msg : RawMessage) (w : world Sv) :
  exists r lines, extract_event_details msg w = (Returned r, printed w lines).
Proof.
  unfold extract_event_details.
  assert (E : exists r lines,
             (bind (print "Error: Unable to find subject line in the email.")
                   (fun _ => ret (@None event_details))) w
             = (Returned r, printed w lines)).
  { exists (@None event_details), ["Error: Unable to find subject line in the email."].
    reflexivity. }
  destruct (find_subject msg) as [[|c s]|]; try exact E.
  unfold try_except.
  destruct (extract_from_subject_pure (String c s) w) as (r & lines & ->).
  now exists r, lines.
Qed.

(** ** [create_calendar_event], case by case *)

Lemma astimezone_chicago_run (naive : datetime) (w : world Sv) :
  astimezone_chicago svc naive w =
    match localize svc naive with
    | Some a => (Returned a, w)
    | None => (Raised (OtherException "date value out of range"), w)
    end.
Proof.
  unfold astimezone_chicago, localize, overflow, bind, ret, raise.
  destruct (local_utcoffset svc naive); [|reflexivity].
  destruct (add_seconds naive (- z)); [|reflexivity].
  destruct (add_seconds d (chicago_utcoffset svc d)); reflexivity.
Qed.

Lemma create_calendar_event_run (details : event_details) (email1 email2 : string)
    (w : world Sv) :
  create_calendar_event svc details email1 email2 w =
  match fromisoformat (event_time details) with
  | None =>
      (Raised (OtherException
                 ("Invalid isoformat string: '" ++ event_time details ++ "'")), w)
  | Some naive =>
      match window svc naive with
      | None => (Raised (OtherException "date value out of range"), w)
      | Some win =>
          let query := duplicate_query (event_name details)
                         (aware_isoformat (fst win)) (aware_isoformat (snd win)) in
          match events_list svc query (remote w) with
          | (Raised e, s1) => (Raised e, called w s1 (EventsList query) (Failed e))
          | (Returned (_ :: _), s1) =>
              (Returned None,
               printed (called w s1 (EventsList query) Answered)
                 [already_exists (event_name details)])
          | (Returned [], s1) =>
              let body := event_for (event_name details) win email1 email2 in
              let w1 := called w s1 (EventsList query) Answered in
              match events_insert svc "primary" body s1 with
              | (Returned event, s2) =>
                  (Returned (Some event),
                   printed (called w1 s2 (EventsInsert "primary" body) Answered)
                     [event_created event])
              | (Raised e, s2) =>
                  if is_HttpError e then
                    (Returned None,
                     printed (called w1 s2 (EventsInsert "primary" body) (Failed e))
                       ["An error occurred while creating the event: "
                        ++ str_of_exn e])
                  else (Raised e, called w1 s2 (EventsInsert "primary" body) (Failed e))
              end
          end
      end
  end.
Proof.
  unfold create_calendar_event, window.
  destruct (fromisoformat (event_time details)) as [naive|]; [|reflexivity].
  unfold bind at 1. unfold ret at 1. unfold bind at 1.
  rewrite astimezone_chicago_run.
  destruct (localize svc naive) as [st|]; [|reflexivity].
  unfold bind at 1. unfold overflow.
  destruct (aware_add_seconds st 3600) as [en|]; [|reflexivity].
  unfold ret at 1. unfold bind at 1. unfold check_existing_event.
  rewrite request_run. cbn [fst snd].
  fold (duplicate_query (event_name details) (aware_isoformat st) (aware_isoformat en)).
  destruct (events_list svc _ (remote w)) as [[[|ev evs]|e] s1]; cbn [fst snd reply_of].
  - unfold try_except, bind at 1. rewrite request_run.
    unfold event_for. cbn [fst snd remote called].
    destruct (events_insert svc "primary" _ s1) as [[event|e] s2];
      cbn [fst snd reply_of].
    + reflexivity.
    + destruct (is_HttpError e); reflexivity.
  - reflexivity.
  - reflexivity.
Qed.


(** ** One message *)

Lemma process_message_run (email1 email2 : string) (message : message_ref)
    (n : Z) (w : world Sv) :
  process_message svc email1 email2 message n w =
  match messages_get svc (id message) (remote w) with
  | (Raised e, s1) =>
      let w1 := called w s1 (MessagesGet (id message)) (Failed e) in
      if is_HttpError e then (Returned n, printed w1 [processing_failed e])
      else (Raised e, w1)
  | (Returned msg, s1) =>
      let w1 := called w s1 (MessagesGet (id message)) Answered in
      match extract_event_details msg w1 with
      | (Returned None, w2) => (Returned n, w2)
      | (Returned (Some details), w2) =>
          match create_calendar_event svc details email1 email2 w2 with
          | (Returned (Some _), w3) => (Returned (n + 1)%Z, w3)
          | (Returned None, w3) => (Returned n, w3)
          | (Raised e, w3) =>
              if is_HttpError e then (Returned n, printed w3 [processing_failed e])
              else (Raised e, w3)
          end
      | (Raised e, w2) =>
          if is_HttpError e then (Returned n, printed w2 [processing_failed e])
          else (Raised e, w2)
      end
  end.
Proof.
  unfold process_message, try_except. unfold bind at 1. rewrite request_run.
  destruct (messages_get svc (id message) (remote w)) as [[msg|e] s1];
    cbn [fst snd reply_of].
  - unfold bind at 1.
    destruct (extract_event_details msg _) as [[[details|]|e] w2]; try reflexivity.
    unfold bind at 1.
    destruct (create_calendar_event svc details email1 email2 w2)
      as [[[event|]|e] w3]; reflexivity.
  - destruct (is_HttpError e); reflexivity.
Qed.

(** ** What a run adds to the record of calls *)

Lemma inserted_app (l1 l2 : list (call * reply)) :
  inserted (l1 ++ l2) = (inserted l1 + inserted l2)%Z.
Proof.
  induction l1 as [|[c r] l1 IH]; [reflexivity|].
  cbn [app inserted]. destruct c; try exact IH. destruct r; [lia | exact IH].
Qed.

Lemma fetched_app (l1 l2 : list (call * reply)) :
  fetched (l1 ++ l2) = (fetched l1 ++ fetched l2)%list.
Proof.
  induction l1 as [|[c r] l1 IH]; [reflexivity|].
  cbn [app fetched]. destruct c; try exact IH. cbn [app]. now rewrite IH.
Qed.

Lemma insert_calls_app (l1 l2 : list (call * reply)) :
  insert_calls (l1 ++ l2) = (insert_calls l1 ++ insert_calls l2)%list.
Proof.
  induction l1 as [|[c r] l1 IH]; [reflexivity|].
  cbn [app insert_calls]. destruct c; try exact IH. cbn [app]. now rewrite IH.
Qed.

(** [create_calendar_event] fetches no message; it answers with an event
    exactly when the calendar service answered an insert. *)
Lemma create_calendar_event_effect (details : event_details)
    (email1 email2 : string) (w : world Sv) :
  exists new,
    calls (snd (create_calendar_event svc details email1 email2 w))
    = (calls w ++ new)%list
    /\ fetched new = []
    /\ inserted new
       = match fst (create_calendar_event svc details email1 email2 w) with
         | Returned (Some _) => 1%Z
         | _ => 0%Z
         end.
Proof.
  rewrite create_calendar_event_run.
  destruct (fromisoformat (event_time details)) as [naive|];
    [|exists []; cbn; now rewrite app_nil_r].
  destruct (window svc naive) as [win|];
    [|exists []; cbn; now rewrite app_nil_r].
  cbv zeta.
  destruct (events_list svc _ (remote w)) as [[[|ev evs]|e] s1].
  - destruct (events_insert svc "primary" _ s1) as [[event|e] s2].
    + eexists [_; _]. cbn [snd fst calls printed called].
      rewrite <- app_assoc. repeat split.
    + destruct (is_HttpError e); eexists [_; _]; cbn [snd fst calls printed called];
        rewrite <- app_assoc; repeat split.
  - eexists [_]. repeat split.
  - eexists [_]. repeat split.
Qed.

(** One message: exactly that message is fetched; the count goes up by the
    inserts the calendar service answered; an [HttpError] never leaves. *)
Lemma process_message_effect (email1 email2 : string) (message : message_ref)
    (n : Z) (w : world Sv) :
  exists new,
    calls (snd (process_message svc email1 email2 message n w))
    = (calls w ++ new)%list
    /\ fetched new = [id message]
    /\ match fst (process_message svc email1 email2 message n w) with
       | Returned n' => n' = (n + inserted new)%Z
       | Raised e => is_HttpError e = false
       end.
Proof.
  rewrite process_message_run.
  destruct (messages_get svc (id message) (remote w)) as [[msg|e] s1].
  - cbv zeta.
    destruct (extract_event_details_pure msg
                (called w s1 (MessagesGet (id message)) Answered))
      as (r & lines & ->).
    destruct r as [details|].
    + destruct (create_calendar_event_effect details email1 email2
                  (printed (called w s1 (MessagesGet (id message)) Answered) lines))
        as (new & Hc & Hf & Hi).
      exists ((MessagesGet (id message), Answered) :: new).
      destruct (create_calendar_event svc details email1 email2 _)
        as [[[event|]|e] w3]; cbn [fst snd] in *.
      * rewrite Hc. cbn [calls printed called]. rewrite <- app_assoc.
        cbn [app fetched inserted]. rewrite Hf, Hi. repeat split.
      * rewrite Hc. cbn [calls printed called]. rewrite <- app_assoc.
        cbn [app fetched inserted]. rewrite Hf, Hi. repeat split. lia.
      * destruct (is_HttpError e) eqn:He; cbn [fst snd calls printed];
          rewrite Hc; cbn [calls printed called]; rewrite <- app_assoc;
          cbn [app fetched inserted]; rewrite ?Hf, ?Hi; repeat split; auto; lia.
    + exists [(MessagesGet (id message), Answered)]. repeat split.
      cbn [fst inserted]. lia.
  - cbv zeta. exists [(MessagesGet (id message), Failed e)].
    destruct (is_HttpError e) eqn:He; repeat split; auto.
    cbn [fst inserted]. lia.
Qed.


(** A message whose event the calendar already holds. *)
Lemma process_message_duplicate (email1 email2 : string) (message : message_ref)
    (n : Z) (w : world Sv) (msg : RawMessage) (s1 : Sv)
    (details : event_details) (naive : datetime) (win : aware * aware)
    (items : list calendar_event) (s2 : Sv) :
  messages_get svc (id message) (remote w) = (Returned msg, s1) ->
  fst (extract_event_details msg (called w s1 (MessagesGet (id message)) Answered))
  = Returned (Some details) ->
  fromisoformat (event_time details) = Some naive ->
  window svc naive = Some win ->
  events_list svc
    (duplicate_query (event_name details) (aware_isoformat (fst win))
       (aware_isoformat (snd win))) s1
  = (Returned items, s2) ->
  truthy items = true ->
  fst (process_message svc email1 email2 message n w) = Returned n
  /\ insert_calls (calls (snd (process_message svc email1 email2 message n w)))
     = insert_calls (calls w).
Proof.
  intros Hget Hextract Hiso Hwin Hlist Ht.
  rewrite process_message_run, Hget. cbv zeta.
  destruct (extract_event_details_pure msg
              (called w s1 (MessagesGet (id message)) Answered))
    as (r & lines & E).
  rewrite E in Hextract |- *. cbn [fst] in Hextract.
  injection Hextract as ->.
  rewrite create_calendar_event_run, Hiso, Hwin. cbv zeta.
  cbn [remote printed called]. rewrite Hlist.
  destruct items as [|ev evs]; [discriminate|].
  cbn [fst snd calls printed called].
  split; [reflexivity|].
  rewrite !insert_calls_app. cbn [insert_calls]. now rewrite !app_nil_r.
Qed.

(** ** [get_confirmation_emails] and [main] *)

Lemma get_confirmation_emails_run (query : string) (max_messages : Z)
    (w : world Sv) :
  get_confirmation_emails svc query max_messages w =
  let c := MessagesList query max_messages in
  match messages_list svc query max_messages (remote w) with
  | (Returned [], s1) =>
      (Returned [], printed (called w s1 c Answered) (no_messages_matching query))
  | (Returned messages, s1) =>
      (Returned messages,
       printed (called w s1 c Answered)
         ["Found " ++ PyStr.str_of_Z (Z.of_nat (List.length messages))
          ++ " messages."])
  | (Raised e, s1) =>
      if is_HttpError e then
        (Returned [],
         printed (called w s1 c (Failed e))
           ["An error occurred while fetching emails: " ++ str_of_exn e])
      else (Raised e, called w s1 c (Failed e))
  end.
Proof.
  unfold get_confirmation_emails, try_except. unfold bind at 1.
  rewrite request_run.
  destruct (messages_list svc query max_messages (remote w)) as [[[|m ms]|e] s1];
    cbn [fst snd reply_of].
  - cbv [bind print ret printed no_messages_matching].
    cbn [remote stdout calls called]. now rewrite <- app_assoc.
  - reflexivity.
  - destruct (is_HttpError e); reflexivity.
Qed.

Lemma main_run (email1 email2 query : string) (max_messages : Z) (w : world Sv) :
  main svc email1 email2 query max_messages w =
  match authenticate svc (remote w) with
  | (Raised e, s0) => outer_handler e (called w s0 Authenticate (Failed e))
  | (Returned _, s0) =>
      match get_confirmation_emails svc query max_messages
              (called w s0 Authenticate Answered) with
      | (Raised e, w1) => outer_handler e w1
      | (Returned [], w1) =>
          (Returned tt, printed w1 ["No messages found. Exiting program."])
      | (Returned messages, w1) =>
          match for_messages svc email1 email2 messages 0 w1 with
          | (Raised e, w2) => outer_handler e w2
          | (Returned n, w2) => (Returned tt, printed w2 [completed n])
          end
      end
  end.
Proof.
  unfold main, try_except, outer_handler. unfold bind at 1. rewrite request_run.
  destruct (authenticate svc (remote w)) as [[u|e] s0]; cbn [fst snd reply_of].
  - unfold bind at 1.
    destruct (get_confirmation_emails svc query max_messages _)
      as [[[|m ms]|e] w1].
    + reflexivity.
    + unfold bind at 1.
      destruct (for_messages svc email1 email2 (m :: ms) 0 w1) as [[n|e] w2].
      * reflexivity.
      * destruct (is_Exception e); reflexivity.
    + destruct (is_Exception e); reflexivity.
  - destruct (is_Exception e); reflexivity.
Qed.

End WithServices.

End SchedulerFacts.

(* ================================================================== *)
(** * The authentication, stage by stage *)
(* ================================================================== *)

Module AuthFacts.

Import Auth.

Section WithEnvironment.

Context {E F V : Type} (env : environment E F V).

Lemma print_said (line : string) (w : world E F V) :
  print line w = (Ok tt, said w [line]).
Proof. reflexivity. Qed.

Lemma said_said (w : world E F V) (l1 l2 : list string) :
  said (said w l1) l2 = said w (l1 ++ l2).
Proof. unfold said; cbn. now rewrite app_assoc. Qed.

Lemma call_run {X : Type} (f : E -> result X * E) (ev : result X -> event F V)
    (w : world E F V) :
  call f ev w = (fst (f (external w)),
                 logged w (snd (f (external w))) (ev (fst (f (external w))))).
Proof. unfold call, logged. now destruct (f (external w)). Qed.

Lemma exists_run (path : string) (w : world E F V) :
  exists_ env path w
  = (Ok (fst (path_exists env path (external w))),
     logged w (snd (path_exists env path (external w)))
       (PathExists path (fst (path_exists env path (external w))))).
Proof. unfold exists_, logged. now destruct (path_exists env path (external w)). Qed.

Lemma handle_refresh_error_run (token_path : string) (w : world E F V) :
  handle_refresh_error env token_path w =
  match path_exists env token_path (external w) with
  | (true, e1) =>
      let w1 := logged w e1 (PathExists token_path true) in
      match remove env token_path e1 with
      | (Ok u, e2) =>
          (Ok tt,
           said (logged w1 e2 (Remove token_path (Ok u)))
             ["Deleted the expired or invalid token file: " ++ token_path])
      | (Exc e, e2) => (Exc e, logged w1 e2 (Remove token_path (Exc e)))
      end
  | (false, e1) =>
      (Ok tt,
       said (logged w e1 (PathExists token_path false))
         ["Token file " ++ token_path ++ " does not exist."])
  end.
Proof.
  unfold handle_refresh_error. unfold bind at 1. rewrite exists_run.
  destruct (path_exists env token_path (external w)) as [[|] e1]; cbn [fst snd];
    [|reflexivity].
  unfold bind. rewrite call_run. cbn [external logged].
  destruct (remove env token_path e1) as [[u|e] e2]; reflexivity.
Qed.

Lemma refresh_credentials_run (token_path : string) (creds : credentials)
    (w : world E F V) :
  refresh_credentials env token_path creds w =
  match refresh env creds (external w) with
  | (Ok refreshed, e1) =>
      (Ok (Some refreshed), logged w e1 (Refresh creds (Ok refreshed)))
  | (Exc e, e1) =>
      let w1 := logged w e1 (Refresh creds (Exc e)) in
      if is_Exception e then
        match handle_refresh_error env token_path
                (said w1 ["Error refreshing token: " ++ str_of_error e]) with
        | (Ok _, w2) => (Ok None, w2)
        | (Exc e', w2) => (Exc e', w2)
        end
      else (Exc e, w1)
  end.
Proof.
  unfold refresh_credentials, try_except. unfold bind at 1. rewrite call_run.
  destruct (refresh env creds (external w)) as [[c|e] e1]; cbn [fst snd];
    [reflexivity|].
  destruct (is_Exception e); [|reflexivity].
  unfold bind at 1. rewrite print_said. unfold bind at 1.
  destruct (handle_refresh_error env token_path _) as [[u|e'] w2]; reflexivity.
Qed.

Lemma new_flow_run (token_path : string) (w : world E F V) :
  new_flow env token_path w =
  let w0 :=
    said w ["No valid credentials found. Starting new authentication flow.";
            "A browser window should open automatically. If it doesn't, please check your console for a URL to visit."] in
  let leave (e : error) (w' : world E F V) :=
    if is_FileNotFoundError e
    then (Exc (Error (Script.SystemExit 1)), said w' [credentials_not_found])
    else (Exc e, w') in
  match from_client_secrets_file env "credentials.json" SCOPES (external w) with
  | (Exc e, e1) =>
      leave e (logged w0 e1 (FromClientSecretsFile "credentials.json" SCOPES (Exc e)))
  | (Ok flow, e1) =>
      let w1 := logged w0 e1 (FromClientSecretsFile "credentials.json" SCOPES (Ok flow)) in
      match run_local_server env flow 0 e1 with
      | (Exc e, e2) => leave e (logged w1 e2 (RunLocalServer flow 0 (Exc e)))
      | (Ok creds, e2) =>
          let w2 := logged w1 e2 (RunLocalServer flow 0 (Ok creds)) in
          match write env token_path (to_json creds) e2 with
          | (Exc e, e3) =>
              leave e (logged w2 e3 (WriteFile token_path (to_json creds) (Exc e)))
          | (Ok u, e3) =>
              (Ok (Some creds),
               said (logged w2 e3 (WriteFile token_path (to_json creds) (Ok u)))
                 ["Authentication successful. Credentials saved for future use."])
          end
      end
  end.
Proof.
  unfold new_flow, try_except. unfold bind at 1. rewrite print_said.
  unfold bind at 1. rewrite print_said. unfold bind at 1. rewrite call_run.
  rewrite said_said. cbn [app external said].
  unfold credentials_not_found, sys_exit, raise.
  destruct (from_client_secrets_file env "credentials.json" SCOPES (external w))
    as [[flow|e] e1]; cbn [fst snd].
  2:{ destruct (is_FileNotFoundError e); reflexivity. }
  unfold bind at 1. rewrite call_run. cbn [external logged].
  destruct (run_local_server env flow 0 e1) as [[creds|e] e2]; cbn [fst snd].
  2:{ destruct (is_FileNotFoundError e); reflexivity. }
  unfold bind at 1. rewrite call_run. cbn [external logged].
  destruct (write env token_path (to_json creds) e2) as [[u|e] e3]; cbn [fst snd].
  2:{ destruct (is_FileNotFoundError e); reflexivity. }
  reflexivity.
Qed.

Lemma build_services_run (creds : option credentials) (w : world E F V) :
  build_services env creds w =
  let leave (e : error) (w' : world E F V) :=
    if is_HttpError e
    then (Exc (Error (Script.SystemExit 1)), said w' [building_failed e])
    else (Exc e, w') in
  match build env "gmail" "v1" creds (external w) with
  | (Exc e, e1) => leave e (logged w e1 (Build "gmail" "v1" creds (Exc e)))
  | (Ok gmail_service, e1) =>
      let w1 := logged w e1 (Build "gmail" "v1" creds (Ok gmail_service)) in
      match build env "calendar" "v3" creds e1 with
      | (Exc e, e2) => leave e (logged w1 e2 (Build "calendar" "v3" creds (Exc e)))
      | (Ok calendar_service, e2) =>
          (Ok (gmail_service, calendar_service),
           logged w1 e2 (Build "calendar" "v3" creds (Ok calendar_service)))
      end
  end.
Proof.
  unfold build_services, try_except. unfold bind at 1. rewrite call_run.
  destruct (build env "gmail" "v1" creds (external w)) as [[g|e] e1];
    cbn [fst snd].
  2:{ destruct (is_HttpError e); reflexivity. }
  unfold bind at 1. rewrite call_run. cbn [external logged].
  destruct (build env "calendar" "v3" creds e1) as [[c|e] e2]; cbn [fst snd].
  - reflexivity.
  - destruct (is_HttpError e); reflexivity.
Qed.

(** The whole of [authenticate_gmail_and_calendar], stage by stage. *)
Lemma authenticate_run (w : world E F V) :
  authenticate_gmail_and_calendar env w =
  let then_build (r : result (option credentials) * world E F V) :=
    match r with
    | (Ok creds, w') => build_services env creds w'
    | (Exc e, w') => (Exc e, w')
    end in
  match path_exists env "token.json" (external w) with
  | (false, e1) =>
      then_build (new_flow env "token.json" (logged w e1 (PathExists "token.json" false)))
  | (true, e1) =>
      let w1 := logged w e1 (PathExists "token.json" true) in
      match from_authorized_user_file env "token.json" SCOPES e1 with
      | (Exc e, e2) =>
          (Exc e, logged w1 e2 (FromAuthorizedUserFile "token.json" SCOPES (Exc e)))
      | (Ok creds, e2) =>
          let w2 := logged w1 e2 (FromAuthorizedUserFile "token.json" SCOPES (Ok creds)) in
          if valid creds then
            build_services env (Some creds)
              (said w2 ["Existing credentials are valid."])
          else if expired creds && truthy (refresh_token creds) then
            match refresh_credentials env "token.json" creds w2 with
            | (Ok None, w3) => then_build (new_flow env "token.json" w3)
            | (Ok (Some refreshed), w3) => build_services env (Some refreshed) w3
            | (Exc e, w3) => (Exc e, w3)
            end
          else build_services env (Some creds) w2
      end
  end.
Proof.
  unfold authenticate_gmail_and_calendar. cbv zeta.
  unfold bind at 1. rewrite exists_run.
  destruct (path_exists env "token.json" (external w)) as [[|] e1]; cbn [fst snd].
  - unfold bind at 1. unfold bind at 1. rewrite call_run. cbn [external logged].
    destruct (from_authorized_user_file env "token.json" SCOPES e1)
      as [[creds|e] e2]; cbn [fst snd]; [|reflexivity].
    unfold ret at 1. unfold bind at 1. cbn [absent orb].
    destruct (valid creds); cbn [negb].
    + reflexivity.
    + unfold bind at 1.
      destruct (expired creds && truthy (refresh_token creds)).
      * destruct (refresh_credentials env "token.json" creds _) as [[[c|]|e] w3];
          reflexivity.
      * reflexivity.
  - unfold bind at 1. unfold ret at 1. unfold bind at 1. cbn [absent orb].
    unfold bind at 1. unfold ret at 1. cbn [absent].
    destruct (new_flow env "token.json" _) as [[c|e] w4]; reflexivity.
Qed.

End WithEnvironment.

Lemma is_Exception_to_exn (e : error) :
  Script.is_Exception (to_exn e) = is_Exception e.
Proof. now destruct e. Qed.

(** Every path through the authentication, one goal for each: the
    answers of the environment are taken in the order in which the run
    asks for them. *)
Ltac scrutinee t :=
  lazymatch t with
  | match ?x with _ => _ end => scrutinee x
  | _ => t
  end.

Ltac advance t :=
  let x := scrutinee t in
  lazymatch x with
  | (_, _) => fail
  | refresh_credentials _ _ _ _ => rewrite refresh_credentials_run
  | handle_refresh_error _ _ _ => rewrite handle_refresh_error_run
  | new_flow _ _ _ => rewrite new_flow_run
  | build_services _ _ _ => rewrite build_services_run
  | _ => destruct x eqn:?
  end.

Ltac each_path :=
  rewrite authenticate_run; cbv zeta;
  repeat (match goal with
          | |- context [@snd (result _) (world _ _ _) ?t] => advance t
          | |- context [@fst (result _) (world _ _ _) ?t] => advance t
          end;
          cbv beta iota zeta; cbn [external logged said]).

(** The events a path has added. *)
Ltac added :=
  cbn [fst snd events logged said external stdout];
  rewrite <- ?app_assoc; cbn [app].

(** An event that is in a list of events. *)
Ltac here := cbn [In]; solve [repeat first [left; reflexivity | right]].

Ltac in_cases :=
  repeat match goal with
  | H : In _ (_ :: _) |- _ => cbn [In] in H
  | H : In _ [] |- _ => destruct H
  | H : _ \/ _ |- _ => destruct H
  | H : False |- _ => destruct H
  | H : @eq (event _ _) _ _ |- _ => first [discriminate H | inversion H; clear H; subst]
  end.

End AuthFacts.


(* ================================================================== *)
(** * Whole runs, call by call *)
(* ================================================================== *)

Module RunFacts.

Import Datetime Script Spec Runs DatetimeFacts ExtractFacts SchedulerFacts.




Section WithServices.

Context {Sv : Type} (svc : services Sv).


(** The calls made for one message: the message is fetched, at most one
    insert is made, and the count goes up by the inserts that were
    answered. *)
Lemma process_message_calls (email1 email2 : string) (message : message_ref)
    (n : Z) (w : world Sv) :
  exists new,
    calls (snd (process_message svc email1 email2 message n w))
    = (calls w ++ new)%list
    /\ fetched new = [id message]
    /\ (List.length (insert_calls new) <= 1)%nat
    /\ (0 <= inserted new <= Z.of_nat (List.length (insert_calls new)))%Z
    /\ match fst (process_message svc email1 email2 message n w) with
       | Returned n' => n' = (n + inserted new)%Z
       | Raised e => is_HttpError e = false
       end.
Proof.
  rewrite process_message_run.
  destruct (messages_get svc (id message) (remote w)) as [[msg|e] s1].
  2:{ exists [(MessagesGet (id message), Failed e)]. cbv zeta.
      destruct (is_HttpError e) eqn:He; cbn; repeat split; auto; lia. }
  cbv zeta.
  destruct (extract_event_details_pure msg
              (called w s1 (MessagesGet (id message)) Answered))
    as (r & lines & ->).
  destruct r as [details|].
  2:{ exists [(MessagesGet (id message), Answered)]. cbn.
      repeat split; auto; lia. }
  rewrite create_calendar_event_run.
  destruct (fromisoformat (event_time details)) as [naive|].
  2:{ exists [(MessagesGet (id message), Answered)]. cbn.
      repeat split; auto; lia. }
  destruct (window svc naive) as [win|].
  2:{ exists [(MessagesGet (id message), Answered)]. cbn.
      repeat split; auto; lia. }
  cbv zeta. cbn [remote printed called].
  destruct (events_list svc _ s1) as [[[|ev evs]|e] s2].
  - destruct (events_insert svc "primary" _ s2) as [[event|e] s3].
    + eexists [_; _; _]. split.
      { cbn [snd calls printed called]. now rewrite <- ?app_assoc. }
      cbn. repeat split; auto; lia.
    + eexists [_; _; _]. split.
      { destruct (is_HttpError e) eqn:He; cbv beta iota; rewrite ?He;
          cbn [snd calls printed called]; now rewrite <- ?app_assoc. }
      destruct (is_HttpError e) eqn:He; cbv beta iota; rewrite ?He; cbn;
        repeat split; auto; lia.
  - eexists [_; _]. split.
    { cbn [snd calls printed called]. now rewrite <- ?app_assoc. }
    cbn. repeat split; auto; lia.
  - eexists [_; _]. split.
    { destruct (is_HttpError e); cbn [snd calls printed called];
        now rewrite <- ?app_assoc. }
    destruct (is_HttpError e) eqn:He; cbn; repeat split; auto; lia.
Qed.


End WithServices.

(** ** The seconds of a date, by its year *)

Lemma to_seconds_bounds (dt : datetime) (lo hi : Z) :
  valid dt = true -> (lo <= year dt <= hi)%Z ->
  ((days_before_year lo + 1) * 86400 <= to_seconds dt
   < (days_before_year (hi + 1) + 1) * 86400)%Z.
Proof.
  intros V Hy. pose proof (valid_fields dt V) as (D & Hh & Hm & Hs).
  pose proof (day_of_year_bound _ _ _ D) as B.
  pose proof (days_before_year_mono lo (year dt) ltac:(lia)) as L.
  pose proof (days_before_year_succ (year dt)) as S1.
  pose proof (days_before_year_mono (year dt + 1) (hi + 1) ltac:(lia)) as U.
  unfold to_seconds, toordinal, ymd2ord. lia.
Qed.

End RunFacts.

Module MemoryFacts.

Import Datetime Script Spec Memory DatetimeFacts ExtractFacts SchedulerFacts.

Lemma answered_inserts_app (l1 l2 : list (call * reply)) :
  answered_inserts (l1 ++ l2) = (answered_inserts l1 ++ answered_inserts l2)%list.
Proof.
  induction l1 as [|[c r] l1 IH]; [reflexivity|].
  cbn [app answered_inserts]. destruct c; try exact IH.
  destruct r; [cbn [app]; now rewrite IH | exact IH].
Qed.

Section WithServices.

Context {Sv : Type} (svc : services Sv) (holds : event_body -> Sv -> Prop).
Hypothesis calendar : remembers svc holds.

(** A part of a run that inserts nothing. *)
Lemma leaves_nothing {A : Type} (w : world Sv) (run : outcome A * world Sv)
    (new : list (call * reply)) :
  calls (snd run) = (calls w ++ new)%list ->
  answered_inserts new = [] ->
  (forall b, holds b (remote w) -> holds b (remote (snd run))) ->
  leaves holds w run.
Proof.
  intros Hc Ha Hk. exists new. rewrite Ha.
  split; [exact Hc|]. split; [exact Hk|]. split; [constructor|].
  intros body [].
Qed.

(** One part after another. *)
Lemma leaves_then {A B : Type} (w : world Sv) (run1 : outcome A * world Sv)
    (run2 : outcome B * world Sv) :
  leaves holds w run1 -> leaves holds (snd run1) run2 -> leaves holds w run2.
Proof.
  intros (new1 & Hc1 & Hk1 & Hn1 & Hi1) (new2 & Hc2 & Hk2 & Hn2 & Hi2).
  exists (new1 ++ new2)%list. rewrite Hc2, Hc1, app_assoc.
  split; [reflexivity|]. split; [auto|].
  rewrite answered_inserts_app, map_app. split.
  - apply NoDup_app; auto.
    intros k H1 H2. apply in_map_iff in H1 as (b1 & <- & H1).
    apply in_map_iff in H2 as (b2 & E & H2).
    destruct (Hi1 b1 H1) as [Hheld _].
    destruct (Hi2 b2 H2) as [_ Hnew]. exact (Hnew b1 Hheld (eq_sym E)).
  - intros body Hin. apply in_app_or in Hin as [Hin|Hin].
    + destruct (Hi1 body Hin) as [Hheld Hnew]. split; auto.
    + destruct (Hi2 body Hin) as [Hheld Hnew]. split; auto.
Qed.

Lemma process_message_leaves (email1 email2 : string) (message : message_ref)
    (n : Z) (w : world Sv) :
  leaves holds w (process_message svc email1 email2 message n w).
Proof.
  rewrite process_message_run.
  pose proof (fun b => kept_by_messages_get svc holds calendar b (id message)
                         (remote w)) as Kget.
  destruct (messages_get svc (id message) (remote w)) as [[msg|e] s1];
    cbn [snd] in Kget.
  2:{ apply (leaves_nothing _ _ [(MessagesGet (id message), Failed e)]);
        cbv zeta; destruct (is_HttpError e); auto. }
  cbv zeta.
  destruct (extract_event_details_pure msg
              (called w s1 (MessagesGet (id message)) Answered))
    as (r & lines & ->).
  destruct r as [details|].
  2:{ apply (leaves_nothing _ _ [(MessagesGet (id message), Answered)]); auto. }
  rewrite create_calendar_event_run.
  destruct (fromisoformat (event_time details)) as [naive|].
  2:{ apply (leaves_nothing _ _ [(MessagesGet (id message), Answered)]); auto. }
  destruct (window svc naive) as [win|].
  2:{ apply (leaves_nothing _ _ [(MessagesGet (id message), Answered)]); auto. }
  cbv zeta. cbn [remote printed called].
  set (query := duplicate_query (event_name details) (aware_isoformat (fst win))
                  (aware_isoformat (snd win))).
  pose proof (fun b => kept_by_events_list svc holds calendar b query s1) as Klist.
  pose proof (fun b items s' =>
                found_when_held svc holds calendar b s1 items s') as Hfind.
  destruct (events_list svc query s1) as [[[|ev evs]|e] s2] eqn:Hlist;
    cbn [snd] in Klist.
  - set (body := event_for (event_name details) win email1 email2).
    pose proof (fun b => kept_by_events_insert svc holds calendar b "primary"
                           body s2) as Kins.
    pose proof (held_once_inserted svc holds calendar "primary" body s2) as Hheld.
    destruct (events_insert svc "primary" body s2) as [[event|e] s3];
      cbn [snd] in Kins.
    + exists [(MessagesGet (id message), Answered); (EventsList query, Answered);
              (EventsInsert "primary" body, Answered)].
      cbn [snd calls remote printed called answered_inserts map].
      split; [now rewrite <- !app_assoc|]. split; [auto|].
      split; [repeat constructor; intros []|].
      intros body' [<-|[]]. split; [eapply Hheld; reflexivity|].
      intros b Hb E. unfold event_key in E. injection E as E1 E2 E3.
      apply (Hfind b [] s2 (Kget b Hb)); [|reflexivity].
      rewrite E1, E2, E3. exact Hlist.
    + apply (leaves_nothing _ _
               [(MessagesGet (id message), Answered); (EventsList query, Answered);
                (EventsInsert "primary" body, Failed e)]).
      * destruct (is_HttpError e) eqn:He; cbv beta iota; rewrite ?He;
          cbn [snd calls printed called]; now rewrite <- !app_assoc.
      * reflexivity.
      * destruct (is_HttpError e) eqn:He; cbv beta iota; rewrite ?He;
          cbn [snd remote printed called]; auto.
  - apply (leaves_nothing _ _
             [(MessagesGet (id message), Answered); (EventsList query, Answered)]).
    + cbn [snd calls printed called]. now rewrite <- !app_assoc.
    + reflexivity.
    + cbn [snd remote printed called]. auto.
  - apply (leaves_nothing _ _
             [(MessagesGet (id message), Answered); (EventsList query, Failed e)]).
    + destruct (is_HttpError e); cbn [snd calls printed called];
        now rewrite <- !app_assoc.
    + reflexivity.
    + destruct (is_HttpError e); cbn [snd remote printed called]; auto.
Qed.

Lemma for_messages_leaves (email1 email2 : string) (messages : list message_ref)
    (n : Z) (w : world Sv) :
  leaves holds w (for_messages svc email1 email2 messages n w).
Proof.
  revert n w. induction messages as [|m ms IH]; intros n w.
  - apply (leaves_nothing _ _ []); auto. cbn. now rewrite app_nil_r.
  - cbn [for_messages]. unfold bind.
    pose proof (process_message_leaves email1 email2 m n w) as H1.
    destruct (process_message svc email1 email2 m n w) as [[n1|e] w1].
    + eapply leaves_then; [exact H1 | apply IH].
    + exact H1.
Qed.

End WithServices.
(** The calendar held in memory remembers. *)
Lemma fake_remembers (local_off chicago_off : Z) :
  remembers (Fake.svc local_off chicago_off) in_calendar.
Proof.
  constructor; cbn [Fake.svc authenticate messages_list messages_get events_list
                    events_insert snd]; unfold in_calendar.
  - auto.
  - auto.
  - intros b i s H. now destruct (Fake.lookup i (Fake.mailbox s)).
  - auto.
  - intros b cal body s H. cbn [Fake.calendar].
    rewrite existsb_app, H. reflexivity.
  - intros cal body s event s' [= _ <-]. cbn [Fake.calendar].
    rewrite existsb_app. cbn [existsb]. unfold Fake.matches at 2.
    cbn [q timeMin duplicate_query]. rewrite !String.eqb_refl.
    cbn [andb orb]. apply orb_true_r.
  - intros b s items s' H [= <- _].
    apply existsb_exists in H as (b' & Hin & Hm).
    intros E. apply (f_equal (@List.length calendar_event)) in E.
    rewrite length_map in E. cbn [List.length] in E.
    apply length_zero_iff_nil in E.
    assert (Hf : In b' (filter
                          (Fake.matches
                             (duplicate_query (summary b) (dateTime (start b))
                                (dateTime (end_ b)))) (Fake.calendar s)))
      by (apply filter_In; auto).
    rewrite E in Hf. destruct Hf.
Qed.

End MemoryFacts.

(* ================================================================== *)
(** * The pieces of a subject line *)
(* ================================================================== *)

Module PieceFacts.

Import PyStr PyStrFacts.

(** ** Substrings *)

Lemma contains_app_r (p a b : string) :
  contains p b = true -> contains p (a ++ b) = true.
Proof.
  intros H. induction a as [|c a IH]; [exact H|].
  cbn [append contains]. rewrite IH. apply orb_true_r.
Qed.

Lemma contains_app_l (p a b : string) :
  contains p a = true -> contains p (a ++ b) = true.
Proof.
  induction a as [|c a IH]; intros H.
  - destruct p; [now destruct b | discriminate].
  - cbn [contains] in H. apply orb_true_iff in H as [H|H].
    + change (String c a ++ b) with (String c (a ++ b)).
      cbn [contains]. change (String c (a ++ b)) with (String c a ++ b).
      now rewrite (startswith_app_l _ _ _ H).
    + cbn [append contains]. rewrite (IH H). apply orb_true_r.
Qed.

(** What does not occur in a string does not occur in a part of it. *)
Lemma contains_inside (p a b c : string) :
  contains p (a ++ b ++ c) = false -> contains p b = false.
Proof.
  intros H. destruct (contains p b) eqn:E; [|reflexivity].
  rewrite (contains_app_r p a (b ++ c)) in H; [discriminate|].
  now apply contains_app_l.
Qed.

(** ** The pieces of a split *)

Lemma partition_after_shorter (sep s before after : string) :
  sep <> "" -> partition sep s = Some (before, after) ->
  (String.length after < String.length s)%nat.
Proof.
  intros Hsep H. apply partition_spec in H. subst s.
  rewrite !length_append. destruct sep; [congruence|]. simpl. lia.
Qed.

(** The separator occurs in no piece. *)
Lemma split_pieces (sep s piece : string) :
  sep <> "" -> In piece (split sep s) -> contains sep piece = false.
Proof.
  intros Hsep. remember (String.length s) as n eqn:Hn.
  revert s Hn. induction n as [n IH] using lt_wf_ind. intros s -> .
  rewrite split_partition by assumption.
  destruct (partition sep s) as [[before after]|] eqn:E.
  - intros [<-|Hin].
    + eapply partition_before_absent; eauto.
    + eapply (IH (String.length after)); eauto.
      eapply partition_after_shorter; eauto.
  - intros [<-|[]]. now apply partition_none.
Qed.

(** A split in two pieces gives the string back. *)
Lemma split_two (sep s a b : string) :
  sep <> "" -> split sep s = [a; b] -> s = a ++ sep ++ b.
Proof.
  intros Hsep. rewrite split_partition by assumption.
  destruct (partition sep s) as [[before after]|] eqn:E; [|discriminate].
  intros [= -> H]. rewrite split_partition in H by assumption.
  destruct (partition sep after) as [[b' a']|] eqn:E'.
  - pose proof (split_from_nonempty sep 0 a') as Hne.
    unfold split in H. destruct (split_from sep 0 a'); [congruence|discriminate].
  - injection H as ->. now apply partition_spec.
Qed.

(** ** [strip] *)

Lemma rstrip_rstrip (s : string) : rstrip (rstrip s) = rstrip s.
Proof.
  induction s as [|c s IH]; [reflexivity|].
  cbn [rstrip]. destruct (rstrip s) as [|c' r] eqn:E.
  - destruct (isspace c) eqn:Ec; [reflexivity|].
    cbn [rstrip]. now rewrite Ec.
  - change (rstrip (String c (String c' r)))
      with (match rstrip (String c' r) with
            | "" => if isspace c then "" else String c ""
            | String a t => String c (String a t)
            end).
    now rewrite IH.
Qed.

Lemma lstrip_rstrip (s : string) :
  lstrip (rstrip (lstrip s)) = rstrip (lstrip s).
Proof.
  assert (H : forall t, lstrip t = t -> lstrip (rstrip t) = rstrip t).
  { intros [|c t] Ht; [reflexivity|].
    cbn [lstrip] in Ht. destruct (isspace c) eqn:Ec.
    - exfalso. destruct (ShapeFacts.lstrip_decompose t) as (w & Hw & _).
      apply (f_equal String.length) in Hw, Ht.
      rewrite length_append in Hw. cbn [String.length] in Ht. lia.
    - cbn [rstrip]. destruct (rstrip t); rewrite ?Ec; cbn [lstrip];
        now rewrite Ec. }
  apply H. induction s as [|c s IH]; [reflexivity|].
  cbn [lstrip]. destruct (isspace c) eqn:Ec; [exact IH|].
  cbn [lstrip]. now rewrite Ec.
Qed.

Lemma strip_strip (s : string) : strip (strip s) = strip s.
Proof. unfold strip. now rewrite lstrip_rstrip, rstrip_rstrip. Qed.

(** What does not occur in a string does not occur in it once trimmed. *)
Lemma contains_strip (p s : string) :
  contains p s = false -> contains p (strip s) = false.
Proof.
  destruct (ShapeFacts.strip_decompose s) as (w1 & w2 & Hs & _).
  intros H. rewrite Hs in H. now apply contains_inside in H.
Qed.

End PieceFacts.

Module ExtractionFacts.

Import Datetime Script Spec PyStr PyStrFacts DatetimeFacts StrptimeFacts
  ExtractFacts PieceFacts.

(** What stands behind event details that [extract_event_details]
    returns. *)
Lemma extract_event_details_some {Sv : Type} (msg : RawMessage) (w w' : world Sv)
    (details : event_details) :
  extract_event_details msg w = (Returned (Some details), w') ->
  exists subject before portion more name time dt,
    find_subject msg = Some subject
    /\ split marker subject = before :: portion :: more
    /\ split separator portion = [name; time]
    /\ try_formats (strip time) formats = Some dt
    /\ details = mkevent_details (strip name) (isoformat dt)
    /\ w' = printed w ["Subject Line:"; subject;
                       "Extracted Event Name: " ++ strip name;
                       "Extracted Event Time: " ++ strip time].
Proof.
  unfold extract_event_details.
  destruct (find_subject msg) as [[|c s]|] eqn:Hf; try discriminate.
  unfold try_except.
  destruct (split marker (String c s)) as [|before [|portion more]] eqn:Hm.
  - exfalso. eapply split_from_nonempty; eauto.
  - rewrite (extract_from_subject_no_marker (String c s) w); [discriminate|].
    destruct (contains marker (String c s)) eqn:Hc; [|reflexivity].
    destruct (split_marker_present _ Hc) as (b & a & _ & Hs).
    rewrite Hs in Hm. injection Hm as _ Hm.
    exfalso. eapply split_from_nonempty; eauto.
  - destruct (split separator portion) as [|name [|time [|x l]]] eqn:Hs.
    + exfalso. eapply split_from_nonempty; eauto.
    + rewrite (extract_from_subject_no_separator _ portion before more w Hm);
        [discriminate|].
      rewrite <- (Nat.succ_inj_wd_neg), <- length_split, Hs. discriminate.
    + rewrite (extract_from_subject_run _ name time portion before more w Hm Hs).
      destruct (try_formats (strip time) formats) as [dt|] eqn:Ht;
        [|discriminate].
      intros [= <- <-].
      exists (String c s), before, portion, more, name, time, dt.
      repeat split; auto.
    + rewrite (extract_from_subject_no_separator _ portion before more w Hm);
        [discriminate|].
      rewrite <- (Nat.succ_inj_wd_neg), <- length_split, Hs. discriminate.
Qed.

End ExtractionFacts.

(* ================================================================== *)
(** * Letter case, names of days and months, leading zeros *)
(* ================================================================== *)

Module LetterFacts.

Import Datetime Strptime PyStr PyStrFacts Letters.

Ltac each_char a :=
  destruct a as [[] [] [] [] [] [] [] []]; vm_compute; reflexivity.

Lemma lower_char_idem (a : ascii) : lower_char (lower_char a) = lower_char a.
Proof. each_char a. Qed.

Lemma isspace_lower_char (a : ascii) : isspace (lower_char a) = isspace a.
Proof. each_char a. Qed.

Lemma isdigit_lower_char (a : ascii) : isdigit (lower_char a) = isdigit a.
Proof. each_char a. Qed.

Lemma lower_char_digit (a : ascii) : isdigit a = true -> lower_char a = a.
Proof. destruct a as [[] [] [] [] [] [] [] []]; vm_compute; (reflexivity || discriminate). Qed.

Lemma lower_app (a b : string) : lower (a ++ b) = lower a ++ lower b.
Proof. induction a as [|c a IH]; [reflexivity|]. cbn. now rewrite IH. Qed.

Lemma lower_lower (s : string) : lower (lower s) = lower s.
Proof.
  induction s as [|c s IH]; [reflexivity|].
  cbn. now rewrite lower_char_idem, IH.
Qed.

Lemma lower_empty (s : string) : String.eqb (lower s) "" = String.eqb s "".
Proof. now destruct s. Qed.

(** ** Trimming and reading numbers *)

Lemma lstrip_lower (s : string) : lstrip (lower s) = lower (lstrip s).
Proof.
  induction s as [|c s IH]; [reflexivity|].
  cbn [lower lstrip]. rewrite isspace_lower_char.
  destruct (isspace c); [exact IH | reflexivity].
Qed.

Lemma rstrip_lower (s : string) : rstrip (lower s) = lower (rstrip s).
Proof.
  induction s as [|c s IH]; [reflexivity|].
  cbn [lower rstrip]. rewrite IH, isspace_lower_char.
  destruct (rstrip s); cbn [lower]; [destruct (isspace c)|]; reflexivity.
Qed.

Lemma strip_lower (s : string) : strip (lower s) = lower (strip s).
Proof. unfold strip. now rewrite lstrip_lower, rstrip_lower. Qed.

Lemma digits_value_lower (acc : Z) (s : string) :
  digits_value acc (lower s) = digits_value acc s.
Proof.
  revert acc; induction s as [|c s IH]; intros acc; [reflexivity|].
  cbn [lower digits_value]. rewrite isdigit_lower_char.
  destruct (isdigit c) eqn:E; [|reflexivity].
  now rewrite (lower_char_digit c E), IH.
Qed.

Lemma int_lower (s : string) : int (lower s) = int s.
Proof.
  unfold int. rewrite strip_lower.
  destruct (strip s) as [|c t]; [reflexivity|].
  apply (digits_value_lower 0 (String c t)).
Qed.

(** ** Matching *)

Lemma one_lower (p : ascii -> bool) (s : string) :
  (forall a, p (lower_char a) = p a) ->
  one p (lower s) = map lower_hit (one p s).
Proof.
  intros H. destruct s as [|a s]; [reflexivity|].
  cbn [lower one]. rewrite H. destruct (p a); reflexivity.
Qed.

Lemma spaces_plus_lower (s : string) :
  spaces_plus (lower s) = map lower_hit (spaces_plus s).
Proof.
  induction s as [|a s IH]; [reflexivity|].
  cbn [lower spaces_plus]. rewrite isspace_lower_char.
  destruct (isspace a); [|reflexivity].
  rewrite IH, map_app, !map_map. reflexivity.
Qed.

Lemma flat_map_lower (g : hit -> list hit) (l : list hit) :
  flat_map (fun h => map lower_hit (g h)) l = map lower_hit (flat_map g l).
Proof.
  induction l as [|h l IH]; [reflexivity|].
  cbn [flat_map]. now rewrite map_app, IH.
Qed.

Lemma flat_map_of_map {A B C : Type} (f : A -> B) (g : B -> list C) (l : list A) :
  flat_map g (map f l) = flat_map (fun a => g (f a)) l.
Proof. induction l as [|a l IH]; [reflexivity|]. cbn. now rewrite IH. Qed.

Lemma rmatch_lower (r : regex) (s : string) :
  case_blind r = true ->
  rmatch r (lower s) = map lower_hit (rmatch r s).
Proof.
  revert s; induction r as [|c|lo hi| | |r1 IH1 r2 IH2|r1 IH1 r2 IH2|name r IH];
    intros s B; cbn [rmatch].
  - reflexivity.
  - apply one_lower. intros a. now rewrite lower_char_idem.
  - apply one_lower. intros a. cbn [case_blind] in B.
    rewrite forallb_forall in B.
    specialize (B a (ShapeFacts.in_all_chars a)).
    now apply Bool.eqb_prop in B.
  - apply one_lower. apply isdigit_lower_char.
  - apply spaces_plus_lower.
  - cbn [case_blind] in B. apply andb_true_iff in B as [B1 B2].
    rewrite (IH1 s B1), flat_map_of_map, <- flat_map_lower.
    apply flat_map_ext. intros h1. cbn [lower_hit rest].
    rewrite (IH2 _ B2), !map_map. apply map_ext. intros h2.
    unfold lower_hit. cbn [consumed groups rest].
    now rewrite lower_app, map_app.
  - cbn [case_blind] in B. apply andb_true_iff in B as [B1 B2].
    now rewrite (IH1 s B1), (IH2 s B2), map_app.
  - cbn [case_blind] in B. rewrite (IH s B), !map_map. reflexivity.
Qed.

Lemma re_match_lower (r : regex) (s : string) :
  case_blind r = true ->
  re_match r (lower s) = option_map lower_hit (re_match r s).
Proof.
  intros B. unfold re_match. rewrite (rmatch_lower r s B).
  now destruct (rmatch r s).
Qed.

Lemma group_lower (key : string) (gs : list (string * string)) :
  group key (map (fun kv => (fst kv, lower (snd kv))) gs)
  = option_map lower (group key gs).
Proof.
  induction gs as [|[k v] gs IH]; [reflexivity|].
  cbn [map group fst snd]. destruct (String.eqb k key); [reflexivity | exact IH].
Qed.

Lemma index_Z_lower (names : list string) (t : string) :
  index_Z names (lower t) = index_Z names t.
Proof. unfold index_Z. now rewrite lower_lower. Qed.

Lemma field_lower {A : Type} (key : string) (gs : list (string * string))
    (convert : string -> option A) (default : A) :
  (forall t, convert (lower t) = convert t) ->
  field key (map (fun kv => (fst kv, lower (snd kv))) gs) convert default
  = field key gs convert default.
Proof.
  intros H. unfold field. rewrite group_lower.
  destruct (group key gs); [apply H | reflexivity].
Qed.

Lemma hour_of_lower (gs : list (string * string)) (t : string) :
  hour_of (map (fun kv => (fst kv, lower (snd kv))) gs) (lower t) = hour_of gs t.
Proof.
  unfold hour_of. rewrite int_lower, group_lower.
  destruct (group "p" gs); cbn [option_map]; now rewrite ?lower_lower.
Qed.

(** A string and its lower case are parsed alike. *)
Lemma _strptime_lower (s fmt : string) (r : regex) :
  pattern fmt = Some r -> case_blind r = true ->
  _strptime (lower s) fmt = _strptime s fmt.
Proof.
  intros Hp B. unfold _strptime. rewrite Hp. cbn [Strptime.bind].
  rewrite (re_match_lower r s B).
  destruct (re_match r s) as [found|]; [|reflexivity].
  cbn [option_map Strptime.bind lower_hit rest groups].
  rewrite lower_empty.
  destruct (negb (String.eqb (rest found) "")); [reflexivity|].
  rewrite !group_lower.
  rewrite !(field_lower _ _ PyStr.int) by apply int_lower.
  rewrite !(field_lower _ _ (index_Z a_month)) by apply index_Z_lower.
  rewrite (field_lower "I" (groups found)
             (hour_of (map (fun kv => (fst kv, lower (snd kv))) (groups found)))).
  2:{ intros t. unfold hour_of. now rewrite int_lower. }
  rewrite (field_lower "a" (groups found)
             (fun t => option_map Some (index_Z a_weekday t))).
  2:{ intros t. now rewrite index_Z_lower. }
  assert (HI : field "I" (groups found)
                 (hour_of (map (fun kv => (fst kv, lower (snd kv))) (groups found))) 0%Z
               = field "I" (groups found) (hour_of (groups found)) 0%Z).
  { unfold field. destruct (group "I" (groups found)) as [t|]; [|reflexivity].
    rewrite <- (hour_of_lower (groups found) t).
    unfold hour_of. now rewrite int_lower. }
  rewrite HI.
  destruct (group "B" (groups found)) as [tB|]; cbn [option_map];
    rewrite ?index_Z_lower;
    destruct (group "A" (groups found)) as [tA|]; cbn [option_map];
    rewrite ?index_Z_lower; reflexivity.
Qed.

End LetterFacts.

Module NameFacts.

Import Datetime Strptime Shape PyStr PyStrFacts StrptimeFacts.

Ltac each_day wd := destruct wd as [|[|[|[|[|[|[|wd]]]]]]]; try lia.
Ltac each_month_name mo :=
  destruct mo as [|[|[|[|[|[|[|[|[|[|[|[|[|mo]]]]]]]]]]]]]; try lia.

(** An abbreviated month other than May is not a full month name: the
    pattern with the full names finds no way through the string. *)
Lemma full_month_rejects_abbreviation (wd mo : nat) (X : string) :
  (wd < 7)%nat -> (1 <= mo <= 12)%nat -> mo <> 5%nat ->
  rmatch (template (re "A") (re "B"))
    (nth wd day_name "" ++ ", " ++ nth mo month_abbr "" ++ " " ++ X) = []
  /\ rmatch (template (re "a") (re "B"))
       (nth wd day_abbr "" ++ ", " ++ nth mo month_abbr "" ++ " " ++ X) = [].
Proof.
  intros Hwd Hmo H5. each_day wd; each_month_name mo;
    try (exfalso; apply H5; reflexivity); split; vm_compute; reflexivity.
Qed.

(** An abbreviated week day is not a full one. *)
Lemma full_day_rejects_abbreviation (rB : regex) (wd : nat) (X : string) :
  (wd < 7)%nat ->
  rmatch (template (re "A") rB) (nth wd day_abbr "" ++ ", " ++ X) = [].
Proof.
  intros Hwd. unfold template. cbn [rmatch].
  replace (rmatch (re "A") (nth wd day_abbr "" ++ ", " ++ X)) with (@nil hit);
    [reflexivity|].
  each_day wd; vm_compute; reflexivity.
Qed.

Lemma no_way_no_parse (s fmt : string) (r : regex) :
  pattern fmt = Some r -> rmatch r s = [] -> strptime s fmt = None.
Proof.
  intros Hp Hr. unfold strptime, _strptime, re_match. rewrite Hp.
  cbn [Strptime.bind]. now rewrite Hr.
Qed.

Lemma may_is_may : nth 5 month_abbr "" = nth 5 month_name "".
Proof. reflexivity. Qed.

End NameFacts.

Module WrittenFacts.

Import Datetime Strptime Shape Script PyStr PyStrFacts DatetimeFacts StrptimeFacts
  ShapeFacts Written NameFacts.

(** ** The day and the hour, with or without a leading zero *)

Lemma day_text :
  forall d, (1 <= d < 1 + Z.of_nat 31)%Z ->
  forall D, writes d D ->
    (forall t, re_match (re "d") (D ++ String "," t)
               = Some (mkhit D [("d", D)] (String "," t)))
    /\ (exists c D', D = String c D' /\ isspace c = false)
    /\ int D = Some d.
Proof.
  each_in_range 1%Z 31%nat; intros D [->| ->];
    (split; [intros t; reflexivity|]);
    (split; [eexists _, _; split; reflexivity | reflexivity]).
Qed.

Lemma hour_text :
  forall h, (0 <= h < 0 + Z.of_nat 24)%Z ->
  forall H, writes (hour12 h) H ->
    (forall t, re_match (re "I") (H ++ String ":" t)
               = Some (mkhit H [("I", H)] (String ":" t)))
    /\ (exists c H', H = String c H' /\ isspace c = false)
    /\ forall gs,
         group "p" gs = Some (if (h <? 12)%Z then "AM" else "PM") ->
         hour_of gs H = Some h.
Proof.
  each_in_range 0%Z 24%nat; intros H [->| ->];
    (split; [intros t; reflexivity|]);
    (split; [eexists _, _; split; reflexivity|]);
    intros gs Hg; unfold hour_of; rewrite Hg; reflexivity.
Qed.

(** ** The pattern of a format on a written time *)

Lemma re_match_written (rA rB : regex) (kA kB N M D H : string) (dt : datetime) :
  (forall t, re_match rA (N ++ t) = Some (mkhit N [(kA, N)] t)) ->
  (forall t, re_match rB (M ++ t) = Some (mkhit M [(kB, M)] t)) ->
  (exists c M', M = String c M' /\ isspace c = false) ->
  (forall t, re_match (re "d") (D ++ String "," t)
             = Some (mkhit D [("d", D)] (String "," t))) ->
  (exists c D', D = String c D' /\ isspace c = false) ->
  (forall t, re_match (re "I") (H ++ String ":" t)
             = Some (mkhit H [("I", H)] (String ":" t))) ->
  (exists c H', H = String c H' /\ isspace c = false) ->
  (0 <= minute dt <= 59)%Z ->
  re_match (template rA rB) (written N M D H dt)
  = Some (mkhit (written N M D H dt)
            [(kA, N); (kB, M); ("d", D); ("Y", pad4 (year dt)); ("I", H);
             ("M", pad2 (minute dt));
             ("p", if (hour dt <? 12)%Z then "AM" else "PM")] "").
Proof.
  intros HA HB (c & M' & -> & Hc) HD (cd & D' & -> & Hcd) HH (ch & H' & -> & Hch) Hm.
  unfold template, written.
  set (ap := if (hour dt <? 12)%Z then "AM" else "PM").
  assert (Hp : re_match (Cat Spaces (Cat (re "p") Eps)) (" " ++ ap)
               = Some (mkhit (" " ++ ap) [("p", ap)] "")).
  { subst ap. destruct (hour dt <? 12)%Z; reflexivity. }
  assert (HM : re_match (Cat (re "M") (Cat Spaces (Cat (re "p") Eps)))
                 (pad2 (minute dt) ++ " " ++ ap)
               = Some (mkhit (pad2 (minute dt) ++ " " ++ ap)
                         [("M", pad2 (minute dt)); ("p", ap)] "")).
  { apply (re_match_field (re "M") _ (pad2 (minute dt)) [("M", pad2 (minute dt))]
             (" " ++ ap) (" " ++ ap) [("p", ap)]); [|exact Hp].
    apply re_match_M. lia. }
  assert (HI : re_match (Cat (re "I") (Cat (Chr ":") (Cat (re "M")
                 (Cat Spaces (Cat (re "p") Eps)))))
                 (String ch H' ++ ":" ++ pad2 (minute dt) ++ " " ++ ap)
               = Some (mkhit (String ch H' ++ ":" ++ pad2 (minute dt) ++ " " ++ ap)
                         [("I", String ch H'); ("M", pad2 (minute dt));
                          ("p", ap)] "")).
  { apply (re_match_field (re "I") _ (String ch H') [("I", String ch H')]
             (":" ++ pad2 (minute dt) ++ " " ++ ap)
             (":" ++ pad2 (minute dt) ++ " " ++ ap)
             [("M", pad2 (minute dt)); ("p", ap)]).
    - apply HH.
    - apply (re_match_chr ":"%char _ _ _ _ HM). }
  assert (HY : re_match (Cat (re "Y") (Cat Spaces (Cat (re "I") (Cat (Chr ":")
                 (Cat (re "M") (Cat Spaces (Cat (re "p") Eps)))))))
                 (pad4 (year dt) ++ " " ++ String ch H' ++ ":"
                  ++ pad2 (minute dt) ++ " " ++ ap)
               = Some (mkhit (pad4 (year dt) ++ " " ++ String ch H'
                              ++ ":" ++ pad2 (minute dt) ++ " " ++ ap)
                         [("Y", pad4 (year dt)); ("I", String ch H');
                          ("M", pad2 (minute dt)); ("p", ap)] "")).
  { apply (re_match_field (re "Y") _ (pad4 (year dt)) [("Y", pad4 (year dt))]
             (" " ++ String ch H' ++ ":" ++ pad2 (minute dt) ++ " " ++ ap)
             (" " ++ String ch H' ++ ":" ++ pad2 (minute dt) ++ " " ++ ap)
             [("I", String ch H'); ("M", pad2 (minute dt)); ("p", ap)]).
    - apply re_match_Y.
    - apply (re_match_space_then _ ch _ _ _ Hch HI). }
  assert (Hday : re_match (Cat (re "d") (Cat (Chr ",") (Cat Spaces (Cat (re "Y")
                   (Cat Spaces (Cat (re "I") (Cat (Chr ":") (Cat (re "M")
                   (Cat Spaces (Cat (re "p") Eps))))))))))
                   (String cd D' ++ ", " ++ pad4 (year dt) ++ " "
                    ++ String ch H' ++ ":" ++ pad2 (minute dt)
                    ++ " " ++ ap)
                 = Some (mkhit (String cd D' ++ ", " ++ pad4 (year dt) ++ " "
                                ++ String ch H' ++ ":"
                                ++ pad2 (minute dt) ++ " " ++ ap)
                           [("d", String cd D'); ("Y", pad4 (year dt));
                            ("I", String ch H');
                            ("M", pad2 (minute dt)); ("p", ap)] "")).
  { apply (re_match_field (re "d") _ (String cd D') [("d", String cd D')]
             (", " ++ pad4 (year dt) ++ " " ++ String ch H' ++ ":"
              ++ pad2 (minute dt) ++ " " ++ ap)
             (", " ++ pad4 (year dt) ++ " " ++ String ch H' ++ ":"
              ++ pad2 (minute dt) ++ " " ++ ap)
             [("Y", pad4 (year dt)); ("I", String ch H');
              ("M", pad2 (minute dt)); ("p", ap)]).
    - apply HD.
    - apply (re_match_chr ","%char).
      apply (re_match_space_then _ (digit_char (year dt / 1000))
               _ _ _ (isspace_digit_char _) HY). }
  apply (re_match_field rA _ N [(kA, N)] _ _ _ (HA _)).
  apply (re_match_chr ","%char).
  apply (re_match_space_then _ c _ _ _ Hc).
  apply (re_match_field rB _ (String c M') [(kB, String c M')] _ _ _ (HB _)).
  apply (re_match_space_then _ cd _ _ _ Hcd Hday).
Qed.

(** ** What the four formats parse from a written time *)

Ltac parse_written rA rB HA HB Hname :=
  unfold strptime, _strptime;
  match goal with
  | |- context [pattern ?f] => change (pattern f) with (Some (template rA rB))
  end;
  cbn [Strptime.bind];
  rewrite (re_match_written rA rB _ _ _ _ _ _ _ HA HB Hname) by assumption;
  unfold field;
  cbn [Strptime.bind rest groups group String.eqb Ascii.eqb Bool.eqb andb negb].

Lemma strptime_written (dt : datetime) (wd : nat) (D H : string) :
  valid dt = true -> second dt = 0%Z -> (wd < 7)%nat ->
  writes (day dt) D -> writes (hour12 (hour dt)) H ->
  let mo := Z.to_nat (month dt) in
  strptime (written (nth wd day_name "") (nth mo month_name "") D H dt)
    "%A, %B %d, %Y %I:%M %p" = Some dt
  /\ strptime (written (nth wd day_name "") (nth mo month_abbr "") D H dt)
       "%A, %b %d, %Y %I:%M %p" = Some dt
  /\ strptime (written (nth wd day_abbr "") (nth mo month_name "") D H dt)
       "%a, %B %d, %Y %I:%M %p" = Some dt
  /\ strptime (written (nth wd day_abbr "") (nth mo month_abbr "") D H dt)
       "%a, %b %d, %Y %I:%M %p" = Some dt.
Proof.
  intros V S0 Hwd HD HH mo.
  pose proof (valid_fields dt V) as (Df & Hh & Hm & _).
  pose proof (valid_year dt V) as (Hy & Hmo & Hd).
  pose proof (days_in_month_pos (year dt) (month dt) Hmo) as Hdim.
  assert (Hmo' : (1 <= mo <= 12)%nat) by (subst mo; lia).
  destruct (index_day_name wd Hwd) as [IA Ia].
  destruct (index_month_name mo Hmo') as [IB Ib].
  destruct (month_name_head mo Hmo') as [NB Nb].
  destruct (day_text (day dt) ltac:(lia) D HD) as (RD & ND & ID).
  destruct (hour_text (hour dt) ltac:(lia) H HH) as (RH & NH & IH).
  assert (Emo : Z.of_nat mo = month dt) by (subst mo; lia).
  assert (HA := fun t => re_match_A wd t Hwd).
  assert (Ha := fun t => re_match_a wd t Hwd).
  assert (HB := fun t => re_match_B mo t Hmo').
  assert (Hb := fun t => re_match_b mo t Hmo').
  assert (Hfinish :
            Strptime.bind (Some (mkstruct_time (year dt) (month dt) (day dt)
                                   (hour dt) (minute dt) 0 (Z.of_nat wd)))
              (fun tt => new (tm_year tt) (tm_mon tt) (tm_mday tt)
                             (tm_hour tt) (tm_min tt) (tm_sec tt))
            = Some dt).
  { cbn [Strptime.bind tm_year tm_mon tm_mday tm_hour tm_min tm_sec].
    rewrite <- S0. now apply new_of_valid. }
  repeat split.
  - parse_written (re "A") (re "B") HA HB NB.
    rewrite int_pad4, IB, ID, int_pad2, IA by lia. cbn [Strptime.bind option_map].
    rewrite IH by reflexivity.
    cbn [Strptime.bind]. rewrite Emo, Df. cbn [negb]. exact Hfinish.
  - parse_written (re "A") (re "b") HA Hb Nb.
    rewrite int_pad4, Ib, ID, int_pad2, IA by lia. cbn [Strptime.bind option_map].
    rewrite IH by reflexivity.
    cbn [Strptime.bind]. rewrite Emo, Df. cbn [negb]. exact Hfinish.
  - parse_written (re "a") (re "B") Ha HB NB.
    rewrite int_pad4, IB, ID, int_pad2, Ia by lia. cbn [Strptime.bind option_map].
    rewrite IH by reflexivity.
    cbn [Strptime.bind]. rewrite Emo, Df. cbn [negb]. exact Hfinish.
  - parse_written (re "a") (re "b") Ha Hb Nb.
    rewrite int_pad4, Ib, ID, int_pad2, Ia by lia. cbn [Strptime.bind option_map].
    rewrite IH by reflexivity.
    cbn [Strptime.bind]. rewrite Emo, Df. cbn [negb]. exact Hfinish.
Qed.

End WrittenFacts.

Module CaseFacts.

Import Strptime Script PyStr ShapeFacts Letters LetterFacts.

(** [parse_event_time] finds in a string what it finds in its lower
    case. *)
Lemma try_formats_lower (s : string) :
  try_formats (lower s) formats = try_formats s formats.
Proof.
  destruct pattern_formats as (T1 & T2 & T3 & T4).
  unfold formats. cbn [try_formats]. unfold strptime.
  rewrite (_strptime_lower s _ _ T1) by (vm_compute; reflexivity).
  rewrite (_strptime_lower s _ _ T2) by (vm_compute; reflexivity).
  rewrite (_strptime_lower s _ _ T3) by (vm_compute; reflexivity).
  rewrite (_strptime_lower s _ _ T4) by (vm_compute; reflexivity).
  reflexivity.
Qed.

End CaseFacts.

(* ================================================================== *)
(** * The properties of the subject extractor and the time parser *)
(* ================================================================== *)

Module ExtractorProperties.

Import Datetime Script Spec PyStr PyStrFacts DatetimeFacts StrptimeFacts
  ShapeFacts ExtractFacts.

(** C1, as stated, fails: a name that contains [" on "] makes the piece
    after the marker split in three, and the script gives up although the
    time is in the first accepted format. *)
Lemma name_with_separator_rejected :
  let name := "Hands on Lab" in
  let time := "Saturday, January 11, 2025 9:00 AM" in
  let subject := "Registration Confirmation: Hands on Lab on Saturday, January 11, 2025 9:00 AM" in
  subject = marker ++ name ++ separator ++ time
  /\ Strptime.strptime (strip time) "%A, %B %d, %Y %I:%M %p"
     = Some (mkdatetime 2025 1 11 9 0 0)
  /\ fst (extract_event_details [mkheader "Subject" subject] blank)
     = Returned None.
Proof. repeat split; vm_compute; reflexivity. Qed.

(** C1 (amended): for every subject line
    [Registration Confirmation: <name> on <time>] in which no [" on "]
    occurs inside [<name> on], in which the marker does not occur in
    [<name> on <time>], and whose trimmed [<time>] is parsed (by the first
    of the four formats that accepts it) to [dt], [extract_event_details]
    returns the details whose [event_name] is the trimmed [<name>] and
    whose [event_time] is [dt] in ISO format. *)
Theorem template_subject_extracted (Sv : Type) (msg : RawMessage)
    (name time : string) (dt : datetime) (w : world Sv) :
  find_subject msg = Some (marker ++ name ++ separator ++ time) ->
  try_formats (strip time) formats = Some dt ->
  contains separator (name ++ " on") = false ->
  contains marker (name ++ separator ++ time) = false ->
  fst (extract_event_details msg w)
  = Returned (Some (mkevent_details (strip name) (isoformat dt))).
Proof.
  intros Hmsg Hparse Hname Hmarker.
  pose proof (accepted_time_has_no_separator time dt Hparse) as Htime.
  rewrite (extract_event_details_run msg _ w Hmsg) by discriminate.
  unfold try_except.
  rewrite (extract_from_subject_run _ name time (name ++ separator ++ time) "" []).
  - now rewrite Hparse.
  - now apply split_marker_leading.
  - now apply split_separator_template.
Qed.

(** Scenario 1 of the specification is an instance. *)
Lemma template_subject_extracted_scenario :
  fst (extract_event_details
         [mkheader "Subject"
            "Registration Confirmation: Beginners (White/Orng/Yellow) on Saturday, January 11, 2025 9:00 AM"]
         blank)
  = Returned (Some (mkevent_details "Beginners (White/Orng/Yellow)"
                                    "2025-01-11T09:00:00")).
Proof.
  exact (template_subject_extracted unit
           [mkheader "Subject"
              "Registration Confirmation: Beginners (White/Orng/Yellow) on Saturday, January 11, 2025 9:00 AM"]
           "Beginners (White/Orng/Yellow)" "Saturday, January 11, 2025 9:00 AM"
           (mkdatetime 2025 1 11 9 0 0) blank
           eq_refl eq_refl eq_refl eq_refl).
Defined.

(** C3: [parse_event_time] holds the four formats, full and abbreviated
    day names crossed with full and abbreviated month names, each with a
    12-hour clock and its AM/PM marker; it returns the parse of the first
    format, in that order, that [strptime] accepts; the string with the
    abbreviated month fails the first format and is parsed by the second;
    and when every format fails it returns [None] after printing the
    string and the formats it tried. *)
Theorem parse_event_time_first_success :
  formats = [ "%A, %B %d, %Y %I:%M %p"; "%A, %b %d, %Y %I:%M %p";
              "%a, %B %d, %Y %I:%M %p"; "%a, %b %d, %Y %I:%M %p" ]
  /\ (forall (Sv : Type) (s : string) (w : world Sv),
        fst (parse_event_time s w) = Returned (try_formats s formats))
  /\ (forall (s : string) (dt : datetime),
        try_formats s formats = Some dt <->
        exists i fmt,
          nth_error formats i = Some fmt
          /\ Strptime.strptime s fmt = Some dt
          /\ forall j fmt', (j < i)%nat -> nth_error formats j = Some fmt' ->
                            Strptime.strptime s fmt' = None)
  /\ (Strptime.strptime "Saturday, Jan 11, 2025 9:00 AM" "%A, %B %d, %Y %I:%M %p"
      = None
      /\ Strptime.strptime "Saturday, Jan 11, 2025 9:00 AM" "%A, %b %d, %Y %I:%M %p"
         = Some (mkdatetime 2025 1 11 9 0 0)
      /\ try_formats "Saturday, Jan 11, 2025 9:00 AM" formats
         = Some (mkdatetime 2025 1 11 9 0 0))
  /\ (forall (Sv : Type) (s : string) (w : world Sv),
        (forall fmt, In fmt formats -> Strptime.strptime s fmt = None) <->
        parse_event_time s w
        = (Returned None,
           printed w ["Error: Unable to parse time data '" ++ s ++ "'";
                      "Expected formats are: " ++ join ", " formats])).
Proof.
  split; [reflexivity|].
  split.
  { intros Sv s w. rewrite parse_event_time_run.
    destruct (try_formats s formats); reflexivity. }
  split; [intros s dt; apply try_formats_some|].
  split; [repeat split; vm_compute; reflexivity|].
  intros Sv s w. rewrite <- try_formats_none, parse_event_time_run.
  destruct (try_formats s formats); split; congruence.
Qed.

(** C5, as stated, fails: when the marker occurs twice the script goes on
    with the text between the two occurrences, not with everything after
    the first one. *)
Lemma second_marker_cuts_portion :
  let subject := "Registration Confirmation: A on Registration Confirmation: B" in
  remainder_after_marker subject = Some "A on Registration Confirmation: B"
  /\ extracted_portion subject = "A on ".
Proof. split; vm_compute; reflexivity. Qed.

(** C5 (amended): the subject line is split at every occurrence of the
    marker and the script goes on with the second piece: for every subject
    line that contains the marker, the extracted portion is the text
    between the first occurrence of the marker and the next one, which is
    the whole text after the first occurrence exactly when the marker does
    not occur again; what comes before the first occurrence and from the
    second occurrence on has no influence on the result. *)
Theorem extracted_portion_between_markers (subject : string) :
  contains marker subject = true ->
  exists before after,
    partition marker subject = Some (before, after)
    /\ extracted_portion subject = up_to_next_marker after
    /\ (extracted_portion subject = after <-> contains marker after = false)
    /\ forall (Sv : Type) (w : world Sv),
         fst (extract_from_subject subject w)
         = fst (extract_from_subject (marker ++ up_to_next_marker after) w).
Proof.
  intros H. destruct (split_marker_present _ H) as (before & after & Hp & Hs).
  exists before, after.
  assert (Hportion : extracted_portion subject = up_to_next_marker after).
  { unfold extracted_portion, up_to_next_marker. rewrite Hs. cbn [nth].
    rewrite <- hd_split by apply marker_nonempty.
    pose proof (split_from_nonempty marker 0 after) as Hne.
    unfold split in *. destruct (split_from marker 0 after); [congruence|].
    reflexivity. }
  assert (Hnext : contains marker (up_to_next_marker after) = false).
  { unfold up_to_next_marker.
    destruct (partition marker after) as [[b a]|] eqn:E.
    - eapply partition_before_absent; [apply marker_nonempty | eauto].
    - now apply partition_none. }
  repeat split; auto.
  - rewrite Hportion. unfold up_to_next_marker. intros Heq.
    destruct (partition marker after) as [[b a]|] eqn:E.
    + subst b. apply partition_spec in E.
      apply (f_equal String.length) in E.
      rewrite !length_append in E. simpl in E. lia.
    + now apply partition_none.
  - rewrite Hportion. unfold up_to_next_marker. intros Habs.
    apply partition_none in Habs. now rewrite Habs.
  - intros Sv w. apply extract_from_subject_value.
    + rewrite Hs, (split_marker_leading _ Hnext).
      pose proof (split_from_nonempty marker 0 after) as Hne.
      unfold split in *. destruct (split_from marker 0 after); [congruence|].
      reflexivity.
    + fold (extracted_portion subject). rewrite Hportion.
      now rewrite (split_marker_leading _ Hnext).
Qed.

(** The subject of the counterexample above is an instance. *)
Lemma extracted_portion_between_markers_witness :
  exists before after,
    partition marker "Registration Confirmation: A on Registration Confirmation: B"
    = Some (before, after)
    /\ extracted_portion "Registration Confirmation: A on Registration Confirmation: B"
       = up_to_next_marker after
    /\ (extracted_portion "Registration Confirmation: A on Registration Confirmation: B"
        = after <-> contains marker after = false)
    /\ forall (Sv : Type) (w : world Sv),
         fst (extract_from_subject
                "Registration Confirmation: A on Registration Confirmation: B" w)
         = fst (extract_from_subject (marker ++ up_to_next_marker after) w).
Proof.
  exact (extracted_portion_between_markers
           "Registration Confirmation: A on Registration Confirmation: B" eq_refl).
Defined.

(** C6, as stated, fails, and on the time string of the first scenario:
    the hour is written back with two digits. *)
Lemma reformatting_pads_the_hour :
  Strptime.strptime "Saturday, January 11, 2025 9:00 AM" "%A, %B %d, %Y %I:%M %p"
  = Some (mkdatetime 2025 1 11 9 0 0)
  /\ Strptime.strftime (mkdatetime 2025 1 11 9 0 0) "%A, %B %d, %Y %I:%M %p"
     = Some "Saturday, January 11, 2025 09:00 AM"
  /\ "Saturday, January 11, 2025 09:00 AM" <> "Saturday, January 11, 2025 9:00 AM".
Proof. repeat split; try (vm_compute; reflexivity). discriminate. Qed.

(** C6 (amended): for each of the four formats and every time string that
    [strptime] parses with it to a timestamp of the year 1000 or later,
    formatting the timestamp with the same format gives a string that the
    format parses back to the same timestamp; that string is the original
    one whenever the original is itself what the formatter writes for an
    existing timestamp (two-digit day and hour, the week day of the date,
    capitalised names, single spaces). *)
Theorem reformatting_parses_back (fmt s : string) (dt : datetime) :
  In fmt formats ->
  Strptime.strptime s fmt = Some dt ->
  (1000 <= year dt)%Z ->
  exists t,
    Strptime.strftime dt fmt = Some t
    /\ Strptime.strptime t fmt = Some dt
    /\ forall dt0,
         valid dt0 = true -> second dt0 = 0%Z -> (1000 <= year dt0)%Z ->
         Strptime.strftime dt0 fmt = Some s -> t = s.
Proof.
  intros Hfmt Hparse Hy.
  destruct (strptime_valid _ _ _ Hparse) as [V S0].
  pose proof (valid_year dt V) as (Hy' & _).
  destruct (strftime_formatted dt ltac:(lia)) as (F1 & F2 & F3 & F4).
  destruct (strptime_formatted dt V S0) as (P1 & P2 & P3 & P4).
  assert (Hback : forall dt0,
            valid dt0 = true -> second dt0 = 0%Z -> (1000 <= year dt0)%Z ->
            Strptime.strftime dt0 fmt = Some s -> dt0 = dt).
  { intros dt0 V0 S00 Hy0 Hs.
    pose proof (valid_year dt0 V0) as (Hy0' & _).
    destruct (strftime_formatted dt0 ltac:(lia)) as (G1 & G2 & G3 & G4).
    destruct (strptime_formatted dt0 V0 S00) as (Q1 & Q2 & Q3 & Q4).
    cbv zeta in *. unfold formats in Hfmt. cbn [In] in Hfmt.
    destruct Hfmt as [<-|[<-|[<-|[<-|[]]]]].
    - congruence.
    - congruence.
    - congruence.
    - congruence. }
  cbv zeta in *. unfold formats in Hfmt. cbn [In] in Hfmt.
  destruct Hfmt as [<-|[<-|[<-|[<-|[]]]]].
  - eexists. split; [exact F1|]. split; [exact P1|].
    intros dt0 V0 S00 Hy0 Hs.
    pose proof (Hback dt0 V0 S00 Hy0 Hs). congruence.
  - eexists. split; [exact F2|]. split; [exact P2|].
    intros dt0 V0 S00 Hy0 Hs.
    pose proof (Hback dt0 V0 S00 Hy0 Hs). congruence.
  - eexists. split; [exact F3|]. split; [exact P3|].
    intros dt0 V0 S00 Hy0 Hs.
    pose proof (Hback dt0 V0 S00 Hy0 Hs). congruence.
  - eexists. split; [exact F4|]. split; [exact P4|].
    intros dt0 V0 S00 Hy0 Hs.
    pose proof (Hback dt0 V0 S00 Hy0 Hs). congruence.
Qed.

(** The time string of the first scenario is an instance. *)
Lemma reformatting_parses_back_witness :
  exists t,
    Strptime.strftime (mkdatetime 2025 1 11 9 0 0) "%A, %B %d, %Y %I:%M %p" = Some t
    /\ Strptime.strptime t "%A, %B %d, %Y %I:%M %p"
       = Some (mkdatetime 2025 1 11 9 0 0)
    /\ forall dt0,
         valid dt0 = true -> second dt0 = 0%Z -> (1000 <= year dt0)%Z ->
         Strptime.strftime dt0 "%A, %B %d, %Y %I:%M %p"
         = Some "Saturday, January 11, 2025 9:00 AM" ->
         t = "Saturday, January 11, 2025 9:00 AM".
Proof.
  apply (reformatting_parses_back "%A, %B %d, %Y %I:%M %p"
           "Saturday, January 11, 2025 9:00 AM" (mkdatetime 2025 1 11 9 0 0)).
  - simpl. auto.
  - vm_compute. reflexivity.
  - simpl. lia.
Defined.

End ExtractorProperties.

(* ================================================================== *)
(** * The properties of the duplicate check and of the scheduler *)
(* ================================================================== *)

Module SchedulerProperties.

Import Datetime Script Spec PyStr PyStrFacts DatetimeFacts ExtractFacts
  SchedulerFacts.

(** C4, as stated, fails: what follows the first marker holds [" on "]
    twice, yet the script cuts that text at the second marker, finds a
    single [" on "] in the piece it keeps, and returns event details. *)
Lemma second_marker_hides_separator :
  let subject :=
    "Registration Confirmation: A on Saturday, January 11, 2025 9:00 AM Registration Confirmation: B on C" in
  remainder_after_marker subject
  = Some "A on Saturday, January 11, 2025 9:00 AM Registration Confirmation: B on C"
  /\ count separator
       "A on Saturday, January 11, 2025 9:00 AM Registration Confirmation: B on C"
     = 2%nat
  /\ fst (extract_event_details [mkheader "Subject" subject] blank)
     = Returned (Some (mkevent_details "A" "2025-01-11T09:00:00")).
Proof. repeat split; vm_compute; reflexivity. Qed.

(** C4 (amended): for every subject line that lacks the marker, or whose
    piece between the first marker and the next one (to the end when
    there is no next one) does not hold exactly one [" on "], counted
    from the left without overlap, [extract_event_details] prints one of
    its template errors last and returns no event details; the message
    is skipped: after fetching it the loop makes no further call and
    leaves the count as it was. *)
Theorem mismatched_subject_skipped (Sv : Type) (svc : services Sv)
    (msg : RawMessage) (subject : string) :
  find_subject msg = Some subject ->
  contains marker subject = false
  \/ count separator (extracted_portion subject) <> 1%nat ->
  (forall w : world Sv,
     exists lines line,
       extract_event_details msg w = (Returned None, printed w (lines ++ [line]))
       /\ format_mismatch_line line)
  /\ (forall (email1 email2 : string) (message : message_ref) (n : Z)
             (w : world Sv) (s1 : Sv),
        messages_get svc (id message) (remote w) = (Returned msg, s1) ->
        fst (process_message svc email1 email2 message n w) = Returned n
        /\ calls (snd (process_message svc email1 email2 message n w))
           = (calls w ++ [(MessagesGet (id message), Answered)])%list).
Proof.
  intros Hmsg Hbad.
  assert (Hextract : forall w : world Sv,
            exists lines line,
              extract_event_details msg w
              = (Returned None, printed w (lines ++ [line]))
              /\ format_mismatch_line line).
  { intros w. destruct subject as [|c subject'] eqn:Es.
    - exists [], "Error: Unable to find subject line in the email.".
      unfold extract_event_details. rewrite Hmsg. split; [reflexivity|].
      now left.
    - rewrite <- Es in *.
      rewrite (extract_event_details_run msg subject w Hmsg) by (subst; discriminate).
      unfold try_except.
      destruct (contains marker subject) eqn:Hc.
      + destruct Hbad as [Hbad|Hbad]; [discriminate|].
        destruct (split_marker_present _ Hc) as (before & after & Hp & Hs).
        pose proof (split_from_nonempty marker 0 after) as Hne.
        fold (split marker after) in Hne.
        destruct (split marker after) as [|portion more] eqn:Ea; [congruence|].
        assert (Hportion : extracted_portion subject = portion).
        { unfold extracted_portion. now rewrite Hs. }
        rewrite Hportion in Hbad.
        rewrite (extract_from_subject_no_separator subject portion before more w Hs Hbad).
        exists ["Subject Line:"; subject],
          "Error: Subject line does not contain expected 'on' separator.".
        split; [reflexivity|]. right; now right.
      + rewrite (extract_from_subject_no_marker subject w Hc).
        exists ["Subject Line:"; subject],
          "Error: The subject line does not contain the expected 'Registration Confirmation: ' format.".
        split; [reflexivity|]. right; now left. }
  split; [exact Hextract|].
  intros email1 email2 message n w s1 Hget.
  rewrite process_message_run, Hget. cbv zeta.
  destruct (Hextract (called w s1 (MessagesGet (id message)) Answered))
    as (lines & line & -> & _).
  split; reflexivity.
Qed.

(** Scenario 3 of the specification is an instance: the subject without
    [" on "]. *)
Lemma mismatched_subject_skipped_scenario :
  (forall w : world Fake.state,
     exists lines line,
       extract_event_details
         [mkheader "Subject" "Registration Confirmation: Advanced Class"] w
       = (Returned None, printed w (lines ++ [line]))
       /\ format_mismatch_line line)
  /\ (forall (email1 email2 : string) (message : message_ref) (n : Z)
             (w : world Fake.state) (s1 : Fake.state),
        messages_get (Fake.svc 0 0) (id message) (remote w)
        = (Returned [mkheader "Subject" "Registration Confirmation: Advanced Class"], s1) ->
        fst (process_message (Fake.svc 0 0) email1 email2 message n w) = Returned n
        /\ calls (snd (process_message (Fake.svc 0 0) email1 email2 message n w))
           = (calls w ++ [(MessagesGet (id message), Answered)])%list).
Proof.
  apply (mismatched_subject_skipped Fake.state (Fake.svc 0 0)
           [mkheader "Subject" "Registration Confirmation: Advanced Class"]
           "Registration Confirmation: Advanced Class" eq_refl).
  right. vm_compute. discriminate.
Defined.

(** C2: [check_existing_event] returns the list the calendar service
    gives for the query over the window and the event name, which counts
    as a duplicate exactly when it is not empty; when it is not empty,
    [create_calendar_event] makes no insert call and returns no event, and
    the loop leaves the count of created events as it was; when it is
    empty the insert call follows. *)
Theorem duplicate_is_not_inserted (Sv : Type) (svc : services Sv) :
  (forall (event_name start_iso end_iso : string) (w : world Sv),
     fst (check_existing_event svc event_name start_iso end_iso w)
     = fst (events_list svc (duplicate_query event_name start_iso end_iso)
              (remote w)))
  /\ (forall (details : event_details) (email1 email2 : string) (w : world Sv)
             (naive : datetime) (win : aware * aware)
             (items : list calendar_event) (s1 : Sv),
        fromisoformat (event_time details) = Some naive ->
        window svc naive = Some win ->
        events_list svc
          (duplicate_query (event_name details) (aware_isoformat (fst win))
             (aware_isoformat (snd win))) (remote w)
        = (Returned items, s1) ->
        let run := create_calendar_event svc details email1 email2 w in
        let check :=
          (EventsList (duplicate_query (event_name details)
                         (aware_isoformat (fst win)) (aware_isoformat (snd win))),
           Answered) in
        (truthy items = true ->
           fst run = Returned None
           /\ calls (snd run) = (calls w ++ [check])%list)
        /\ (truthy items = false ->
              exists r,
                calls (snd run)
                = (calls w ++ [check;
                     (EventsInsert "primary"
                        (event_for (event_name details) win email1 email2), r)])%list))
  /\ (forall (email1 email2 : string) (message : message_ref) (n : Z)
             (w : world Sv) (msg : RawMessage) (s1 : Sv)
             (details : event_details) (naive : datetime) (win : aware * aware)
             (items : list calendar_event) (s2 : Sv),
        messages_get svc (id message) (remote w) = (Returned msg, s1) ->
        fst (extract_event_details msg
               (called w s1 (MessagesGet (id message)) Answered))
        = Returned (Some details) ->
        fromisoformat (event_time details) = Some naive ->
        window svc naive = Some win ->
        events_list svc
          (duplicate_query (event_name details) (aware_isoformat (fst win))
             (aware_isoformat (snd win))) s1
        = (Returned items, s2) ->
        truthy items = true ->
        let run := process_message svc email1 email2 message n w in
        fst run = Returned n
        /\ insert_calls (calls (snd run)) = insert_calls (calls w)).
Proof.
  split; [|split].
  - intros event_name start_iso end_iso w.
    unfold check_existing_event. rewrite request_run. reflexivity.
  - intros details email1 email2 w naive win items s1 Hiso Hwin Hlist run check.
    subst run check. rewrite create_calendar_event_run, Hiso, Hwin. cbv zeta.
    rewrite Hlist. split.
    + intros Ht. destruct items as [|ev evs]; [discriminate|].
      split; reflexivity.
    + intros Ht. destruct items as [|ev evs]; [|discriminate].
      destruct (events_insert svc "primary" _ s1) as [[event|e] s2].
      * exists Answered. cbn [snd calls printed called]. now rewrite <- app_assoc.
      * exists (Failed e).
        destruct (is_HttpError e); cbn [snd calls printed called];
          now rewrite <- app_assoc.
  - intros email1 email2 message n w msg s1 details naive win items s2
      Hget Hextract Hiso Hwin Hlist Ht run. subst run.
    eapply process_message_duplicate; eauto.
Qed.

(** C7: whenever [create_calendar_event] calls insert, the call comes
    right after the duplicate check; the check asks for the window from
    the start to the end of the event, the inserted body carries the same
    two values, and the end is the start plus 3600 seconds, at the same
    UTC offset. *)
Theorem window_is_one_hour (Sv : Type) (svc : services Sv)
    (details : event_details) (email1 email2 : string) (w : world Sv) :
  exists new,
    calls (snd (create_calendar_event svc details email1 email2 w))
    = (calls w ++ new)%list
    /\ (insert_calls new = []
        \/ exists naive start_time end_time r,
             fromisoformat (event_time details) = Some naive
             /\ window svc naive = Some (start_time, end_time)
             /\ to_seconds (wall end_time) = (to_seconds (wall start_time) + 3600)%Z
             /\ utcoffset end_time = utcoffset start_time
             /\ instant end_time = (instant start_time + 3600)%Z
             /\ new =
                  [(EventsList
                      (mkevents_query "primary" (aware_isoformat start_time)
                         (aware_isoformat end_time) (event_name details) true
                         "startTime"), Answered);
                   (EventsInsert "primary"
                      (mkevent_body (event_name details)
                         (mkevent_time_zone (aware_isoformat start_time)
                            "America/Chicago")
                         (mkevent_time_zone (aware_isoformat end_time)
                            "America/Chicago")
                         [email1; email2]), r)]).
Proof.
  rewrite create_calendar_event_run.
  destruct (fromisoformat (event_time details)) as [naive|] eqn:Hiso;
    [|exists []; cbn; rewrite app_nil_r; auto].
  destruct (window svc naive) as [[st en]|] eqn:Hwin;
    [|exists []; cbn; rewrite app_nil_r; auto].
  assert (Hhour : to_seconds (wall en) = (to_seconds (wall st) + 3600)%Z
                  /\ utcoffset en = utcoffset st).
  { unfold window in Hwin. destruct (localize svc naive) as [st'|]; [|discriminate].
    unfold aware_add_seconds in Hwin.
    destruct (add_seconds (wall st') 3600) as [w'|] eqn:Ha; [|discriminate].
    injection Hwin as <- <-. apply add_seconds_spec in Ha as [_ Ha].
    split; [exact Ha | reflexivity]. }
  destruct Hhour as [Hsec Hoff].
  cbv zeta. cbn [fst snd].
  destruct (events_list svc _ (remote w)) as [[[|ev evs]|e] s1].
  - destruct (events_insert svc "primary" _ s1) as [[event|e] s2].
    + eexists. split.
      { cbn [snd calls printed called]. rewrite <- app_assoc. reflexivity. }
      right. exists naive, st, en, Answered.
      repeat split; auto. unfold instant. lia.
    + exists [(EventsList
                 (duplicate_query (event_name details) (aware_isoformat st)
                    (aware_isoformat en)), Answered);
              (EventsInsert "primary"
                 (event_for (event_name details) (st, en) email1 email2),
               Failed e)].
      split.
      { destruct (is_HttpError e); cbn [snd calls printed called];
          rewrite <- app_assoc; reflexivity. }
      right. exists naive, st, en, (Failed e).
      repeat split; auto. unfold instant. lia.
  - eexists [_]. split; [reflexivity|]. now left.
  - eexists [_]. split; [reflexivity|]. now left.
Qed.






(** What that run prints and calls. *)
Example demo_run :
  let run :=
    main (Fake.svc (-21600) (-21600)) "a@studio.example" "b@studio.example" "q" 6
      (Fake.start_world (Fake.mkstate Fake.demo_mailbox [])) in
  fst run = Returned tt
  /\ last (stdout (snd run)) "" = "Process completed. 1 events were created."
  /\ fetched (calls (snd run)) = ["m1"; "m2"; "m3"; "m4"]
  /\ inserted (calls (snd run)) = 1%Z
  /\ insert_calls (calls (snd run))
     = [mkevent_body "Beginners (White/Orng/Yellow)"
          (mkevent_time_zone "2025-01-11T09:00:00-06:00" "America/Chicago")
          (mkevent_time_zone "2025-01-11T10:00:00-06:00" "America/Chicago")
          ["a@studio.example"; "b@studio.example"]].
Proof. repeat split; vm_compute; reflexivity. Qed.

(** C9, as stated, fails: the connection drops while the first of four
    listed messages is fetched; the exception is not an [HttpError], the
    handler of the loop does not catch it, and the run ends there.  The
    three messages that remain are never fetched and no event is created,
    though the third one would have given an event. *)
Lemma dropped_fetch_aborts_the_batch :
  let run :=
    main (Fake.dropping "m1" (-21600) (-21600)) "a@studio.example"
      "b@studio.example" "q" 6
      (Fake.start_world (Fake.mkstate Fake.demo_mailbox [])) in
  fst run = Returned tt
  /\ stdout (snd run)
     = ["Found 4 messages."; "An unexpected error occurred: timed out"]
  /\ calls (snd run)
     = [(Authenticate, Answered); (MessagesList "q" 6, Answered);
        (MessagesGet "m1", Failed (OtherException "timed out"))].
Proof. repeat split; vm_compute; reflexivity. Qed.

(** C9 (amended): in the loop, a message from which no event details are
    extracted (the subject does not fit the template, or no format
    accepts its time), a message whose event is already in the calendar,
    and a message for which the fetch, the calendar query or the insert
    raises [HttpError] are each skipped: the loop body returns with the
    count unchanged, and the loop goes on with the messages that remain.
    (The calendar is called for an event whose window exists: the hour
    that is added stays within the range of [datetime].)
    A call that raises another exception is not handled in the loop: the
    exception leaves the loop body, which no [HttpError] ever does, and
    the loop with it, and the messages that remain are not processed. *)
Theorem failures_skip_and_continue (Sv : Type) (svc : services Sv)
    (email1 email2 : string) (message : message_ref)
    (messages : list message_ref) (n : Z) (w : world Sv) :
  let run := process_message svc email1 email2 message n w in
  (* the fetch fails *)
  (forall e s1,
     messages_get svc (id message) (remote w) = (Raised e, s1) ->
     fst run = if is_HttpError e then Returned n else Raised e)
  (* no details are extracted *)
  /\ (forall msg s1,
        messages_get svc (id message) (remote w) = (Returned msg, s1) ->
        fst (extract_event_details msg
               (called w s1 (MessagesGet (id message)) Answered))
        = Returned None ->
        fst run = Returned n)
  (* the event is there already, or a call to the calendar fails *)
  /\ (forall msg s1 details,
        messages_get svc (id message) (remote w) = (Returned msg, s1) ->
        fst (extract_event_details msg
               (called w s1 (MessagesGet (id message)) Answered))
        = Returned (Some details) ->
        forall naive win,
          fromisoformat (event_time details) = Some naive ->
          window svc naive = Some win ->
          let query :=
            duplicate_query (event_name details) (aware_isoformat (fst win))
              (aware_isoformat (snd win)) in
          (forall items s2,
             events_list svc query s1 = (Returned items, s2) ->
             truthy items = true -> fst run = Returned n)
          /\ (forall e s2,
                events_list svc query s1 = (Raised e, s2) ->
                fst run = if is_HttpError e then Returned n else Raised e)
          /\ (forall s2 e s3,
                events_list svc query s1 = (Returned [], s2) ->
                events_insert svc "primary"
                  (event_for (event_name details) win email1 email2) s2
                = (Raised e, s3) ->
                fst run = if is_HttpError e then Returned n else Raised e))
  (* an exception that leaves the loop body is no [HttpError], and it
     leaves the loop: the messages that remain are not processed *)
  /\ (forall e,
        fst run = Raised e ->
        is_HttpError e = false
        /\ for_messages svc email1 email2 (message :: messages) n w
           = (Raised e, snd run))
  (* after a message that is skipped or scheduled the loop goes on *)
  /\ (forall n1,
        fst run = Returned n1 ->
        for_messages svc email1 email2 (message :: messages) n w
        = for_messages svc email1 email2 messages n1 (snd run)).
Proof.
  cbv zeta. split; [|split; [|split; [|split]]].
  - intros e s1 Hget. rewrite process_message_run, Hget. cbv zeta.
    now destruct (is_HttpError e).
  - intros msg s1 Hget Hext. rewrite process_message_run, Hget. cbv zeta.
    destruct (extract_event_details msg _) as [[[d|]|e] w2];
      cbn [fst] in Hext; try discriminate. reflexivity.
  - intros msg s1 details Hget Hext naive win Hiso Hwin.
    destruct (extract_event_details_pure msg
                (called w s1 (MessagesGet (id message)) Answered))
      as (r & lines & E).
    pose proof Hext as Hext'. rewrite E in Hext'. cbn [fst] in Hext'.
    injection Hext' as ->.
    split; [|split].
    + intros items s2 Hlist Ht.
      apply (process_message_duplicate svc email1 email2 message n w msg s1
               details naive win items s2); assumption.
    + intros e s2 Hlist. rewrite process_message_run, Hget. cbv zeta.
      rewrite E, create_calendar_event_run, Hiso, Hwin. cbv zeta.
      cbn [remote printed called]. rewrite Hlist.
      now destruct (is_HttpError e).
    + intros s2 e s3 Hlist Hins. rewrite process_message_run, Hget. cbv zeta.
      rewrite E, create_calendar_event_run, Hiso, Hwin. cbv zeta.
      cbn [remote printed called]. rewrite Hlist, Hins.
      destruct (is_HttpError e) eqn:He; cbv beta iota zeta; rewrite ?He; reflexivity.
  - intros e He. split.
    + destruct (process_message_effect svc email1 email2 message n w)
        as (new & _ & _ & Hr).
      rewrite He in Hr. exact Hr.
    + cbn [for_messages]. unfold bind.
      destruct (process_message svc email1 email2 message n w) as [r w1].
      cbn [fst snd] in *. now subst r.
  - intros n1 Hn1. cbn [for_messages]. unfold bind.
    destruct (process_message svc email1 email2 message n w) as [r w1].
    cbn [fst snd] in *. now subst r.
Qed.

End SchedulerProperties.

(* ================================================================== *)
(** * The properties of the authentication *)
(* ================================================================== *)

Module AuthenticationProperties.

Import Auth AuthFacts.

(** X1: whatever the file system and the libraries answer, a run of
    [authenticate_gmail_and_calendar] writes no file but [token.json],
    and writes it only with the [to_json()] of credentials that
    [run_local_server] has returned in that run; a run that has
    refreshed the credentials with success writes nothing, so refreshed
    credentials are never saved. *)
Theorem token_written_only_by_new_flow (E F V : Type) (env : environment E F V)
    (w : world E F V) :
  exists new,
    events (snd (authenticate_gmail_and_calendar env w)) = (events w ++ new)%list
    /\ forall path content r,
         In (WriteFile path content r) new ->
         path = "token.json"
         /\ (exists flow creds,
               In (RunLocalServer flow 0 (Ok creds)) new
               /\ content = to_json creds)
         /\ (forall old refreshed, ~ In (Refresh old (Ok refreshed)) new).
Proof.
  each_path; added; (eexists; split; [reflexivity|]);
    intros ? ? ? Hin; in_cases.
  all: split; [reflexivity|split].
  all: try (do 2 eexists; split; [here | reflexivity]).
  all: intros ? ? ?; in_cases.
Qed.

(** X2: a run removes no file but [token.json], and removes it only
    after it has loaded from it credentials that are not valid, are
    expired and have a refresh token, and after the refresh of those
    credentials has raised an [Exception]; in such a run the services
    are built, if at all, with credentials of a new authentication
    flow. *)
Theorem token_removed_only_after_failed_refresh (E F V : Type)
    (env : environment E F V) (w : world E F V) :
  exists new,
    events (snd (authenticate_gmail_and_calendar env w)) = (events w ++ new)%list
    /\ forall path r,
         In (Remove path r) new ->
         path = "token.json"
         /\ (exists creds e,
               In (FromAuthorizedUserFile "token.json" SCOPES (Ok creds)) new
               /\ valid creds = false
               /\ expired creds = true
               /\ truthy (refresh_token creds) = true
               /\ In (Refresh creds (Exc e)) new
               /\ is_Exception e = true)
         /\ (forall serviceName version creds r',
               In (Build serviceName version creds r') new ->
               exists flow fresh,
                 creds = Some fresh
                 /\ In (RunLocalServer flow 0 (Ok fresh)) new).
Proof.
  each_path; added; (eexists; split; [reflexivity|]);
    intros ? ? Hin; in_cases.
  all: match goal with
       | H : (_ && _)%bool = true |- _ => apply andb_prop in H as [? ?]
       end.
  all: split; [reflexivity|split].
  all: try (do 2 eexists; split; [here|]; split; [eassumption|];
            split; [eassumption|]; split; [eassumption|];
            split; [here | eassumption]).
  all: intros ? ? ? ? Hin; in_cases; do 2 eexists; (split; [reflexivity | here]).
Qed.

(** X3: credentials loaded from the token file are used as they are,
    with no refresh and no new authentication flow, when they are valid
    and also when they are not valid but are not expired or have no
    refresh token: the run goes straight on to build the two services
    with them, after the line ["Existing credentials are valid."] in
    the first case and without a line in the second. *)
Theorem loaded_credentials_used_as_they_are (E F V : Type)
    (env : environment E F V) (w : world E F V) (e1 e2 : E)
    (creds : credentials) :
  path_exists env "token.json" (external w) = (true, e1) ->
  from_authorized_user_file env "token.json" SCOPES e1 = (Ok creds, e2) ->
  valid creds = true
  \/ expired creds = false \/ truthy (refresh_token creds) = false ->
  let w2 :=
    logged (logged w e1 (PathExists "token.json" true)) e2
      (FromAuthorizedUserFile "token.json" SCOPES (Ok creds)) in
  authenticate_gmail_and_calendar env w
  = build_services env (Some creds)
      (if valid creds then said w2 ["Existing credentials are valid."] else w2)
  /\ exists builds,
       events (snd (authenticate_gmail_and_calendar env w))
       = (events w2 ++ builds)%list
       /\ forall ev, In ev builds ->
                     exists serviceName version r,
                       ev = Build serviceName version (Some creds) r.
Proof.
  intros Hfound Hload Hc w2.
  assert (Hrun : authenticate_gmail_and_calendar env w
                 = build_services env (Some creds)
                     (if valid creds
                      then said w2 ["Existing credentials are valid."] else w2)).
  { rewrite authenticate_run, Hfound. cbv zeta. rewrite Hload.
    destruct (valid creds); [reflexivity|].
    destruct Hc as [Hc|[Hc|Hc]]; [discriminate| |]; rewrite Hc;
      rewrite ?andb_false_r; reflexivity. }
  split; [exact Hrun|]. rewrite Hrun, build_services_run. cbv zeta.
  assert (Hev : events (if valid creds
                        then said w2 ["Existing credentials are valid."] else w2)
                = events w2) by (destruct (valid creds); reflexivity).
  destruct (build env "gmail" "v1" (Some creds) _) as [[g|e] e3].
  - destruct (build env "calendar" "v3" (Some creds) e3) as [[c|e] e4].
    + eexists [_; _]. split.
      { cbn [snd events logged]. rewrite Hev, <- app_assoc. reflexivity. }
      intros ev Hin. in_cases; eauto.
    + exists [Build "gmail" "v1" (Some creds) (Ok g);
              Build "calendar" "v3" (Some creds) (Exc e)]. split.
      { destruct (is_HttpError e); cbn [snd events logged said];
          rewrite Hev, <- app_assoc; reflexivity. }
      intros ev Hin. in_cases; eauto.
  - exists [Build "gmail" "v1" (Some creds) (Exc e)]. split.
    { destruct (is_HttpError e); cbn [snd events logged said];
        rewrite Hev; reflexivity. }
    intros ev Hin. in_cases; eauto.
Qed.

(** On the machine whose token file holds credentials that are not valid
    and cannot be refreshed, the services are built with those
    credentials and nothing is printed. *)
Lemma loaded_credentials_used_as_they_are_witness :
  let creds := mkcredentials false false None "{stale}" in
  let w := Fake.start_world Fake.stale in
  let w2 :=
    logged (logged w Fake.stale (PathExists "token.json" true)) Fake.stale
      (FromAuthorizedUserFile "token.json" SCOPES (Ok creds)) in
  authenticate_gmail_and_calendar Fake.env w
  = build_services Fake.env (Some creds)
      (if valid creds then said w2 ["Existing credentials are valid."] else w2)
  /\ exists builds,
       events (snd (authenticate_gmail_and_calendar Fake.env w))
       = (events w2 ++ builds)%list
       /\ forall ev, In ev builds ->
                     exists serviceName version r,
                       ev = Build serviceName version (Some creds) r.
Proof.
  apply (loaded_credentials_used_as_they_are Fake.state unit string Fake.env
           (Fake.start_world Fake.stale) Fake.stale Fake.stale
           (mkcredentials false false None "{stale}")).
  - reflexivity.
  - reflexivity.
  - right. left. reflexivity.
Defined.

(** X4: an exception that leaves [authenticate_gmail_and_calendar] comes
    from the last call the run has made.  It is [SystemExit(1)], after a
    last line that says why, when that call belongs to the new
    authentication flow and raised [FileNotFoundError], or is a [build]
    and raised [HttpError]; in every other case it is the exception the
    call raised, unchanged, and when the call is the refresh it is not an
    [Exception]. *)
Theorem exceptions_of_authentication (E F V : Type) (env : environment E F V)
    (w : world E F V) (e : error) :
  fst (authenticate_gmail_and_calendar env w) = Exc e ->
  exists earlier ev e0,
    events (snd (authenticate_gmail_and_calendar env w))
    = (events w ++ earlier ++ [ev])%list
    /\ raised ev = Some e0
    /\ if turned_into_exit ev e0
       then e = Error (Script.SystemExit 1)
            /\ exists lines,
                 stdout (snd (authenticate_gmail_and_calendar env w))
                 = (stdout w ++ lines
                    ++ [if is_build ev then building_failed e0
                        else credentials_not_found])%list
       else e = e0
            /\ match ev with
               | Refresh _ _ => is_Exception e0 = false
               | _ => True
               end.
Proof.
  each_path; added; intros He; try discriminate He;
    injection He as <-.
  all: match goal with
       | |- context [(events _ ++ ?l)%list] =>
           exists (removelast l), (last l (PathExists "" false))
       end; cbn [removelast last]; cbn [app].
  all: eexists; split; [reflexivity|]; split; [reflexivity|].
  all: unfold turned_into_exit; cbn [in_new_flow is_build andb orb];
    rewrite ?andb_false_r, ?orb_false_r;
    repeat match goal with H : _ = _ |- _ => rewrite H end;
    cbn [andb orb].
  all: try (split; [reflexivity|]).
  all: try exact I.
  all: try reflexivity.
  all: match goal with
       | |- exists _, (_ ++ ?l)%list = _ => exists (removelast l)
       end; reflexivity.
Qed.

(** On the machine with nothing on it the run ends with [SystemExit(1)]:
    there is no [credentials.json]. *)
Lemma exceptions_of_authentication_witness :
  let run := authenticate_gmail_and_calendar Fake.env (Fake.start_world Fake.bare) in
  fst run = Exc (Error (Script.SystemExit 1))
  /\ exists earlier ev e0,
       events (snd run) = (events (Fake.start_world Fake.bare) ++ earlier ++ [ev])%list
       /\ raised ev = Some e0
       /\ if turned_into_exit ev e0
          then Error (Script.SystemExit 1) = Error (Script.SystemExit 1)
               /\ exists lines,
                    stdout (snd run)
                    = (stdout (Fake.start_world Fake.bare) ++ lines
                       ++ [if is_build ev then building_failed e0
                           else credentials_not_found])%list
          else Error (Script.SystemExit 1) = e0
               /\ match ev with
                  | Refresh _ _ => is_Exception e0 = false
                  | _ => True
                  end.
Proof.
  split; [reflexivity|].
  apply (exceptions_of_authentication Fake.state unit string Fake.env
           (Fake.start_world Fake.bare) (Error (Script.SystemExit 1))).
  reflexivity.
Defined.

(** X5: when [authenticate_gmail_and_calendar] returns, the last two
    calls of the run have built the Gmail service, version 1, and then
    the Calendar service, version 3, the two it returns, with the same
    credentials and never without credentials; no service was built
    before; and the credentials are those loaded from the token file,
    those a refresh has returned, or those of a new authentication flow,
    which the run has then written to the token file. *)
Theorem services_built_with_the_same_credentials (E F V : Type)
    (env : environment E F V) (w : world E F V) (gmail calendar : V) :
  fst (authenticate_gmail_and_calendar env w) = Ok (gmail, calendar) ->
  exists earlier creds,
    events (snd (authenticate_gmail_and_calendar env w))
    = (events w ++ earlier
       ++ [Build "gmail" "v1" (Some creds) (Ok gmail);
           Build "calendar" "v3" (Some creds) (Ok calendar)])%list
    /\ (forall ev, In ev earlier -> is_build ev = false)
    /\ (In (FromAuthorizedUserFile "token.json" SCOPES (Ok creds)) earlier
        \/ (exists old, In (Refresh old (Ok creds)) earlier)
        \/ (exists flow u,
              In (RunLocalServer flow 0 (Ok creds)) earlier
              /\ In (WriteFile "token.json" (to_json creds) (Ok u)) earlier)).
Proof.
  each_path; added; intros He; try discriminate He;
    injection He as <- <-.
  all: match goal with
       | |- context [(events _ ++ ?l)%list] =>
           exists (removelast (removelast l))
       end; cbn [removelast]; eexists; (split; [reflexivity|]).
  all: split; [intros ? Hin; in_cases; reflexivity|].
  all: first [ left; here
             | right; left; eexists; here
             | right; right; do 2 eexists; (split; here) ].
Qed.

(** On the machine whose token file holds valid credentials the two
    services are built with them. *)
Lemma services_built_with_the_same_credentials_witness :
  let run := authenticate_gmail_and_calendar Fake.env (Fake.start_world Fake.ready) in
  fst run = Ok ("gmail v1", "calendar v3")
  /\ exists earlier creds,
       events (snd run)
       = (events (Fake.start_world Fake.ready) ++ earlier
          ++ [Build "gmail" "v1" (Some creds) (Ok "gmail v1");
              Build "calendar" "v3" (Some creds) (Ok "calendar v3")])%list
       /\ (forall ev, In ev earlier -> is_build ev = false)
       /\ (In (FromAuthorizedUserFile "token.json" SCOPES (Ok creds)) earlier
           \/ (exists old, In (Refresh old (Ok creds)) earlier)
           \/ (exists flow u,
                 In (RunLocalServer flow 0 (Ok creds)) earlier
                 /\ In (WriteFile "token.json" (to_json creds) (Ok u)) earlier)).
Proof.
  split; [reflexivity|].
  apply (services_built_with_the_same_credentials Fake.state unit string Fake.env
           (Fake.start_world Fake.ready) "gmail v1" "calendar v3").
  reflexivity.
Defined.

(** X6: when the authentication raises, [main] makes no call to the
    mail or the calendar service.  An exception that is not an
    [Exception], as the [SystemExit] of [sys.exit(1)], passes through the
    handler of [main], which prints nothing; any other one is printed as
    an unexpected error and [main] returns. *)
Theorem failed_authentication_ends_the_run (E F V : Type)
    (env : environment E F V) (svc : Script.services (world E F V))
    (email1 email2 query : string) (max_messages : Z)
    (w : Script.world (world E F V)) (e : error) :
  fst (authenticate_gmail_and_calendar env (Script.remote w)) = Exc e ->
  let run :=
    Script.main (with_authentication env svc) email1 email2 query max_messages w in
  Script.calls (snd run)
  = (Script.calls w ++ [(Script.Authenticate, Script.Failed (to_exn e))])%list
  /\ Script.remote (snd run)
     = snd (authenticate_gmail_and_calendar env (Script.remote w))
  /\ (is_Exception e = false ->
        fst run = Script.Raised (to_exn e)
        /\ Script.stdout (snd run) = Script.stdout w)
  /\ (is_Exception e = true ->
        fst run = Script.Returned tt
        /\ Script.stdout (snd run)
           = (Script.stdout w ++ [Spec.unexpected (to_exn e)])%list).
Proof.
  intros He run. subst run. rewrite SchedulerFacts.main_run.
  cbn [with_authentication Script.authenticate]. unfold as_step.
  destruct (authenticate_gmail_and_calendar env (Script.remote w)) as [[v|e'] w'].
  - discriminate He.
  - cbn [fst] in He. injection He as ->. unfold Spec.outer_handler.
    rewrite is_Exception_to_exn. cbn [snd].
    destruct (is_Exception e); repeat split; intros; try discriminate;
      reflexivity.
Qed.

(** On the machine with nothing on it [main] ends with [SystemExit(1)]
    and calls neither service. *)
Lemma failed_authentication_ends_the_run_witness :
  let w := Script.mkworld (Fake.start_world Fake.bare) [] [] in
  let run :=
    Script.main (with_authentication Fake.env Fake.empty_services)
      "a@studio.example" "b@studio.example" "q" 6 w in
  fst run = Script.Raised (Script.SystemExit 1)
  /\ Script.calls (snd run)
     = (Script.calls w
        ++ [(Script.Authenticate,
             Script.Failed (to_exn (Error (Script.SystemExit 1))))])%list
  /\ Script.remote (snd run)
     = snd (authenticate_gmail_and_calendar Fake.env (Script.remote w))
  /\ (is_Exception (Error (Script.SystemExit 1)) = false ->
        fst run = Script.Raised (to_exn (Error (Script.SystemExit 1)))
        /\ Script.stdout (snd run) = Script.stdout w)
  /\ (is_Exception (Error (Script.SystemExit 1)) = true ->
        fst run = Script.Returned tt
        /\ Script.stdout (snd run)
           = (Script.stdout w
              ++ [Spec.unexpected (to_exn (Error (Script.SystemExit 1)))])%list).
Proof.
  split; [reflexivity|].
  apply (failed_authentication_ends_the_run Fake.state unit string Fake.env
           Fake.empty_services "a@studio.example" "b@studio.example" "q" 6
           (Script.mkworld (Fake.start_world Fake.bare) [] [])
           (Error (Script.SystemExit 1))).
  reflexivity.
Defined.

End AuthenticationProperties.

(* ================================================================== *)
(** * The properties of whole runs *)
(* ================================================================== *)

Module RunProperties.
Import Datetime Script Spec Runs Memory DatetimeFacts ExtractFacts SchedulerFacts
  RunFacts MemoryFacts.


(** X8: the loop fetches the listed messages in their order, each at
    most once, and stops at the first exception that is not an
    [HttpError]: the messages fetched are a beginning of the list, and
    all of it when the loop returns.  It makes at most one insert for a
    message it has fetched, and the count it returns is the initial count
    plus the inserts that were answered, so at most the initial count plus
    the number of messages. *)
Theorem loop_fetches_a_prefix (Sv : Type) (svc : services Sv)
    (email1 email2 : string) (messages : list message_ref) (n : Z)
    (w : world Sv) :
  exists new,
    calls (snd (for_messages svc email1 email2 messages n w))
    = (calls w ++ new)%list
    /\ prefix (fetched new) (map id messages)
    /\ (List.length (insert_calls new) <= List.length (fetched new))%nat
    /\ (0 <= inserted new <= Z.of_nat (List.length (insert_calls new)))%Z
    /\ match fst (for_messages svc email1 email2 messages n w) with
       | Returned n' =>
           fetched new = map id messages
           /\ n' = (n + inserted new)%Z
           /\ (n <= n' <= n + Z.of_nat (List.length messages))%Z
       | Raised e => is_HttpError e = false
       end.
Proof.
  revert n w. induction messages as [|m ms IH]; intros n w.
  - exists []. cbn. rewrite app_nil_r. repeat split; try lia.
    exists []. reflexivity.
  - cbn [for_messages]. unfold bind.
    destruct (process_message_calls svc email1 email2 m n w)
      as (new1 & Hc1 & Hf1 & Hl1 & Hi1 & Hr1).
    destruct (process_message svc email1 email2 m n w) as [[n1|e] w1];
      cbn [fst snd] in *.
    + destruct (IH n1 w1) as (new2 & Hc2 & [rest Hp2] & Hl2 & Hi2 & Hr2).
      exists (new1 ++ new2)%list. rewrite Hc2, Hc1, app_assoc.
      rewrite !insert_calls_app, !fetched_app, inserted_app, !length_app, Hf1.
      split; [reflexivity|]. split.
      { exists rest. cbn [map app]. now rewrite Hp2. }
      split; [cbn [List.length]; lia|]. split; [lia|].
      destruct (fst (for_messages svc email1 email2 ms n1 w1)); [|exact Hr2].
      destruct Hr2 as (Hf2 & -> & Hb). rewrite Hf2. cbn [map app List.length].
      repeat split; lia.
    + exists new1. rewrite Hf1. split; [exact Hc1|]. split.
      { exists (map id ms). reflexivity. }
      cbn [List.length]. repeat split; auto; lia.
Qed.

(** X9: when the list retrieval raises [HttpError],
    [get_confirmation_emails] prints the error and returns no messages,
    and [main] ends as for an empty mailbox: it prints
    ["No messages found. Exiting program."] and returns, having fetched no
    message and called the calendar not at all. *)
Theorem failed_listing_reads_as_no_messages (Sv : Type) (svc : services Sv)
    (email1 email2 query : string) (max_messages : Z) (w : world Sv)
    (u : unit) (s0 s1 : Sv) (text : string) :
  authenticate svc (remote w) = (Returned u, s0) ->
  messages_list svc query max_messages s0 = (Raised (HttpError text), s1) ->
  main svc email1 email2 query max_messages w
  = (Returned tt,
     mkworld s1
       (stdout w ++ [("An error occurred while fetching emails: " ++ text)%string;
                     "No messages found. Exiting program."])%list
       (calls w ++ [(Authenticate, Answered);
                    (MessagesList query max_messages,
                     Failed (HttpError text))])%list).
Proof.
  intros Ha Hl. rewrite main_run, Ha, get_confirmation_emails_run.
  cbv zeta. cbn [remote called]. rewrite Hl. cbn [is_HttpError].
  unfold printed, called. cbn [remote stdout calls str_of_exn].
  now rewrite <- !app_assoc.
Qed.

(** The services that cannot be reached are an instance. *)
Lemma failed_listing_reads_as_no_messages_witness :
  main offline "a@studio.example" "b@studio.example" "q" 6 blank
  = (Returned tt,
     mkworld tt
       (stdout blank
        ++ [("An error occurred while fetching emails: "
             ++ "503 Service Unavailable")%string;
            "No messages found. Exiting program."])%list
       (calls blank
        ++ [(Authenticate, Answered);
            (MessagesList "q" 6, Failed (HttpError "503 Service Unavailable"))])%list).
Proof.
  exact (failed_listing_reads_as_no_messages unit offline "a@studio.example"
           "b@studio.example" "q" 6 blank tt tt tt "503 Service Unavailable"
           eq_refl eq_refl).
Defined.

(** X10: for a naive time of the years 2 to 9998, with UTC offsets of
    less than a day as every [tzinfo] has them, the conversion to
    America/Chicago and the addition of the hour stay within the range of
    [datetime]: [create_calendar_event] does not raise [OverflowError]
    but reaches the duplicate check, which it asks over the window of the
    event. *)
Theorem window_exists_far_from_the_ends (Sv : Type) (svc : services Sv)
    (naive : datetime) (myoffset : Z) :
  valid naive = true ->
  (2 <= year naive <= 9998)%Z ->
  local_utcoffset svc naive = Some myoffset ->
  (- 86400 < myoffset < 86400)%Z ->
  (forall utc, (- 86400 < chicago_utcoffset svc utc < 86400)%Z) ->
  exists start_time end_time,
    window svc naive = Some (start_time, end_time)
    /\ forall (event_name email1 email2 : string) (w : world Sv),
         exists r more,
           calls (snd (create_calendar_event svc
                         (mkevent_details event_name (isoformat naive))
                         email1 email2 w))
           = (calls w
              ++ (EventsList
                    (duplicate_query event_name (aware_isoformat start_time)
                       (aware_isoformat end_time)), r) :: more)%list.
Proof.
  intros V Hy Hoff Hmy Hch.
  pose proof (to_seconds_bounds naive 2 9998 V Hy) as B.
  change (days_before_year 2) with 365%Z in B.
  change (days_before_year (9998 + 1)) with 3651694%Z in B.
  destruct (add_seconds_some naive (- myoffset)) as [utc Hu].
  { unfold MAXORDINAL. lia. }
  pose proof (add_seconds_spec _ _ _ Hu) as [Vu Eu].
  specialize (Hch utc).
  destruct (add_seconds_some utc (chicago_utcoffset svc utc)) as [local Hl].
  { unfold MAXORDINAL. lia. }
  pose proof (add_seconds_spec _ _ _ Hl) as [Vl El].
  destruct (add_seconds_some local 3600) as [en He].
  { unfold MAXORDINAL. lia. }
  assert (Hwin : window svc naive
                 = Some (mkaware local (chicago_utcoffset svc utc),
                         mkaware en (chicago_utcoffset svc utc))).
  { unfold window, localize, aware_add_seconds. rewrite Hoff, Hu, Hl.
    cbn [wall utcoffset]. now rewrite He. }
  eexists _, _. split; [exact Hwin|].
  intros event_name email1 email2 w.
  rewrite create_calendar_event_run. cbn [event_time Script.event_name].
  rewrite (fromisoformat_isoformat naive V), Hwin. cbv zeta. cbn [fst snd].
  destruct (events_list svc _ (remote w)) as [[[|ev evs]|e] s1].
  - destruct (events_insert svc "primary" _ s1) as [[event|e] s2].
    + eexists _, [_]. cbn [snd calls printed called]. now rewrite <- app_assoc.
    + eexists _, [_].
      destruct (is_HttpError e); cbn [snd calls printed called];
        now rewrite <- app_assoc.
  - eexists _, []. reflexivity.
  - eexists _, []. reflexivity.
Qed.

(** The time of the first scenario, on a machine in Chicago in winter,
    is an instance. *)
Lemma window_exists_far_from_the_ends_witness :
  exists start_time end_time,
    window (Fake.svc (-21600) (-21600)) (mkdatetime 2025 1 11 9 0 0)
    = Some (start_time, end_time)
    /\ forall (event_name email1 email2 : string) (w : world Fake.state),
         exists r more,
           calls (snd (create_calendar_event (Fake.svc (-21600) (-21600))
                         (mkevent_details event_name
                            (isoformat (mkdatetime 2025 1 11 9 0 0)))
                         email1 email2 w))
           = (calls w
              ++ (EventsList
                    (duplicate_query event_name (aware_isoformat start_time)
                       (aware_isoformat end_time)), r) :: more)%list.
Proof.
  apply (window_exists_far_from_the_ends Fake.state (Fake.svc (-21600) (-21600))
           (mkdatetime 2025 1 11 9 0 0) (-21600)).
  - reflexivity.
  - simpl. lia.
  - reflexivity.
  - lia.
  - intros utc. simpl. lia.
Defined.

(** At the end of the year 9999 the hour that is added leaves the range:
    there is no window, and [create_calendar_event] raises before it
    calls the calendar. *)
Example no_window_at_the_end_of_9999 :
  let naive := mkdatetime 9999 12 31 23 30 0 in
  window (Fake.svc 0 0) naive = None
  /\ create_calendar_event (Fake.svc 0 0)
       (mkevent_details "Party" (isoformat naive)) "a@studio.example"
       "b@studio.example" (Fake.start_world (Fake.mkstate [] []))
     = (Raised (OtherException "date value out of range"),
        Fake.start_world (Fake.mkstate [] [])).
Proof. split; vm_compute; reflexivity. Qed.

(** X15: with a calendar that remembers (no call makes it forget an
    event, an answered insert leaves the event in it, and the query of
    the duplicate check for an event it holds finds something), a run of
    [main] never inserts the same event twice and never inserts an event
    the calendar held when the run began: the inserts the calendar has
    answered differ from one another and from the events held before in
    name, start or end, and the calendar holds them, and all it held
    before, when the run ends. *)
Theorem no_event_is_inserted_twice (Sv : Type) (svc : services Sv)
    (holds : event_body -> Sv -> Prop)
    (email1 email2 query : string) (max_messages : Z) (w : world Sv) :
  remembers svc holds ->
  exists new,
    calls (snd (main svc email1 email2 query max_messages w))
    = (calls w ++ new)%list
    /\ (forall b,
          holds b (remote w) ->
          holds b (remote (snd (main svc email1 email2 query max_messages w))))
    /\ NoDup (map event_key (answered_inserts new))
    /\ forall body,
         In body (answered_inserts new) ->
         holds body (remote (snd (main svc email1 email2 query max_messages w)))
         /\ forall b, holds b (remote w) -> event_key b <> event_key body.
Proof.
  intros calendar. fold (leaves holds w (main svc email1 email2 query max_messages w)).
  rewrite main_run.
  assert (Hout : forall e (w' : world Sv),
            calls (snd (outer_handler e w')) = calls w'
            /\ remote (snd (outer_handler e w')) = remote w').
  { intros e w'. unfold outer_handler. now destruct (is_Exception e). }
  pose proof (fun b => kept_by_authenticate svc holds calendar b (remote w)) as Kauth.
  destruct (authenticate svc (remote w)) as [[u|e] s0]; cbn [snd] in Kauth.
  2:{ destruct (Hout e (called w s0 Authenticate (Failed e))) as [Hc Hr].
      apply (leaves_nothing _ _ _ [(Authenticate, Failed e)]);
        rewrite ?Hc, ?Hr; auto. }
  rewrite get_confirmation_emails_run. cbv zeta. cbn [remote called].
  pose proof (fun b => kept_by_messages_list svc holds calendar b query
                         max_messages s0) as Klist.
  destruct (messages_list svc query max_messages s0) as [[[|m ms]|e] s1];
    cbn [snd] in Klist.
  - apply (leaves_nothing _ _ _
             [(Authenticate, Answered); (MessagesList query max_messages, Answered)]).
    + cbn [snd calls printed called]. now rewrite <- !app_assoc.
    + reflexivity.
    + cbn [snd remote printed called]. auto.
  - match goal with
    | |- context [for_messages svc email1 email2 (m :: ms) 0 ?w1] =>
        pose proof (for_messages_leaves svc holds calendar email1 email2
                      (m :: ms) 0 w1) as Hloop;
        assert (Hpre : leaves holds w (@Returned unit tt, w1))
    end.
    { apply (leaves_nothing _ _ _
               [(Authenticate, Answered); (MessagesList query max_messages, Answered)]).
      - cbn [snd calls printed called]. now rewrite <- !app_assoc.
      - reflexivity.
      - cbn [snd remote printed called]. auto. }
    destruct (for_messages svc email1 email2 (m :: ms) 0 _) as [[n|e] w2].
    + pose proof (leaves_then holds w _ _ Hpre Hloop) as (new & Hc & Hk & Hn & Hi).
      exists new. cbn [snd calls remote printed] in *. auto.
    + pose proof (leaves_then holds w _ _ Hpre Hloop) as (new & Hc & Hk & Hn & Hi).
      destruct (Hout e w2) as [Hc' Hr'].
      exists new. rewrite Hc', Hr'. cbn [snd] in *. auto.
  - destruct (is_HttpError e).
    + apply (leaves_nothing _ _ _
               [(Authenticate, Answered);
                (MessagesList query max_messages, Failed e)]).
      * cbn [snd calls printed called]. now rewrite <- !app_assoc.
      * reflexivity.
      * cbn [snd remote printed called]. auto.
    + destruct (Hout e (called (called w s0 Authenticate Answered) s1
                          (MessagesList query max_messages) (Failed e)))
        as [Hc Hr].
      apply (leaves_nothing _ _ _
               [(Authenticate, Answered);
                (MessagesList query max_messages, Failed e)]);
        rewrite ?Hc, ?Hr.
      * cbn [snd calls printed called]. now rewrite <- !app_assoc.
      * reflexivity.
      * cbn [snd remote printed called]. auto.
Qed.

(** The calendar held in memory is an instance, with the mailbox in
    which the same confirmation comes twice. *)
Lemma no_event_is_inserted_twice_witness :
  let run :=
    main (Fake.svc (-21600) (-21600)) "a@studio.example" "b@studio.example" "q" 6
      (Fake.start_world (Fake.mkstate Fake.demo_mailbox [])) in
  List.length (answered_inserts (calls (snd run))) = 1%nat
  /\ exists new,
       calls (snd run)
       = (calls (Fake.start_world (Fake.mkstate Fake.demo_mailbox [])) ++ new)%list
       /\ (forall b,
             in_calendar b
               (remote (Fake.start_world (Fake.mkstate Fake.demo_mailbox []))) ->
             in_calendar b (remote (snd run)))
       /\ NoDup (map event_key (answered_inserts new))
       /\ forall body,
            In body (answered_inserts new) ->
            in_calendar body (remote (snd run))
            /\ forall b,
                 in_calendar b
                   (remote (Fake.start_world (Fake.mkstate Fake.demo_mailbox []))) ->
                 event_key b <> event_key body.
Proof.
  split; [vm_compute; reflexivity|].
  apply (no_event_is_inserted_twice Fake.state (Fake.svc (-21600) (-21600))
           in_calendar "a@studio.example" "b@studio.example" "q" 6
           (Fake.start_world (Fake.mkstate Fake.demo_mailbox []))).
  apply fake_remembers.
Defined.

End RunProperties.

(* ================================================================== *)
(** * From a confirmation mail to its event *)
(* ================================================================== *)

Module PipelineProperties.
Import Datetime Script Spec Runs Memory PyStr PyStrFacts DatetimeFacts StrptimeFacts
  ShapeFacts ExtractFacts SchedulerFacts RunFacts MemoryFacts.

(** X16: a message that is fetched, whose first subject header is the
    marker, a name, the separator and a time one of the formats accepts
    (the marker occurring nowhere else, the separator not before the end
    of the name), and for whose window the calendar lists no event of that
    name, gets exactly one event, when the insert is answered: three calls
    are made, the fetch, the duplicate check and the insert into [primary]
    of the stripped name over the window of the parsed time; five lines
    are printed, the last one the link of the created event; and the count
    of created events goes up by one. *)
Theorem template_message_is_scheduled (Sv : Type) (svc : services Sv)
    (email1 email2 : string) (message : message_ref) (n : Z) (w : world Sv)
    (msg : RawMessage) (name time : string) (dt : datetime)
    (win : aware * aware) (event : calendar_event) (s1 s2 s3 : Sv) :
  messages_get svc (id message) (remote w) = (Returned msg, s1) ->
  find_subject msg = Some (marker ++ name ++ separator ++ time) ->
  contains separator (name ++ " on") = false ->
  contains marker (name ++ separator ++ time) = false ->
  try_formats (strip time) formats = Some dt ->
  window svc dt = Some win ->
  events_list svc
    (duplicate_query (strip name) (aware_isoformat (fst win))
       (aware_isoformat (snd win))) s1 = (Returned [], s2) ->
  events_insert svc "primary" (event_for (strip name) win email1 email2) s2
  = (Returned event, s3) ->
  process_message svc email1 email2 message n w
  = (Returned (n + 1)%Z,
     mkworld s3
       (stdout w
        ++ ["Subject Line:"; (marker ++ name ++ separator ++ time)%string;
            ("Extracted Event Name: " ++ strip name)%string;
            ("Extracted Event Time: " ++ strip time)%string;
            event_created event])%list
       (calls w
        ++ [(MessagesGet (id message), Answered);
            (EventsList
               (duplicate_query (strip name) (aware_isoformat (fst win))
                  (aware_isoformat (snd win))), Answered);
            (EventsInsert "primary" (event_for (strip name) win email1 email2),
             Answered)])%list).
Proof.
  intros Hget Hsubject Hname Hmarker Hparse Hwin Hlist Hinsert.
  pose proof (accepted_time_has_no_separator time dt Hparse) as Htime.
  assert (V : valid dt = true).
  { apply try_formats_some in Hparse as (i & fmt & _ & Hp & _).
    now apply strptime_valid in Hp. }
  rewrite process_message_run, Hget. cbv zeta.
  rewrite (extract_event_details_run msg _ _ Hsubject) by discriminate.
  unfold try_except.
  rewrite (extract_from_subject_run _ name time (name ++ separator ++ time) "" []).
  2:{ now apply split_marker_leading. }
  2:{ now apply split_separator_template. }
  rewrite Hparse, create_calendar_event_run. cbn [event_time event_name].
  rewrite (fromisoformat_isoformat dt V), Hwin. cbv zeta.
  cbn [remote printed called]. rewrite Hlist, Hinsert.
  unfold printed, called. cbn [remote stdout calls].
  now rewrite <- !app_assoc.
Qed.

(** The first mail of the demonstration mailbox, on a machine in Chicago
    in winter with an empty calendar, is an instance. *)
Lemma template_message_is_scheduled_witness :
  let svc := Fake.svc (-21600) (-21600) in
  let box := Fake.mkstate Fake.demo_mailbox [] in
  let name := "Beginners (White/Orng/Yellow)" in
  let time := "Saturday, January 11, 2025 9:00 AM" in
  let win := (mkaware (mkdatetime 2025 1 11 9 0 0) (-21600),
              mkaware (mkdatetime 2025 1 11 10 0 0) (-21600)) in
  let body := event_for name win "a@studio.example" "b@studio.example" in
  process_message svc "a@studio.example" "b@studio.example" (mkmessage_ref "m1") 0
    (Fake.start_world box)
  = (Returned (0 + 1)%Z,
     mkworld (Fake.mkstate Fake.demo_mailbox [body])
       (stdout (Fake.start_world box)
        ++ ["Subject Line:"; (marker ++ name ++ separator ++ time)%string;
            ("Extracted Event Name: " ++ strip name)%string;
            ("Extracted Event Time: " ++ strip time)%string;
            event_created (Fake.resource body)])%list
       (calls (Fake.start_world box)
        ++ [(MessagesGet "m1", Answered);
            (EventsList
               (duplicate_query (strip name) (aware_isoformat (fst win))
                  (aware_isoformat (snd win))), Answered);
            (EventsInsert "primary"
               (event_for (strip name) win "a@studio.example" "b@studio.example"),
             Answered)])%list).
Proof.
  cbv zeta.
  apply (template_message_is_scheduled Fake.state (Fake.svc (-21600) (-21600))
           "a@studio.example" "b@studio.example" (mkmessage_ref "m1") 0
           (Fake.start_world (Fake.mkstate Fake.demo_mailbox []))
           Fake.beginners "Beginners (White/Orng/Yellow)"
           "Saturday, January 11, 2025 9:00 AM" (mkdatetime 2025 1 11 9 0 0)
           _ _ (Fake.mkstate Fake.demo_mailbox []) (Fake.mkstate Fake.demo_mailbox [])).
  - reflexivity.
  - reflexivity.
  - vm_compute; reflexivity.
  - vm_compute; reflexivity.
  - vm_compute; reflexivity.
  - vm_compute; reflexivity.
  - vm_compute; reflexivity.
  - vm_compute; reflexivity.
Defined.

End PipelineProperties.

(* ================================================================== *)
(** * The properties of the extraction and of the parser *)
(* ================================================================== *)

Module ExtractionProperties.

Import Datetime Script Spec PyStr PyStrFacts DatetimeFacts StrptimeFacts
  ExtractFacts PieceFacts ExtractionFacts.

(** X11: whatever event details [extract_event_details] returns come
    from a subject line of the template: the piece of the subject after
    the marker is [<name> on <time>] with [" on "] in neither part, the
    trimmed [<time>] is parsed by one of the formats to a time [dt] that
    exists, with its seconds at zero, the event name is the trimmed
    [<name>], which holds neither [" on "] nor the marker and has no
    white space around it, and the event time is [dt] in ISO format,
    which [fromisoformat] in [create_calendar_event] reads back as
    [dt]. *)
Theorem extracted_details_fit_the_template (Sv : Type) (msg : RawMessage)
    (w w' : world Sv) (details : event_details) :
  extract_event_details msg w = (Returned (Some details), w') ->
  exists subject name time dt,
    find_subject msg = Some subject
    /\ contains marker subject = true
    /\ extracted_portion subject = name ++ separator ++ time
    /\ contains separator name = false
    /\ contains separator time = false
    /\ try_formats (strip time) formats = Some dt
    /\ valid dt = true /\ second dt = 0%Z
    /\ details = mkevent_details (strip name) (isoformat dt)
    /\ fromisoformat (event_time details) = Some dt
    /\ strip (event_name details) = event_name details
    /\ contains separator (event_name details) = false
    /\ contains marker (event_name details) = false.
Proof.
  intros H.
  destruct (extract_event_details_some msg w w' details H)
    as (subject & before & portion & more & name & time & dt
        & Hf & Hm & Hs & Ht & -> & _).
  assert (Hportion : extracted_portion subject = portion).
  { unfold extracted_portion. now rewrite Hm. }
  assert (Hname : contains separator name = false).
  { apply (split_pieces separator portion); [apply separator_nonempty|].
    rewrite Hs. now left. }
  assert (Htime : contains separator time = false).
  { apply (split_pieces separator portion); [apply separator_nonempty|].
    rewrite Hs. right. now left. }
  assert (Hmark : contains marker portion = false).
  { apply (split_pieces marker subject); [apply marker_nonempty|].
    rewrite Hm. right. now left. }
  pose proof (split_two separator portion name time separator_nonempty Hs) as Hp.
  assert (Hdt : valid dt = true /\ second dt = 0%Z).
  { apply try_formats_some in Ht as (i & fmt & _ & Hparse & _).
    eapply strptime_valid; eauto. }
  destruct Hdt as [V S0].
  exists subject, name, time, dt. cbn [event_name event_time].
  repeat split; auto.
  - destruct (contains marker subject) eqn:Hc; [reflexivity|].
    rewrite (split_absent _ _ Hc) in Hm. discriminate.
  - now rewrite Hportion.
  - now apply fromisoformat_isoformat.
  - apply strip_strip.
  - now apply contains_strip.
  - apply contains_strip. rewrite Hp in Hmark.
    apply (contains_inside marker "" name (separator ++ time)). exact Hmark.
Qed.

(** The subject of the first scenario is an instance. *)
Lemma extracted_details_fit_the_template_witness :
  exists subject name time dt,
    find_subject Fake.beginners = Some subject
    /\ contains marker subject = true
    /\ extracted_portion subject = name ++ separator ++ time
    /\ contains separator name = false
    /\ contains separator time = false
    /\ try_formats (strip time) formats = Some dt
    /\ valid dt = true /\ second dt = 0%Z
    /\ mkevent_details "Beginners (White/Orng/Yellow)" "2025-01-11T09:00:00"
       = mkevent_details (strip name) (isoformat dt)
    /\ fromisoformat
         (event_time
            (mkevent_details "Beginners (White/Orng/Yellow)" "2025-01-11T09:00:00"))
       = Some dt
    /\ strip (event_name
                (mkevent_details "Beginners (White/Orng/Yellow)"
                   "2025-01-11T09:00:00"))
       = event_name
           (mkevent_details "Beginners (White/Orng/Yellow)" "2025-01-11T09:00:00")
    /\ contains separator
         (event_name
            (mkevent_details "Beginners (White/Orng/Yellow)" "2025-01-11T09:00:00"))
       = false
    /\ contains marker
         (event_name
            (mkevent_details "Beginners (White/Orng/Yellow)" "2025-01-11T09:00:00"))
       = false.
Proof.
  apply (extracted_details_fit_the_template unit Fake.beginners blank
           (snd (extract_event_details Fake.beginners blank))
           (mkevent_details "Beginners (White/Orng/Yellow)" "2025-01-11T09:00:00")).
  vm_compute. reflexivity.
Defined.

(** X12: [extract_event_details] reads the subject from the first header
    whose name is exactly [Subject]: a message with no such header gives
    no event details, the headers before it and all the headers after
    it, other subjects among them, have no influence, and when its value
    is empty the message gives no event details whatever follows. *)
Theorem first_subject_header_decides (Sv : Type) (w : world Sv) :
  (forall msg : RawMessage,
     (forall h, In h msg -> name h <> "Subject") ->
     extract_event_details msg w
     = (Returned None,
        printed w ["Error: Unable to find subject line in the email."]))
  /\ (forall (before after : list header) (subject : string),
        (forall h, In h before -> name h <> "Subject") ->
        extract_event_details
          (before ++ mkheader "Subject" subject :: after)%list w
        = extract_event_details [mkheader "Subject" subject] w)
  /\ (forall (before after : list header),
        (forall h, In h before -> name h <> "Subject") ->
        extract_event_details (before ++ mkheader "Subject" "" :: after)%list w
        = (Returned None,
           printed w ["Error: Unable to find subject line in the email."])).
Proof.
  assert (Hf : forall (before after : list header) (subject : string),
            (forall h, In h before -> name h <> "Subject") ->
            find_subject (before ++ mkheader "Subject" subject :: after)%list
            = Some subject).
  { intros before after subject H.
    induction before as [|h hs IH]; [reflexivity|].
    cbn [app find_subject].
    destruct (String.eqb_spec (name h) "Subject") as [E|_].
    - exfalso. apply (H h); [now left | exact E].
    - apply IH. intros h' Hin. apply H. now right. }
  split; [|split].
  - intros msg H. unfold extract_event_details.
    replace (find_subject msg) with (@None string); [reflexivity|].
    induction msg as [|h hs IH]; [reflexivity|].
    cbn [find_subject].
    destruct (String.eqb_spec (name h) "Subject") as [E|_].
    + exfalso. apply (H h); [now left | exact E].
    + apply IH. intros h' Hin. apply H. now right.
  - intros before after subject H. unfold extract_event_details.
    now rewrite (Hf before after subject H).
  - intros before after H. unfold extract_event_details.
    now rewrite (Hf before after "" H).
Qed.

End ExtractionProperties.

Module ParserProperties.

Import Datetime Strptime Shape Script PyStr PyStrFacts DatetimeFacts StrptimeFacts
  ShapeFacts Letters Written LetterFacts NameFacts WrittenFacts CaseFacts.

(** X13: [parse_event_time] reads a time as it is written: for every
    time [dt] that exists, with its seconds at zero, the string that shows
    [dt] under the name of any of the seven week days, full or
    abbreviated, with the month in full or abbreviated, and with the day
    and the hour each in two digits or without a leading zero, is parsed
    to [dt].  The week day is not checked against the date. *)
Theorem written_time_is_read (dt : datetime) (wd : nat) (D H : string) :
  valid dt = true -> second dt = 0%Z -> (wd < 7)%nat ->
  writes (day dt) D -> writes (hour12 (hour dt)) H ->
  let mo := Z.to_nat (month dt) in
  try_formats (written (nth wd day_name "") (nth mo month_name "") D H dt) formats
  = Some dt
  /\ try_formats (written (nth wd day_name "") (nth mo month_abbr "") D H dt) formats
     = Some dt
  /\ try_formats (written (nth wd day_abbr "") (nth mo month_name "") D H dt) formats
     = Some dt
  /\ try_formats (written (nth wd day_abbr "") (nth mo month_abbr "") D H dt) formats
     = Some dt.
Proof.
  intros V S0 Hwd HD HH mo.
  destruct (strptime_written dt wd D H V S0 Hwd HD HH) as (P1 & P2 & P3 & P4).
  fold mo in P1, P2, P3, P4.
  destruct pattern_formats as (T1 & T2 & T3 & T4).
  pose proof (valid_year dt V) as (_ & Hmo & _).
  assert (Hmo' : (1 <= mo <= 12)%nat) by (subst mo; lia).
  assert (Ha1 : forall M, strptime (written (nth wd day_abbr "") M D H dt)
                            "%A, %B %d, %Y %I:%M %p" = None).
  { intros M. apply (no_way_no_parse _ _ _ T1).
    apply full_day_rejects_abbreviation, Hwd. }
  assert (Ha2 : forall M, strptime (written (nth wd day_abbr "") M D H dt)
                            "%A, %b %d, %Y %I:%M %p" = None).
  { intros M. apply (no_way_no_parse _ _ _ T2).
    apply full_day_rejects_abbreviation, Hwd. }
  assert (Hb : mo <> 5%nat ->
               strptime (written (nth wd day_name "") (nth mo month_abbr "") D H dt)
                 "%A, %B %d, %Y %I:%M %p" = None
               /\ strptime (written (nth wd day_abbr "") (nth mo month_abbr "") D H dt)
                    "%a, %B %d, %Y %I:%M %p" = None).
  { intros E.
    destruct (full_month_rejects_abbreviation wd mo
                (D ++ ", " ++ pad4 (year dt) ++ " " ++ H ++ ":"
                 ++ pad2 (minute dt) ++ " "
                 ++ (if (hour dt <? 12)%Z then "AM" else "PM")) Hwd Hmo' E)
      as [R1 R3].
    split; [apply (no_way_no_parse _ _ _ T1 R1) | apply (no_way_no_parse _ _ _ T3 R3)]. }
  unfold formats. cbn [try_formats].
  split; [now rewrite P1|].
  split; [|split].
  - destruct (Nat.eq_dec mo 5) as [E|E].
    + rewrite E in *. rewrite may_is_may. now rewrite P1.
    + destruct (Hb E) as [-> _]. now rewrite P2.
  - now rewrite Ha1, Ha2, P3.
  - rewrite Ha1, Ha2.
    destruct (Nat.eq_dec mo 5) as [E|E].
    + rewrite E in *. rewrite may_is_may. now rewrite P3.
    + destruct (Hb E) as [_ ->]. now rewrite P4.
Qed.

(** Saturday the 11th of January 2025, at nine, written under the name
    of Monday and without a leading zero. *)
Lemma written_time_is_read_witness :
  try_formats "Monday, January 11, 2025 9:00 AM" formats
  = Some (mkdatetime 2025 1 11 9 0 0)
  /\ try_formats "Monday, Jan 11, 2025 9:00 AM" formats
     = Some (mkdatetime 2025 1 11 9 0 0)
  /\ try_formats "Mon, January 11, 2025 9:00 AM" formats
     = Some (mkdatetime 2025 1 11 9 0 0)
  /\ try_formats "Mon, Jan 11, 2025 9:00 AM" formats
     = Some (mkdatetime 2025 1 11 9 0 0).
Proof.
  apply (written_time_is_read (mkdatetime 2025 1 11 9 0 0) 0 "11" "9").
  - reflexivity.
  - reflexivity.
  - lia.
  - left. reflexivity.
  - right. reflexivity.
Defined.

(** X14: the case of the letters of a time string does not matter: two
    strings that are the same once in lower case are parsed alike by
    [parse_event_time], to the same time or not at all. *)
Theorem letter_case_does_not_matter (s s' : string) :
  lower s = lower s' ->
  try_formats s formats = try_formats s' formats
  /\ forall (Sv : Type) (w : world Sv),
       fst (parse_event_time s w) = fst (parse_event_time s' w).
Proof.
  intros H.
  assert (E : try_formats s formats = try_formats s' formats).
  { now rewrite <- (try_formats_lower s), <- (try_formats_lower s'), H. }
  split; [exact E|]. intros Sv w.
  rewrite !ExtractFacts.parse_event_time_run, E.
  destruct (try_formats s' formats); reflexivity.
Qed.


(** The time string of the first scenario, in capitals. *)
Lemma letter_case_does_not_matter_witness :
  try_formats "SATURDAY, JANUARY 11, 2025 9:00 am" formats
  = try_formats "Saturday, January 11, 2025 9:00 AM" formats
  /\ forall (Sv : Type) (w : world Sv),
       fst (parse_event_time "SATURDAY, JANUARY 11, 2025 9:00 am" w)
       = fst (parse_event_time "Saturday, January 11, 2025 9:00 AM" w).
Proof.
  apply (letter_case_does_not_matter "SATURDAY, JANUARY 11, 2025 9:00 am"
           "Saturday, January 11, 2025 9:00 AM").
  reflexivity.
Defined.

End ParserProperties.

(* ================================================================== *)
(** * Runs on concrete inputs *)
(* ================================================================== *)

Example split_on_three : PyStr.split " on " "a on b on c" = ["a"; "b"; "c"].
Proof. reflexivity. Qed.

Example split_on_overlap : PyStr.split " on " " on on x" = [""; "on x"].
Proof. reflexivity. Qed.

Example strip_both : PyStr.strip "  Beginners (W) " = "Beginners (W)".
Proof. reflexivity. Qed.

Example ord2ymd_examples :
  Datetime.ord2ymd 1 = (1, 1, 1)%Z
  /\ Datetime.ord2ymd Datetime.MAXORDINAL = (9999, 12, 31)%Z
  /\ Datetime.ord2ymd (Datetime.ymd2ord 2024 2 29) = (2024, 2, 29)%Z
  /\ Datetime.weekday (Datetime.mkdatetime 2025 1 11 9 0 0) = 5%Z.
Proof. repeat split; reflexivity. Qed.

Example add_seconds_examples :
  Datetime.add_seconds (Datetime.mkdatetime 2024 12 31 23 30 0) 3600
  = Some (Datetime.mkdatetime 2025 1 1 0 30 0)
  /\ Datetime.add_seconds (Datetime.mkdatetime 9999 12 31 23 30 0) 3600 = None.
Proof. repeat split; reflexivity. Qed.

Example strptime_examples :
  Strptime.strptime "Saturday, February 30, 2025 9:00 AM" "%A, %B %d, %Y %I:%M %p" = None
  /\ Strptime.strptime "Saturday, January 11, 0000 9:00 AM" "%A, %B %d, %Y %I:%M %p" = None
  /\ Strptime.strptime "monday, JANUARY  5, 2025  12:07 pm" "%A, %B %d, %Y %I:%M %p"
     = Some (Datetime.mkdatetime 2025 1 5 12 7 0).
Proof. repeat split; vm_compute; reflexivity. Qed.

(** Scenario 2 of the specification: the same message run twice against
    the same calendar creates one event the first time and none the
    second. *)
Example same_message_twice :
  let svc := Script.Fake.svc (-21600) (-21600) in
  let first :=
    Script.main svc "a@studio.example" "b@studio.example" "q" 1
      (Script.Fake.start_world
         (Script.Fake.mkstate [("m1", Script.Fake.beginners)] [])) in
  let second :=
    Script.main svc "a@studio.example" "b@studio.example" "q" 1
      (Script.Fake.start_world (Script.remote (snd first))) in
  last (Script.stdout (snd first)) "" = "Process completed. 1 events were created."
  /\ Spec.inserted (Script.calls (snd first)) = 1%Z
  /\ last (Script.stdout (snd second)) "" = "Process completed. 0 events were created."
  /\ Spec.insert_calls (Script.calls (snd second)) = [].
Proof. repeat split; vm_compute; reflexivity. Qed.
